(** * newsagg scraper: a shallow embedding of the scraping pipeline

  The development follows the Python sources of the scraper package:

  - [models/article.py]                ([Article], [to_dict])
  - [services/sentiment_analyzer.py]   ([analyze_text_sentiment_and_terms])
  - [services/article_service.py]      ([create_articles_batch])
  - [scrapers/*.py]                    (the four registered scrapers)
  - [main.py]                          ([ScraperOrchestrator.scrape_all])

  Python values are modelled by the data the code manipulates: [str] as
  [string] (characters are code points below 256), JSON values as the
  inductive [json], [datetime] as a record of its fields, and every
  interaction with the outside (clock, HTTP, inference provider, feed
  parser) as a query to an oracle of the [World].  Exceptions are explicit:
  a computation returns [Ok v] or [Raise e]. *)

From Stdlib Require Import ZArith List String Ascii Bool Lia Arith Permutation.
From Stdlib Require Import Floats.SpecFloat.
Import ListNotations.

Open Scope Z_scope.

(** ** Python exceptions and results *)

Inductive exn : Type :=
| RequestException
| ValueError
| TypeError
| OverflowError
| AttributeError
| KeyError
| OtherException (tag : nat).

Inductive Res (A : Type) : Type :=
| Ok (a : A)
| Raise (e : exn).

Arguments Ok {A} a.
Arguments Raise {A} e.

Definition is_ok {A} (r : Res A) : bool :=
match r with Ok _ => true | Raise _ => false end.

(** ** Python strings *)

Module Py.

Definition code (c : ascii) : Z := Z.of_N (N_of_ascii c).

Definition chr (z : Z) : ascii := ascii_of_N (Z.to_N z).

(** [str.isspace] on code points below 256. *)
Definition isspace (c : ascii) : bool :=
  let n := code c in
  ((9 <=? n) && (n <=? 13)) || ((28 <=? n) && (n <=? 32))
  || (n =? 133) || (n =? 160).

Definition is_ascii_upper (c : ascii) : bool :=
  let n := code c in (65 <=? n) && (n <=? 90).

Definition is_ascii_lower (c : ascii) : bool :=
  let n := code c in (97 <=? n) && (n <=? 122).

Definition is_ascii_letter (c : ascii) : bool :=
  is_ascii_upper c || is_ascii_lower c.

(** Upper-case code points below 256: A-Z and the Latin-1 capitals. *)
Definition is_upper (c : ascii) : bool :=
  let n := code c in
  is_ascii_upper c || ((192 <=? n) && (n <=? 222) && negb (n =? 215)).

Definition lower_char (c : ascii) : ascii :=
  if is_upper c then chr (code c + 32) else c.

(** [s.lower()] *)
Fixpoint lower (s : string) : string :=
  match s with
  | EmptyString => EmptyString
  | String c s' => String (lower_char c) (lower s')
  end.

(** [s.lstrip()] *)
Fixpoint lstrip (s : string) : string :=
  match s with
  | EmptyString => EmptyString
  | String c s' => if isspace c then lstrip s' else s
  end.

(** [s.rstrip()] *)
Fixpoint rstrip (s : string) : string :=
  match s with
  | EmptyString => EmptyString
  | String c s' =>
      match rstrip s' with
      | EmptyString => if isspace c then EmptyString else String c EmptyString
      | r => String c r
      end
  end.

(** [s.strip()] *)
Definition strip (s : string) : string := rstrip (lstrip s).

(** [needle in hay] *)
Fixpoint contains (needle hay : string) : bool :=
  match hay with
  | EmptyString => String.prefix needle EmptyString
  | String _ hay' => String.prefix needle hay || contains needle hay'
  end.

(** [s[:n]] *)
Definition take (n : nat) (s : string) : string := String.substring 0 n s.

Definition len (s : string) : Z := Z.of_nat (String.length s).

(** [bool(s)] *)
Definition nonempty (s : string) : bool :=
  match s with EmptyString => false | _ => true end.

(** ["%0<width>d" % n] for a non-negative [n]. *)
Fixpoint digits (fuel : nat) (n : Z) (acc : string) : string :=
  let acc' := String (chr (48 + n mod 10)) acc in
  match fuel with
  | O => acc'
  | S fuel' => if n / 10 =? 0 then acc' else digits fuel' (n / 10) acc'
  end.

Definition str_of_nonneg (n : Z) : string :=
  digits (Z.to_nat (Z.log2 n)) n EmptyString.

Fixpoint zeros (k : nat) : string :=
  match k with O => EmptyString | S k' => String "0" (zeros k') end.

Definition fmt_d (width : nat) (n : Z) : string :=
  let s := str_of_nonneg n in
  (zeros (width - String.length s) ++ s)%string.

(** [item in tuple_of_strings] *)
Definition str_in (s : string) (l : list string) : bool :=
  existsb (String.eqb s) l.

End Py.

(** ** JSON values, as [json.loads] and [response.json()] deliver them *)

Unset Elimination Schemes.
Inductive json : Type :=
| JNull
| JBool (b : bool)
| JInt (n : Z)
| JFloat (f : spec_float)
| JStr (s : string)
| JArr (items : list json)
| JObj (fields : list (string * json)).
Set Elimination Schemes.

Module PyVal.

(** IEEE binary64, the format of a Python [float]. *)
Definition prec : Z := 53.
Definition emax : Z := 1024.

Definition float_is_zero (f : spec_float) : bool :=
  match f with S754_zero _ => true | _ => false end.

(** [bool(v)] *)
Definition truthy (v : json) : bool :=
  match v with
  | JNull => false
  | JBool b => b
  | JInt n => negb (n =? 0)
  | JFloat f => negb (float_is_zero f)
  | JStr s => Py.nonempty s
  | JArr l => match l with [] => false | _ => true end
  | JObj l => match l with [] => false | _ => true end
  end.

(** [a or b] *)
Definition py_or (a b : json) : json := if truthy a then a else b.

(** [isinstance(v, dict)] *)
Definition is_dict (v : json) : bool :=
  match v with JObj _ => true | _ => false end.

Definition is_list (v : json) : bool :=
  match v with JArr _ => true | _ => false end.

(** [d.get(key)] on the fields of a dict; [None] when the key is absent. *)
Fixpoint lookup (fields : list (string * json)) (key : string) : option json :=
  match fields with
  | [] => None
  | (k, v) :: rest => if String.eqb k key then Some v else lookup rest key
  end.

(** [d.get(key, default)] *)
Definition dict_get (fields : list (string * json)) (key : string) (default : json) : json :=
  match lookup fields key with Some v => v | None => default end.

(** [v.get(key, default)] for an arbitrary value: only a dict has [get]. *)
Definition get (v : json) (key : string) (default : json) : Res json :=
  match v with
  | JObj fields => Ok (dict_get fields key default)
  | _ => Raise AttributeError
  end.

(** [len(v)] *)
Definition py_len (v : json) : Res Z :=
  match v with
  | JStr s => Ok (Py.len s)
  | JArr l => Ok (Z.of_nat (List.length l))
  | JObj l => Ok (Z.of_nat (List.length l))
  | _ => Raise TypeError
  end.

(** [v[:n]]: lists and strings can be sliced, a dict cannot. *)
Definition py_slice (n : nat) (v : json) : Res json :=
  match v with
  | JStr s => Ok (JStr (Py.take n s))
  | JArr l => Ok (JArr (firstn n l))
  | JObj _ => Raise TypeError
  | _ => Raise TypeError
  end.

(** [float(n)] for an int: correctly rounded, [OverflowError] past the
    largest double. *)
Definition float_of_int (n : Z) : Res spec_float :=
  match binary_normalize prec emax n 0 false with
  | S754_infinity _ => Raise OverflowError
  | f => Ok f
  end.

Definition b2z (b : bool) : Z := if b then 1 else 0.

(** A running total of the orchestrator: an [int] until a [float] is added. *)
Inductive num : Type :=
| NInt (n : Z)
| NFloat (f : spec_float).

(** [total + v] *)
Definition add (total : num) (v : json) : Res num :=
  match total, v with
  | NInt a, JInt b => Ok (NInt (a + b))
  | NInt a, JBool b => Ok (NInt (a + b2z b))
  | NInt a, JFloat f =>
      match float_of_int a with
      | Ok fa => Ok (NFloat (SFadd prec emax fa f))
      | Raise e => Raise e
      end
  | NFloat fa, JInt b =>
      match float_of_int b with
      | Ok fb => Ok (NFloat (SFadd prec emax fa fb))
      | Raise e => Raise e
      end
  | NFloat fa, JBool b =>
      match float_of_int (b2z b) with
      | Ok fb => Ok (NFloat (SFadd prec emax fa fb))
      | Raise e => Raise e
      end
  | NFloat fa, JFloat f => Ok (NFloat (SFadd prec emax fa f))
  | _, _ => Raise TypeError
  end.

(** Exact comparison of a float with an int, as [==] does. *)
Definition float_eq_int (f : spec_float) (n : Z) : bool :=
  match f with
  | S754_zero _ => n =? 0
  | S754_finite s m e =>
      let v := if s then - Z.pos m else Z.pos m in
      if 0 <=? e then n =? v * 2 ^ e else n * 2 ^ (- e) =? v
  | _ => false
  end.

(** [a == b] on the hashable values of JSON (everything but lists and dicts). *)
Definition py_eqb (a b : json) : bool :=
  match a, b with
  | JNull, JNull => true
  | JStr s, JStr t => String.eqb s t
  | JBool x, JBool y => Bool.eqb x y
  | JBool x, JInt n | JInt n, JBool x => b2z x =? n
  | JInt n, JInt m => n =? m
  | JBool x, JFloat f | JFloat f, JBool x => float_eq_int f (b2z x)
  | JInt n, JFloat f | JFloat f, JInt n => float_eq_int f n
  | JFloat f, JFloat g => SFeqb f g
  | _, _ => false
  end.

Definition hashable (v : json) : bool :=
  match v with JArr _ | JObj _ => false | _ => true end.

Definition is_nan (v : json) : bool :=
  match v with JFloat S754_nan => true | _ => false end.

(** The key test of a dict: the same object, or an equal one.  Every [NaN]
    of a decoded text is the one object the decoder keeps for that token, so
    two of them are the same key although they are not equal; the other
    values compare by [==]. *)
Definition same_key (a b : json) : bool :=
  (is_nan a && is_nan b) || py_eqb a b.

(** Insertion of the keys one by one, keeping the first occurrence. *)
Fixpoint dedup (seen : list json) (l : list json) : list json :=
  match l with
  | [] => []
  | x :: l' =>
      if existsb (same_key x) seen then dedup seen l'
      else x :: dedup (seen ++ [x]) l'
  end.

Fixpoint chars (s : string) : list json :=
  match s with
  | EmptyString => []
  | String c s' => JStr (String c EmptyString) :: chars s'
  end.

(** [list(dict.fromkeys(v))] *)
Definition list_fromkeys (v : json) : Res (list json) :=
  match v with
  | JArr items =>
      if forallb hashable items then Ok (dedup [] items) else Raise TypeError
  | JStr s => Ok (dedup [] (chars s))
  | JObj fields => Ok (dedup [] (map (fun kv => JStr (fst kv)) fields))
  | _ => Raise TypeError
  end.

End PyVal.

(** ** [datetime]: calendar fields and an optional UTC offset *)

Module Datetime.

(** [tzoffset] is [utcoffset()] in microseconds; [None] for a naive value. *)
Record datetime : Type := mkdt {
  year : Z; month : Z; day : Z;
  hour : Z; minute : Z; second : Z; microsecond : Z;
  tzoffset : option Z
}.

Definition MINYEAR : Z := 1.
Definition MAXYEAR : Z := 9999.

Definition us_per_second : Z := 1000000.
Definition us_per_day : Z := 86400 * us_per_second.

(** Days since 1970-01-01 of a proleptic Gregorian date. *)
Definition days_from_civil (y m d : Z) : Z :=
  let y' := if m <=? 2 then y - 1 else y in
  let era := y' / 400 in
  let yoe := y' - era * 400 in
  let mp := if 2 <? m then m - 3 else m + 9 in
  let doy := (153 * mp + 2) / 5 + d - 1 in
  let doe := yoe * 365 + yoe / 4 - yoe / 100 + doy in
  era * 146097 + doe - 719468.

(** The proleptic Gregorian date of a day number: the day within its
    400-year era, the year of the era, the day of the year counted from
    the first of March, and the month counted from March. *)
Definition yoe_of_doe (doe : Z) : Z :=
  (doe - doe / 1460 + doe / 36524 - doe / 146096) / 365.

Definition doy_of (doe yoe : Z) : Z :=
  doe - (365 * yoe + yoe / 4 - yoe / 100).

Definition mp_of (doy : Z) : Z := (5 * doy + 2) / 153.

Definition civil_from_days (z : Z) : Z * Z * Z :=
  let z' := z + 719468 in
  let era := z' / 146097 in
  let doe := z' - era * 146097 in
  let yoe := yoe_of_doe doe in
  let doy := doy_of doe yoe in
  let mp := mp_of doy in
  let d := doy - (153 * mp + 2) / 5 + 1 in
  let m := if mp <? 10 then mp + 3 else mp - 9 in
  let y := yoe + era * 400 in
  (if m <=? 2 then y + 1 else y, m, d).

(** Wall-clock fields as microseconds since 1970-01-01T00:00:00 (no offset
    applied). *)
Definition wall_us (dt : datetime) : Z :=
  (((days_from_civil (year dt) (month dt) (day dt) * 24 + hour dt) * 60
    + minute dt) * 60 + second dt) * us_per_second + microsecond dt.

Definition of_wall_us (t : Z) (tz : option Z) : datetime :=
  let days := t / us_per_day in
  let rem := t mod us_per_day in
  let '(y, m, d) := civil_from_days days in
  let secs := rem / us_per_second in
  mkdt y m d (secs / 3600) (secs / 60 mod 60) (secs mod 60)
       (rem mod us_per_second) tz.

(** [dt + timedelta(microseconds=delta)]: the result must stay within
    [MINYEAR..MAXYEAR], Python raises [OverflowError] otherwise. *)
Definition add_us (dt : datetime) (delta : Z) : Res datetime :=
  let r := of_wall_us (wall_us dt + delta) (tzoffset dt) in
  if (MINYEAR <=? year r) && (year r <=? MAXYEAR) then Ok r
  else Raise OverflowError.

(** [dt.replace(tzinfo=...)] *)
Definition replace_tzinfo (dt : datetime) (tz : option Z) : datetime :=
  mkdt (year dt) (month dt) (day dt) (hour dt) (minute dt) (second dt)
       (microsecond dt) tz.

(** The UTC offset [+HH:MM[:SS[.ffffff]]] of [isoformat]. *)
Definition format_offset (off : Z) : string :=
  let sign := if off <? 0 then "-"%string else "+"%string in
  let a := Z.abs off in
  let hh := a / (3600 * us_per_second) in
  let r := a mod (3600 * us_per_second) in
  let mm := r / (60 * us_per_second) in
  let ss := r mod (60 * us_per_second) in
  (sign ++ Py.fmt_d 2 hh ++ ":" ++ Py.fmt_d 2 mm
   ++ (if Z.eqb ss 0 then ""
       else ":" ++ Py.fmt_d 2 (Z.div ss us_per_second)
            ++ (if Z.eqb (Z.modulo ss us_per_second) 0 then ""
                else "." ++ Py.fmt_d 6 (Z.modulo ss us_per_second))))%string.

(** [dt.isoformat()] *)
Definition isoformat (dt : datetime) : string :=
  (Py.fmt_d 4 (year dt) ++ "-" ++ Py.fmt_d 2 (month dt) ++ "-"
   ++ Py.fmt_d 2 (day dt) ++ "T" ++ Py.fmt_d 2 (hour dt) ++ ":"
   ++ Py.fmt_d 2 (minute dt) ++ ":" ++ Py.fmt_d 2 (second dt)
   ++ (if Z.eqb (microsecond dt) 0 then "" else "." ++ Py.fmt_d 6 (microsecond dt))
   ++ match tzoffset dt with
      | None => ""
      | Some off => format_offset off
      end)%string.

(** A UTC offset must lie strictly between -24 and +24 hours: [utcoffset()]
    raises [ValueError] for any other. *)
Definition valid_offset (off : Z) : bool :=
  (- us_per_day <? off) && (off <? us_per_day).

(** [dt.astimezone(zone)] for an aware [dt]: [zone] gives the zone's UTC
    offset in seconds at a UTC wall time (microseconds since the epoch).
    The offset of [dt] is read and checked, [dt] is brought to UTC, and the
    zone's offset is added; both additions can leave the range of
    [datetime].  The offset of the zone is checked when it is read back from
    the result, which [isoformat()] does: the model raises that [ValueError]
    here, after the conversion. *)
Definition astimezone (zone : Z -> Z) (dt : datetime) : Res datetime :=
  match tzoffset dt with
  | None => Raise ValueError
  | Some off =>
      if negb (valid_offset off) then Raise ValueError
      else
        match add_us dt (- off) with
        | Raise e => Raise e
        | Ok utc =>
            let zoff := zone (wall_us utc) * us_per_second in
            match add_us (replace_tzinfo utc (Some zoff)) zoff with
            | Raise e => Raise e
            | Ok local =>
                if valid_offset zoff then Ok local else Raise ValueError
            end
        end
  end.

(** [datetime(y, m, d, hh, mm, ss)], which validates its arguments. *)
Definition is_leap (y : Z) : bool :=
  (y mod 4 =? 0) && (negb (y mod 100 =? 0) || (y mod 400 =? 0)).

Definition days_in_month (y m : Z) : Z :=
  if m =? 2 then (if is_leap y then 29 else 28)
  else if (m =? 4) || (m =? 6) || (m =? 9) || (m =? 11) then 30 else 31.

Definition valid_fields (y m d hh mm ss : Z) : bool :=
  (MINYEAR <=? y) && (y <=? MAXYEAR) && (1 <=? m) && (m <=? 12)
  && (1 <=? d) && (d <=? days_in_month y m)
  && (0 <=? hh) && (hh <=? 23) && (0 <=? mm) && (mm <=? 59)
  && (0 <=? ss) && (ss <=? 59).

Definition make (y m d hh mm ss : Z) : Res datetime :=
  if valid_fields y m d hh mm ss then Ok (mkdt y m d hh mm ss 0 None)
  else Raise ValueError.


(** The IANA rule for Pacific/Auckland in force since 2007: NZST (+12:00),
    and NZDT (+13:00) from the last Sunday of September, 02:00 NZST, to the
    first Sunday of April, 03:00 NZDT.  Both switches fall on the preceding
    Saturday at 14:00 UTC. *)
Definition weekday_sun0 (days : Z) : Z := (days + 4) mod 7.

Definition nz_dst_end_utc (y : Z) : Z :=
  let d1 := days_from_civil y 4 1 in
  let first_sunday := d1 + (7 - weekday_sun0 d1) mod 7 in
  ((first_sunday - 1) * 24 + 14) * 3600 * us_per_second.

Definition nz_dst_start_utc (y : Z) : Z :=
  let d30 := days_from_civil y 9 30 in
  let last_sunday := d30 - weekday_sun0 d30 in
  ((last_sunday - 1) * 24 + 14) * 3600 * us_per_second.

Definition pacific_auckland_rule (utc_us : Z) : Z :=
  let '(y, _, _) := civil_from_days (utc_us / us_per_day) in
  if (nz_dst_end_utc y <=? utc_us) && (utc_us <? nz_dst_start_utc y)
  then 12 * 3600 else 13 * 3600.

End Datetime.

(** ** Articles and their wire format *)

Module ArticleModel.

Import Datetime.

(** What [Article.published_date] can hold: a [datetime], a [str], or a
    value of another type (the attribute is not type-checked). *)
Inductive PublishedDate : Type :=
| PDDatetime (dt : datetime)
| PDString (s : string)
| PDOther.

Record Article : Type := mkArticle {
  title : string;
  description : string;
  url : string;
  source : string;
  category : string;
  published_date : PublishedDate;
  content : string;
  sentiment_label : string;
  sentiment_score : spec_float;
  sentiment_confidence : spec_float;
  positive_words : list json;
  negative_words : list json
}.

(** The dict built by [to_dict], key by key. *)
Record WireArticle : Type := mkWire {
  w_title : string;
  w_description : string;
  w_url : string;
  w_source : string;
  w_category : string;
  w_publishedDate : string;
  w_content : string;
  w_sentimentLabel : string;
  w_sentimentScore : spec_float;
  w_sentimentConfidence : spec_float;
  w_positiveWords : list json;
  w_negativeWords : list json
}.

Definition set_content (a : Article) (c : string) : Article :=
  mkArticle (title a) (description a) (url a) (source a) (category a)
            (published_date a) c (sentiment_label a) (sentiment_score a)
            (sentiment_confidence a) (positive_words a) (negative_words a).

Definition set_sentiment (a : Article) (label : string)
  (score confidence : spec_float) (pos neg : list json) : Article :=
  mkArticle (title a) (description a) (url a) (source a) (category a)
            (published_date a) (content a) label score confidence pos neg.

End ArticleModel.

(** ** The outside world *)

(** One element of the inference provider's classification output. *)
Record ClassificationElement : Type := mkElem {
  ce_label : string;
  ce_score : spec_float
}.

(** A [requests] response. *)
Record Response : Type := mkResponse {
  status_code : Z;
  text : string
}.

(** An entry of a parsed feed: the keys the scrapers read.  [None] stands
    for an absent key (or attribute). *)
Record FeedEntry : Type := mkEntry {
  fe_title : option string;
  fe_link : option string;
  fe_summary : option string;
  fe_published_parsed : option (Z * Z * Z * Z * Z * Z);
  fe_links : option (list (option string))
}.

(** An [<article>] element of a parsed page, as a handle. *)
Definition Element : Type := nat.

(** What [_extract_article_from_element] hands to [_create_article]. *)
Record ArticleFields : Type := mkFields {
  af_title : string;
  af_description : string;
  af_url : string;
  af_category : option string
}.

(** Every query to the outside is one event of the run's trace. *)
Inductive Event : Type :=
| EvNow
| EvParseDate (s : string)
| EvClassify (text : string)
| EvGenerate (prompt : string)
| EvExtract (url : string)
| EvPost (url : string) (payload : list ArticleModel.WireArticle)
| EvFeed (url : string)
| EvHttpGet (url : string).

(** The oracles.  An oracle that takes a [nat] is asked at a moment of the
    run (the number of queries made so far), so the same request can be
    answered differently from one call to the next.  The others are the
    library functions whose result depends on their argument only. *)
Record World : Type := mkWorld {
  (** [datetime.now(tz.UTC)], microseconds since the epoch *)
  clock : nat -> Z;
  (** [dateutil.parser.parse], which completes missing fields from the
      current date *)
  dateutil_parse : nat -> string -> Res Datetime.datetime;
  (** [tz.gettz("Pacific/Auckland")]: seconds east of UTC at a UTC time *)
  pacific_auckland : Z -> Z;
  (** [json.loads] and [response.json()]: [Raise ValueError] when the text
      is not JSON (the decoder's [JSONDecodeError] is a [ValueError]); the
      decoder can raise other exceptions too ([RecursionError] on a deeply
      nested text) *)
  json_loads : string -> Res json;
  (** [_client.text_classification] and [_client.text_generation] *)
  text_classification : nat -> string -> Res (list ClassificationElement);
  text_generation : nat -> string -> Res string;
  (** [services.content_extractor.extract_content] *)
  extract_content : nat -> string -> Res (option string);
  (** [requests.post(url, json=payload)] *)
  requests_post : nat -> string -> list ArticleModel.WireArticle -> Res Response;
  (** [feedparser.parse(url).entries] *)
  feedparser_parse : nat -> string -> Res (list FeedEntry);
  (** [BeautifulSoup(html, 'html.parser').get_text(strip=True)] *)
  soup_get_text : string -> Res string;
  (** the [<article>] elements of the fetched page, and what
      [_extract_article_from_element] finds in each *)
  fetch_article_elements : nat -> string -> Res (list Element);
  extract_article_from_element : Element -> option ArticleFields;
  (** [os.getenv] *)
  getenv : string -> option string
}.

(** ** Computations: a trace of queries, and a result or an exception *)

Definition Trace : Type := list Event.

Definition M (A : Type) : Type := Trace -> Res A * Trace.

Definition ret {A} (a : A) : M A := fun tr => (Ok a, tr).

Definition raise {A} (e : exn) : M A := fun tr => (Raise e, tr).

Definition lift {A} (r : Res A) : M A := fun tr => (r, tr).

Definition bind {A B} (m : M A) (f : A -> M B) : M B :=
  fun tr =>
    match m tr with
    | (Ok a, tr') => f a tr'
    | (Raise e, tr') => (Raise e, tr')
    end.

(** [try: m  except <catches>: handler] *)
Definition try_except {A} (m : M A) (catches : exn -> bool) (handler : M A) : M A :=
  fun tr =>
    match m tr with
    | (Ok a, tr') => (Ok a, tr')
    | (Raise e, tr') => if catches e then handler tr' else (Raise e, tr')
    end.

(** One query: the oracle is asked at the current moment. *)
Definition ask {A} (ev : Event) (oracle : nat -> Res A) : M A :=
  fun tr => (oracle (List.length tr), tr ++ [ev]).

Declare Scope monad_scope.
Delimit Scope monad_scope with monad.
Notation "x <- m ;; k" := (bind m (fun x => k))
  (at level 100, m at next level, right associativity) : monad_scope.
Notation "m ;;; k" := (bind m (fun _ => k))
  (at level 100, right associativity) : monad_scope.
Open Scope monad_scope.

(** [except Exception] *)
Definition any_exception (e : exn) : bool := true.

(** [except requests.exceptions.RequestException] *)
Definition is_request_exception (e : exn) : bool :=
  match e with RequestException => true | _ => false end.

(** [except (ValueError, TypeError, OverflowError)] *)
Definition is_parse_error (e : exn) : bool :=
  match e with ValueError | TypeError | OverflowError => true | _ => false end.

(** [except ValueError] *)
Definition is_value_error (e : exn) : bool :=
  match e with ValueError => true | _ => false end.

(** [suppress(json.JSONDecodeError, TypeError, ValueError)] *)
Definition is_decode_error (e : exn) : bool :=
  match e with ValueError | TypeError => true | _ => false end.

(** [[f(x) for x in l]] *)
Fixpoint mapM {A B} (f : A -> M B) (l : list A) : M (list B) :=
  match l with
  | [] => ret []
  | x :: l' => y <- f x ;; ys <- mapM f l' ;; ret (y :: ys)
  end.

(** ** models/article.py *)

Module ArticleCode.

Import Datetime ArticleModel.

Section WithWorld.

Variable W : World.

(** [datetime.now(tz.UTC)] *)
Definition now_utc : M datetime :=
  ask EvNow (fun t => Ok (of_wall_us (clock W t) (Some 0))).

(** [Article.__init__], as the scrapers call it: the content and the
    sentiment fields take their default values. *)
Definition Article_init (title description url source category : string)
  (published_date : option PublishedDate) : M Article :=
  pd <- match published_date with
        | None => dt <- now_utc ;; ret (PDDatetime dt)
        | Some pd => ret pd
        end ;;
  ret (mkArticle title description url source category pd ""
                 "neutral" (S754_zero false) (S754_zero false) [] []).

(** [Article.to_dict] *)
Definition to_dict (self : Article) : M WireArticle :=
  let pacific := pacific_auckland W in
  dt <- match published_date self with
        | PDDatetime d => ret (Some d)
        | PDString s =>
            try_except
              (d <- ask (EvParseDate s) (fun t => dateutil_parse W t s) ;;
               ret (Some d))
              is_parse_error
              (ret None)
        | PDOther => ret None
        end ;;
  dt <- match dt with
        | None => now_utc
        | Some d => ret d
        end ;;
  let dt := match tzoffset dt with
            | None => replace_tzinfo dt (Some 0)
            | Some _ => dt
            end in
  nz_dt <- lift (astimezone pacific dt) ;;
  let pub_date := isoformat nz_dt in
  ret (mkWire (title self) (description self) (url self) (source self)
              (category self) pub_date (content self) (sentiment_label self)
              (sentiment_score self) (sentiment_confidence self)
              (positive_words self) (negative_words self)).

End WithWorld.

End ArticleCode.

(** ** services/sentiment_analyzer.py *)

Module SentimentAnalyzer.

Record SentimentTerms : Type := mkTerms {
  label : string;
  score : spec_float;
  confidence : spec_float;
  positive_words : list json;
  negative_words : list json
}.

Definition float_zero : spec_float := S754_zero false.

(** [SentimentTerms()] *)
Definition default_terms : SentimentTerms :=
  mkTerms "neutral" float_zero float_zero [] [].

(** The double nearest to 0.6. *)
Definition float_0_6 : spec_float := S754_finite false 5404319552844595 (-53).

Definition _STOP_WORDS : list string :=
  [ "the"; "and"; "for"; "that"; "with"; "this"; "from"; "have"; "has"; "had"; "were"; "was";
    "are"; "is"; "but"; "not"; "you"; "your"; "their"; "they"; "them"; "our"; "ours"; "its";
    "his"; "her"; "him"; "she"; "who"; "what"; "when"; "where"; "why"; "how"; "after"; "before";
    "into"; "onto"; "over"; "under"; "about"; "between"; "against"; "during"; "while"; "would";
    "could"; "should"; "will"; "just"; "than"; "then"; "there"; "here"; "also"; "more"; "most";
    "some"; "such"; "only"; "very"; "much"; "many"; "few"; "all"; "any"; "each"; "both"; "news";
    "said"; "says"; "say"; "new"; "report"; "reports"; "today"; "yesterday"; "tomorrow"; "committee"
  ]%string.

(** The character class [[a-zA-Z'-]] of [_WORD_RE]. *)
Definition is_word_char (c : ascii) : bool :=
  Py.is_ascii_letter c || (Py.code c =? 39) || (Py.code c =? 45).

Definition emit (cur : string) : list string :=
  if (3 <=? String.length cur)%nat then [cur] else [].

(** [_WORD_RE.findall(s)] for [[a-zA-Z][a-zA-Z'-]{2,}]: [cur] is the run of
    class characters read so far from a letter on.  A match is a letter and
    all the class characters that follow it, at least two; a shorter run
    holds no match. *)
Fixpoint findall_from (cur : string) (s : string) : list string :=
  match s with
  | EmptyString => emit cur
  | String c s' =>
      if Py.nonempty cur then
        if is_word_char c then findall_from (cur ++ String c EmptyString) s'
        else emit cur ++ findall_from EmptyString s'
      else if Py.is_ascii_letter c then findall_from (String c EmptyString) s'
      else findall_from EmptyString s'
  end.

Definition _WORD_RE_findall (s : string) : list string :=
  findall_from EmptyString s.

(** The loop of [_extract_candidate_words]. *)
Fixpoint candidate_loop (limit : nat) (tokens seen words : list string) : list string :=
  match tokens with
  | [] => words
  | token :: rest =>
      if Py.str_in token _STOP_WORDS then candidate_loop limit rest seen words
      else if Py.str_in token seen then candidate_loop limit rest seen words
      else
        let seen' := token :: seen in
        let words' := words ++ [token] in
        if (limit <=? List.length words')%nat then words'
        else candidate_loop limit rest seen' words'
  end.

Definition _extract_candidate_words (text : string) (limit : nat) : list string :=
  candidate_loop limit (_WORD_RE_findall (Py.lower text)) [] [].

(** [re.search(r"\{.*\}", text, re.DOTALL)]: from the first opening brace to
    the last closing brace after it. *)
Fixpoint from_first_brace (s : string) : option string :=
  match s with
  | EmptyString => None
  | String c s' => if Py.code c =? 123 then Some s' else from_first_brace s'
  end.

Fixpoint upto_last_brace (s : string) : option string :=
  match s with
  | EmptyString => None
  | String c s' =>
      match upto_last_brace s' with
      | Some r => Some (String c r)
      | None => if Py.code c =? 125 then Some (String c EmptyString) else None
      end
  end.

Definition search_braces (s : string) : option string :=
  match from_first_brace s with
  | None => None
  | Some after =>
      match upto_last_brace after with
      | None => None
      | Some r => Some (String (Py.chr 123) r)
      end
  end.

(** [ranked.sort(key=lambda item: item[0], reverse=True)]: stable, largest
    key first. *)
Fixpoint insert_ranked (x : spec_float * string) (l : list (spec_float * string))
  : list (spec_float * string) :=
  match l with
  | [] => [x]
  | y :: l' => if SFltb (fst x) (fst y) then y :: insert_ranked x l' else x :: l
  end.

Definition sort_ranked (l : list (spec_float * string)) : list (spec_float * string) :=
  fold_right insert_ranked [] l.

Definition top_words (ranked : list (spec_float * string)) : list json :=
  map (fun item => JStr (snd item)) (firstn 8 ranked).

Definition nl : string := String (Py.chr 10) EmptyString.

Definition extraction_prompt (text : string) : string :=
  ("Extract sentiment-bearing words from this news text." ++ nl
   ++ "Return STRICT JSON only with keys: positive_words, negative_words." ++ nl
   ++ "Each value must be an array of unique lowercase words." ++ nl ++ nl
   ++ "TEXT: " ++ text)%string.

(** The two assignments from the parsed block: the first can succeed and the
    second fail, and then the first list is kept. *)
Definition terms_of_data (data : json) : list json * list json :=
  match PyVal.get data "positive_words" (JArr []) with
  | Raise _ => ([], [])
  | Ok pv =>
      match PyVal.list_fromkeys pv with
      | Raise _ => ([], [])
      | Ok positive_words =>
          match PyVal.get data "negative_words" (JArr []) with
          | Raise _ => (positive_words, [])
          | Ok nv =>
              match PyVal.list_fromkeys nv with
              | Raise _ => (positive_words, [])
              | Ok negative_words => (positive_words, negative_words)
              end
          end
      end
  end.

Section WithWorld.

Variable W : World.

Definition classify (text : string) : M (list ClassificationElement) :=
  ask (EvClassify text) (fun t => text_classification W t text).

Definition generate (prompt : string) : M string :=
  ask (EvGenerate prompt) (fun t => text_generation W t prompt).

(** [_parse_json_block]: [suppress(json.JSONDecodeError, TypeError,
    ValueError)] lets every other exception of the decoder through. *)
Definition _parse_json_block (text : string) : Res json :=
  match search_braces text with
  | None => Ok (JObj [])
  | Some block =>
      match json_loads W block with
      | Ok v => Ok v
      | Raise e => if is_decode_error e then Ok (JObj []) else Raise e
      end
  end.

(** One turn of the loop of [_classify_words_with_sentiment_model]; the body
    runs under [suppress(Exception)]. *)
Definition classify_word (word : string)
  (ranked : list (spec_float * string) * list (spec_float * string))
  : M (list (spec_float * string) * list (spec_float * string)) :=
  try_except
    (out <- classify word ;;
     match out with
     | [] => ret ranked
     | top :: _ =>
         let label := Py.lower (ce_label top) in
         let confidence := ce_score top in
         if SFltb confidence float_0_6 then ret ranked
         else if String.eqb label "positive"
              then ret (fst ranked ++ [(confidence, word)], snd ranked)
         else if String.eqb label "negative"
              then ret (fst ranked, snd ranked ++ [(confidence, word)])
         else ret ranked
     end)
    any_exception
    (ret ranked).

Fixpoint classify_words (words : list string)
  (ranked : list (spec_float * string) * list (spec_float * string))
  : M (list (spec_float * string) * list (spec_float * string)) :=
  match words with
  | [] => ret ranked
  | word :: rest => r <- classify_word word ranked ;; classify_words rest r
  end.

Definition _classify_words_with_sentiment_model (text : string)
  : M (list json * list json) :=
  ranked <- classify_words (_extract_candidate_words text 30) ([], []) ;;
  let positive_ranked := sort_ranked (fst ranked) in
  let negative_ranked := sort_ranked (snd ranked) in
  ret (top_words positive_ranked, top_words negative_ranked).

Definition analyze_text_sentiment_and_terms (title description : string)
  : M SentimentTerms :=
  let text := Py.strip (Py.strip title ++ " " ++ Py.strip description) in
  if negb (Py.nonempty text) then ret default_terms
  else
    (* 1) Sentiment pipeline *)
    lsc <- try_except
             (out <- classify text ;;
              match out with
              | top :: _ =>
                  ret (Py.lower (ce_label top), ce_score top, ce_score top)
              | [] => ret ("neutral"%string, float_zero, float_zero)
              end)
             any_exception
             (ret ("neutral"%string, float_zero, float_zero)) ;;
    let '(label, score, confidence) := lsc in
    (* 2) Inference pipeline for term extraction *)
    let prompt := extraction_prompt text in
    words <- try_except
               (gen <- generate prompt ;;
                data <- lift (_parse_json_block gen) ;;
                ret (terms_of_data data))
               any_exception
               (ret ([], [])) ;;
    words <- match words with
             | ([], []) => _classify_words_with_sentiment_model text
             | _ => ret words
             end ;;
    ret (mkTerms label score confidence (fst words) (snd words)).

End WithWorld.

End SentimentAnalyzer.

(** ** services/article_service.py *)

Module ArticleService.

Import ArticleModel.

(** [_truncate(s, length)] on a string. *)
Definition _truncate (s : string) (length : nat) : string :=
  if (length <? String.length s)%nat then (Py.take length s ++ "...")%string
  else s.

(** [base_url.rstrip('/')] *)
Fixpoint rstrip_slash (s : string) : string :=
  match s with
  | EmptyString => EmptyString
  | String c s' =>
      match rstrip_slash s' with
      | EmptyString => if Py.code c =? 47 then EmptyString else String c EmptyString
      | r => String c r
      end
  end.

Record Service : Type := mkService {
  base_url : string;
  articles_endpoint : string;
  articles_url : string
}.

(** [ArticleService.__init__] *)
Definition Service_init (base_url articles_endpoint : string) : Service :=
  let base := rstrip_slash base_url in
  mkService base articles_endpoint (base ++ articles_endpoint)%string.

(** The dict returned by [create_articles_batch]. *)
Record BatchResult : Type := mkBatch {
  added : json;
  skipped : json;
  errors : json
}.

Section WithWorld.

Variable W : World.

(** [requests.post(batch_url, json=articles_data, timeout=30)] *)
Definition post (url : string) (payload : list WireArticle) : M Response :=
  ask (EvPost url payload) (fun t => requests_post W t url payload).

(** [ArticleService.create_articles_batch] *)
Definition create_articles_batch (self : Service) (articles : list Article)
  : M BatchResult :=
  try_except
    (let batch_url := (articles_url self ++ "/batch")%string in
     articles_data <- mapM (ArticleCode.to_dict W) articles ;;
     response <- post batch_url articles_data ;;
     if status_code response =? 200 then
       (* response.json(), a ValueError giving the empty dict *)
       result <- try_except (lift (json_loads W (text response)))
                            is_value_error (ret (JObj [])) ;;
       let result := if PyVal.is_dict result then result else JObj [] in
       added <- lift (PyVal.get result "added" (JInt 0)) ;;
       skipped <- lift (PyVal.get result "skipped" (JInt 0)) ;;
       e <- lift (PyVal.get result "errors" (JArr [])) ;;
       let errors := PyVal.py_or e (JArr []) in
       (* the log line evaluates len(errors) *)
       _ <- lift (PyVal.py_len errors) ;;
       _ <- (if PyVal.truthy errors
             then sample <- lift (PyVal.py_slice 5 errors) ;;
                  lift (PyVal.py_len sample)
             else ret 0) ;;
       ret (mkBatch added skipped errors)
     else
       ret (mkBatch (JInt 0) (JInt 0) (JArr [JStr (_truncate (text response) 500)])))
    is_request_exception
    (ret (mkBatch (JInt 0) (JInt 0) (JArr [JStr "request exception"]))).

End WithWorld.

End ArticleService.

(** ** scrapers/ *)

Module Scrapers.

Import Datetime ArticleModel.

(** The attributes set by [BaseScraper.__init__]. *)
Record Config : Type := mkConfig {
  source : string;
  base_url : string;
  category : string;
  max_articles : Z;
  timeout : Z
}.

(** [BaseScraper.__init__] with its defaults [max_articles=20], [timeout=10]. *)
Definition BaseScraper_init (source base_url category : string) : Config :=
  mkConfig source base_url category 20 10.

(** A scraper as the orchestrator sees it: its attributes and [scrape()]. *)
Record Scraper : Type := mkScraper {
  config : Config;
  scrape : M (list Article)
}.

(** [for x in l: acc = body(x, acc)] *)
Fixpoint for_each {A S} (body : A -> S -> M S) (l : list A) (acc : S) : M S :=
  match l with
  | [] => ret acc
  | x :: l' => acc' <- body x acc ;; for_each body l' acc'
  end.

Definition get_str (v : option string) (default : string) : string :=
  match v with Some s => s | None => default end.

(** The first six fields of [entry.published_parsed] given to [datetime],
    then [isoformat()]; under a bare [except: pass]. *)
Definition published_iso (entry : FeedEntry) : option string :=
  match fe_published_parsed entry with
  | None => None
  | Some (y, m, d, hh, mm, ss) =>
      match Datetime.make y m d hh mm ss with
      | Ok dt => Some (isoformat dt)
      | Raise _ => None
      end
  end.

Definition as_published (pub_date : option string) : option PublishedDate :=
  match pub_date with Some s => Some (PDString s) | None => None end.

(** First rule whose pattern occurs in the URL, else the default. *)
Fixpoint first_match (rules : list (string * string)) (url default : string) : string :=
  match rules with
  | [] => default
  | (pattern, cat) :: rest =>
      if Py.contains pattern url then cat else first_match rest url default
  end.

Section WithWorld.

Variable W : World.

Definition feed_entries (url : string) : M (list FeedEntry) :=
  ask (EvFeed url) (fun t => feedparser_parse W t url).

(** [BaseScraper._create_article] *)
Definition _create_article (self : Config) (f : ArticleFields) : M Article :=
  let cat := match af_category f with
             | Some c => if Py.nonempty c then c else category self
             | None => category self
             end in
  ArticleCode.Article_init W (Py.strip (af_title f)) (Py.strip (af_description f))
                           (af_url f) (source self) cat None.

(** *** scrapers/stuff_scraper.py

    In the three feed scrapers the body of the loop catches every exception
    itself, so the outer handler is only ever reached from the feed query,
    when [articles] is still empty. *)

Definition stuff_entry (self : Config) (entry : FeedEntry) (articles : list Article)
  : M (list Article) :=
  try_except
    (let title := Py.strip (get_str (fe_title entry) "") in
     let url := Py.strip (get_str (fe_link entry) "") in
     if negb (Py.nonempty title) || negb (Py.nonempty url) then ret articles
     else
       let description := Py.strip (get_str (fe_summary entry) title) in
       let pub_date := published_iso entry in
       let category :=
         first_match [("/nz-news/", "NZ News"); ("/world/", "World");
                      ("/sport/", "Sport"); ("/business/", "Business");
                      ("/entertainment/", "Entertainment")]%string
                     url (category self) in
       article <- ArticleCode.Article_init W title description url (source self)
                                           category (as_published pub_date) ;;
       ret (articles ++ [article]))
    any_exception
    (ret articles).

Definition stuff_scrape (self : Config) : M (list Article) :=
  try_except
    (entries <- feed_entries (base_url self) ;;
     match entries with
     | [] => ret []
     | _ => for_each (stuff_entry self) (firstn 20 entries) []
     end)
    any_exception
    (ret []).

Definition StuffScraper : Scraper :=
  let self := BaseScraper_init "Stuff NZ" "https://www.stuff.co.nz/rss" "General" in
  mkScraper self (stuff_scrape self).

(** *** scrapers/rnz_scraper.py *)

(** Markup in the description is reduced to its text. *)
Definition plain_description (description : string) : M string :=
  if Py.contains "<" description then lift (soup_get_text W description)
  else ret description.

Definition rnz_entry (self : Config) (entry : FeedEntry) (articles : list Article)
  : M (list Article) :=
  try_except
    (let title := Py.strip (get_str (fe_title entry) "") in
     let url := Py.strip (get_str (fe_link entry) "") in
     if negb (Py.nonempty title) || negb (Py.nonempty url) then ret articles
     else
       description <- plain_description (Py.strip (get_str (fe_summary entry) title)) ;;
       let pub_date := published_iso entry in
       let category :=
         first_match [("/national/", "National"); ("/world/", "World");
                      ("/political/", "Politics"); ("/business/", "Business");
                      ("/sport/", "Sport")]%string
                     url (category self) in
       article <- ArticleCode.Article_init W title description url (source self)
                                           category (as_published pub_date) ;;
       ret (articles ++ [article]))
    any_exception
    (ret articles).

Definition rnz_scrape (self : Config) : M (list Article) :=
  try_except
    (entries <- feed_entries (base_url self) ;;
     match entries with
     | [] => ret []
     | _ => for_each (rnz_entry self) (firstn 20 entries) []
     end)
    any_exception
    (ret []).

Definition RNZScraper : Scraper :=
  let self := BaseScraper_init "RNZ" "https://www.rnz.co.nz/rss/news" "News" in
  mkScraper self (rnz_scrape self).

(** *** scrapers/onenews_scraper.py *)

(** The first link of the entry whose [url] names the target domain. *)
Fixpoint resolve_link (links : list (option string)) (url : string) : string :=
  match links with
  | [] => url
  | Some u :: rest => if Py.contains "1news.co.nz" u then u else resolve_link rest url
  | None :: rest => resolve_link rest url
  end.

Definition onenews_entry (self : Config) (entry : FeedEntry) (articles : list Article)
  : M (list Article) :=
  try_except
    (let title := Py.strip (get_str (fe_title entry) "") in
     let url := Py.strip (get_str (fe_link entry) "") in
     if negb (Py.nonempty title) || negb (Py.nonempty url) then ret articles
     else
       let url := match fe_links entry with
                  | Some links =>
                      if Py.contains "news.google.com" url
                      then resolve_link links url else url
                  | None => url
                  end in
       description <- plain_description (Py.strip (get_str (fe_summary entry) title)) ;;
       let pub_date := published_iso entry in
       let category :=
         first_match [("/new-zealand/", "New Zealand"); ("/world/", "World");
                      ("/politics/", "Politics"); ("/sport/", "Sport")]%string
                     url (category self) in
       article <- ArticleCode.Article_init W title description url (source self)
                                           category (as_published pub_date) ;;
       ret (articles ++ [article]))
    any_exception
    (ret articles).

Definition onenews_scrape (self : Config) : M (list Article) :=
  try_except
    (entries <- feed_entries (base_url self) ;;
     match entries with
     | [] => ret []
     | _ => for_each (onenews_entry self) (firstn 20 entries) []
     end)
    any_exception
    (ret []).

Definition OneNewsScraper : Scraper :=
  let self :=
    BaseScraper_init "1News NZ"
      "https://news.google.com/rss/search?q=site:1news.co.nz&hl=en-NZ&gl=NZ&ceid=NZ:en"
      "Latest" in
  mkScraper self (onenews_scrape self).

(** *** scrapers/nzherald_scraper.py *)

(** [_extract_article_from_element]: what the element holds is the oracle's
    answer; the article is built by [_create_article]; any exception gives
    [None]. *)
Definition _extract_article_from_element (self : Config) (elem : Element)
  : M (option Article) :=
  try_except
    (match extract_article_from_element W elem with
     | None => ret None
     | Some f => a <- _create_article self f ;; ret (Some a)
     end)
    any_exception
    (ret None).

Fixpoint nzherald_loop (self : Config) (article_elements : list Element)
  (articles : list Article) (seen_urls : list string) : M (list Article) :=
  match article_elements with
  | [] => ret articles
  | article_elem :: rest =>
      if max_articles self <=? Z.of_nat (List.length articles) then ret articles
      else
        st <- try_except
                (article <- _extract_article_from_element self article_elem ;;
                 match article with
                 | Some a =>
                     if Py.str_in (url a) seen_urls then ret (articles, seen_urls)
                     else ret (articles ++ [a], url a :: seen_urls)
                 | None => ret (articles, seen_urls)
                 end)
                any_exception
                (ret (articles, seen_urls)) ;;
        nzherald_loop self rest (fst st) (snd st)
  end.

Definition nzherald_scrape (self : Config) : M (list Article) :=
  try_except
    (article_elements <-
       ask (EvHttpGet (base_url self))
           (fun t => fetch_article_elements W t (base_url self)) ;;
     match article_elements with
     | [] => ret []
     | _ => nzherald_loop self article_elements [] []
     end)
    any_exception
    (ret []).

Definition NZHeraldScraper : Scraper :=
  let self := BaseScraper_init "NZ Herald" "https://www.nzherald.co.nz/latest-news/"
                               "General" in
  mkScraper self (nzherald_scrape self).

(** *** scrapers/__init__.py *)

Definition SCRAPER_REGISTRY : list Scraper :=
  [StuffScraper; RNZScraper; OneNewsScraper; NZHeraldScraper].

Definition get_all_scrapers : list Scraper := SCRAPER_REGISTRY.

End WithWorld.

End Scrapers.

(** ** main.py *)

Module Orchestrator.

Import ArticleModel.

(** The three counters of [scrape_all]. *)
Record Totals : Type := mkTotals {
  total_scraped : Z;
  total_added : PyVal.num;
  total_skipped : PyVal.num
}.

Definition zero_totals : Totals :=
  mkTotals 0 (PyVal.NInt 0) (PyVal.NInt 0).

Record ScraperOrchestrator : Type := mkOrchestrator {
  article_service : ArticleService.Service;
  scrapers : list Scrapers.Scraper
}.

(** [extract_flag and extract_flag.lower() not in ('0', 'false', 'no')] *)
Definition extraction_enabled (extract_flag : string) : bool :=
  Py.nonempty extract_flag
  && negb (Py.str_in (Py.lower extract_flag) ["0"; "false"; "no"]%string).

(** [try: m  except Exception: pass], the variable keeping the value it had. *)
Definition protect {A} (current : A) (m : M A) : M A :=
  try_except m any_exception (ret current).

Section WithWorld.

Variable W : World.

(** [os.getenv(name, default)] *)
Definition getenv_default (name default : string) : string :=
  match getenv W name with Some v => v | None => default end.

(** [ScraperOrchestrator.__init__] *)
Definition ScraperOrchestrator_init : ScraperOrchestrator :=
  mkOrchestrator
    (ArticleService.Service_init
       (getenv_default "API_BASE_URL" "http://localhost:5000")
       (getenv_default "API_ARTICLES_ENDPOINT" "/api/articles"))
    (Scrapers.get_all_scrapers W).

(** The first loop over the articles: the sentiment fields are set. *)
Definition enrich_sentiment (art : Article) : M Article :=
  sentiment <- SentimentAnalyzer.analyze_text_sentiment_and_terms
                 W (title art) (description art) ;;
  ret (set_sentiment art
         (SentimentAnalyzer.label sentiment)
         (SentimentAnalyzer.score sentiment)
         (SentimentAnalyzer.confidence sentiment)
         (SentimentAnalyzer.positive_words sentiment)
         (SentimentAnalyzer.negative_words sentiment)).

(** The body of the second loop, under its own [try]. *)
Definition extract_one (art : Article) : M Article :=
  protect art
    (if Py.nonempty (content art) then ret art
     else
       c <- ask (EvExtract (url art)) (fun t => extract_content W t (url art)) ;;
       match c with
       | Some s => if Py.nonempty s then ret (set_content art s) else ret art
       | None => ret art
       end).

Definition extract_phase (articles : list Article) : M (list Article) :=
  let extract_flag := getenv_default "SCRAPE_EXTRACT_CONTENT" "1" in
  if extraction_enabled extract_flag then mapM extract_one articles
  else ret articles.

(** The sample of the errors taken for the log. *)
Definition log_errors (result : ArticleService.BatchResult) : M unit :=
  let errors := PyVal.py_or (ArticleService.errors result) (JArr []) in
  if PyVal.truthy errors then
    _ <- lift (PyVal.py_slice 5 errors) ;;
    _ <- lift (PyVal.py_len errors) ;;
    ret tt
  else ret tt.

(** One turn of the loop over the scrapers.  The whole turn is under
    [try ... except Exception]: an exception ends the turn, and the counters
    keep what was added to them before it. *)
Definition scrape_one (self : ScraperOrchestrator) (scraper : Scrapers.Scraper)
  (totals : Totals) : M Totals :=
  protect totals
    (articles <- Scrapers.scrape scraper ;;
     match articles with
     | [] => ret totals
     | _ =>
         let totals :=
           mkTotals (total_scraped totals + Z.of_nat (List.length articles))
                    (total_added totals) (total_skipped totals) in
         protect totals
           (articles <- mapM enrich_sentiment articles ;;
            articles <- extract_phase articles ;;
            result <- ArticleService.create_articles_batch
                        W (article_service self) articles ;;
            added <- lift (PyVal.add (total_added totals)
                                     (ArticleService.added result)) ;;
            let totals :=
              mkTotals (total_scraped totals) added (total_skipped totals) in
            protect totals
              (skipped <- lift (PyVal.add (total_skipped totals)
                                          (ArticleService.skipped result)) ;;
               let totals :=
                 mkTotals (total_scraped totals) (total_added totals) skipped in
               protect totals (log_errors result ;;; ret totals)))
     end).

(** [ScraperOrchestrator.scrape_all]: the returned dict holds the three
    counters. *)
Definition scrape_all (self : ScraperOrchestrator) : M Totals :=
  Scrapers.for_each (scrape_one self) (scrapers self) zero_totals.

End WithWorld.

End Orchestrator.

(** * Specification-side definitions *)

Import Datetime ArticleModel.

(** ** The content-extraction toggle *)

(** The toggle disables extraction when it is set to the empty string or,
    letter case aside, to one of [0], [false], [no]. *)
Definition toggle_disables (v : option string) : Prop :=
  exists s, v = Some s /\
    (s = ""%string \/ Py.lower s = "0"%string \/ Py.lower s = "false"%string
     \/ Py.lower s = "no"%string).

(** The toggle as the specification words it: disabled exactly by the three
    values [0], [false], [no]. *)
Definition toggle_disables_as_specified (v : option string) : Prop :=
  v = Some "0"%string \/ v = Some "false"%string \/ v = Some "no"%string.

Definition extraction_toggle (W : World) : bool :=
  Orchestrator.extraction_enabled
    (Orchestrator.getenv_default W "SCRAPE_EXTRACT_CONTENT" "1").

(** ** A small program logic for [M]

    [spec m Q E]: from any trace, [m] only appends events, all of them in
    [E], and its result satisfies [Q]. *)
Definition spec {A} (m : M A) (Q : Res A -> Prop) (E : Event -> Prop) : Prop :=
  forall tr, exists r evs, m tr = (r, tr ++ evs) /\ Q r /\ Forall E evs.

Definition returns {A} (P : A -> Prop) (r : Res A) : Prop :=
  exists a, r = Ok a /\ P a.

(** ** Content extraction *)

(** An extraction that brings nothing: an exception, [None], or empty text. *)
Definition extraction_failed (r : Res (option string)) : Prop :=
  match r with
  | Ok (Some s) => s = ""%string
  | Ok None => True
  | Raise _ => True
  end.

(** What the enrichment phase may do to one article. *)
Definition enriched (W : World) (a a' : Article) : Prop :=
  url a' = url a
  /\ (content a <> ""%string -> content a' = content a)
  /\ (content a = ""%string ->
      (forall t, extraction_failed (extract_content W t (url a))) ->
      content a' = ""%string).

Definition inference_event (e : Event) : Prop :=
  match e with EvClassify _ | EvGenerate _ => True | _ => False end.

Definition enrichment_event (articles : list Article) (e : Event) : Prop :=
  inference_event e
  \/ exists a, In a articles /\ content a = ""%string /\ e = EvExtract (url a).

(** ** The counters of a run *)

Definition int_of (n : PyVal.num) : Z :=
  match n with PyVal.NInt z => z | PyVal.NFloat _ => 0 end.

Definition int_totals (t : Orchestrator.Totals) : Prop :=
  exists a k, Orchestrator.total_added t = PyVal.NInt a
              /\ Orchestrator.total_skipped t = PyVal.NInt k.

Definition add_totals (t d : Orchestrator.Totals) : Orchestrator.Totals :=
  Orchestrator.mkTotals
    (Orchestrator.total_scraped t + Orchestrator.total_scraped d)
    (PyVal.NInt (int_of (Orchestrator.total_added t) + int_of (Orchestrator.total_added d)))
    (PyVal.NInt (int_of (Orchestrator.total_skipped t) + int_of (Orchestrator.total_skipped d))).

(** What each scraper of a run adds to the counters: its turn replayed from
    zeroed counters, at the moment the run reaches it. *)
Fixpoint contributions (W : World) (self : Orchestrator.ScraperOrchestrator)
  (l : list Scrapers.Scraper) (tr : Trace) : list Orchestrator.Totals :=
  match l with
  | [] => []
  | s :: rest =>
      let '(r, tr') := Orchestrator.scrape_one W self s Orchestrator.zero_totals tr in
      match r with
      | Ok d => d :: contributions W self rest tr'
      | Raise _ => Orchestrator.zero_totals :: contributions W self rest tr'
      end
  end.

(** ** Word lists *)

(** No two entries are equal for Python: a later one never [==] an earlier
    one. *)
Definition py_distinct (l : list json) : Prop :=
  ForallOrdPairs (fun x y => PyVal.py_eqb y x = false) l.

(** Deduplication of a list of words that keeps the first occurrences. *)
Fixpoint keep_first (seen l : list string) : list string :=
  match l with
  | [] => []
  | x :: l' =>
      if Py.str_in x seen then keep_first seen l'
      else x :: keep_first (seen ++ [x]) l'
  end.

(** [subsequence l1 l2]: [l1] is [l2] with some entries left out, the others
    in their order. *)
Inductive subsequence {A : Type} : list A -> list A -> Prop :=
| subseq_nil : subsequence [] []
| subseq_skip : forall x l1 l2, subsequence l1 l2 -> subsequence l1 (x :: l2)
| subseq_keep : forall x l1 l2, subsequence l1 l2 -> subsequence (x :: l1) (x :: l2).

(** A lowercase term: unchanged by [lower()]. *)
Definition lowercase_term (w : string) : Prop := Py.lower w = w.

(** The shape the specification gives to a word list. *)
Definition capped_lowercase_words (l : list json) : Prop :=
  exists ws, l = map JStr ws /\ NoDup ws /\ Forall lowercase_term ws
             /\ (List.length ws <= 8)%nat.

(** The block decoded from a generated text; the empty object stands for a
    decoding that raises, which leaves the lists empty all the same. *)
Definition decoded_block (W : World) (gen : string) : json :=
  match SentimentAnalyzer._parse_json_block W gen with
  | Ok data => data
  | Raise _ => JObj []
  end.

(** The text the analyzer works on. *)
Definition analyzed_text (title description : string) : string :=
  Py.strip (Py.strip title ++ " " ++ Py.strip description).

(** Every character of a string satisfies [P]. *)
Fixpoint all_chars (P : ascii -> Prop) (s : string) : Prop :=
  match s with
  | EmptyString => True
  | String c s' => P c /\ all_chars P s'
  end.

(** A character that [lower()] leaves alone. *)
Definition lowered (c : ascii) : Prop := Py.lower_char c = c.

(** The words held by a ranked list. *)
Definition ranked_words (l : list (spec_float * string)) : list string :=
  map snd l.

(** No constraint on the events of a computation. *)
Definition any_event (e : Event) : Prop := True.

(** ** Batch submission *)

(** The URL of the batch endpoint. *)
Definition batch_url (self : ArticleService.Service) : string :=
  (ArticleService.articles_url self ++ "/batch")%string.

(** The result substituted for a body that cannot be used. *)
Definition empty_batch : ArticleService.BatchResult :=
  ArticleService.mkBatch (JInt 0) (JInt 0) (JArr []).

(** ** Calendar arithmetic *)

(** The bounds on the intermediate values of [civil_from_days] for one day
    of the era. *)
Definition doe_ok (doe : Z) : bool :=
  let yoe := Datetime.yoe_of_doe doe in
  let mp := Datetime.mp_of (Datetime.doy_of doe yoe) in
  (0 <=? yoe) && (yoe <=? 399) && (0 <=? mp) && (mp <=? 11).

(** [doe_ok] on the [n] days from [z] on. *)
Fixpoint all_from (n : nat) (z : Z) : bool :=
  match n with
  | O => true
  | S k => doe_ok z && all_from k (z + 1)
  end.

(** ** Serialization *)

(** A naive [datetime] is read as UTC. *)
Definition assume_utc (dt : datetime) : datetime :=
  match tzoffset dt with
  | None => replace_tzinfo dt (Some 0)
  | Some _ => dt
  end.

(** The instant a [datetime] denotes, in microseconds since the epoch. *)
Definition utc_instant (dt : datetime) : Z :=
  wall_us dt - match tzoffset dt with Some off => off | None => 0 end.

(** The Auckland local time of the instant of [dt]. *)
Definition auckland_time (W : World) (dt : datetime) : Res datetime :=
  astimezone (pacific_auckland W) (assume_utc dt).

(** The wire format of an article with a given [publishedDate]. *)
Definition wire_of (self : Article) (pub_date : string) : WireArticle :=
  mkWire (title self) (description self) (url self) (source self)
         (category self) pub_date (content self) (sentiment_label self)
         (sentiment_score self) (sentiment_confidence self)
         (positive_words self) (negative_words self).

(** The wire format of an article whose date is read as [dt]. *)
Definition serialized (W : World) (self : Article) (dt : datetime) : Res WireArticle :=
  match auckland_time W dt with
  | Ok nz_dt => Ok (wire_of self (isoformat nz_dt))
  | Raise e => Raise e
  end.

(** The first step of [to_dict]: the stored date as a [datetime], or
    nothing when it cannot be read as one. *)
Definition read_stored (W : World) (self : Article) : M (option datetime) :=
  match published_date self with
  | PDDatetime d => ret (Some d)
  | PDString s =>
      try_except
        (d <- ask (EvParseDate s) (fun t => dateutil_parse W t s) ;; ret (Some d))
        is_parse_error (ret None)
  | PDOther => ret None
  end.

(** The clock read at a moment of the run. *)
Definition now_at (W : World) (t : nat) : datetime :=
  of_wall_us (clock W t) (Some 0).

(** Two serializations of the same article, one after the other. *)
Definition serialize_twice (W : World) (self : Article) : M (WireArticle * WireArticle) :=
  w1 <- ArticleCode.to_dict W self ;;
  w2 <- ArticleCode.to_dict W self ;;
  ret (w1, w2).

(** The stored date reads the same whenever it is read: a [datetime], or a
    string that the parser turns into the same [datetime] at every moment. *)
Definition date_is_fixed (W : World) (self : Article) : Prop :=
  match published_date self with
  | PDDatetime _ => True
  | PDString s => exists d, forall t, dateutil_parse W t s = Ok d
  | PDOther => False
  end.

Definition with_published_date (w : WireArticle) (pub_date : string) : WireArticle :=
  mkWire (w_title w) (w_description w) (w_url w) (w_source w) (w_category w)
         pub_date (w_content w) (w_sentimentLabel w) (w_sentimentScore w)
         (w_sentimentConfidence w) (w_positiveWords w) (w_negativeWords w).

(** * Test fixtures: a small world, a few articles and mock scrapers *)

Module Fixtures.

Definition dq : string := String (Py.chr 34) EmptyString.

Definition quoted (s : string) : string := (dq ++ s ++ dq)%string.

(** Bodies the backend may answer with. *)
Definition body_counts : string :=
  ("{" ++ quoted "added" ++ ": 1, " ++ quoted "skipped" ++ ": 1, "
   ++ quoted "errors" ++ ": []}")%string.

Definition body_empty_object : string := "{}".

Definition body_errors_number : string :=
  ("{" ++ quoted "added" ++ ": 1, " ++ quoted "skipped" ++ ": 0, "
   ++ quoted "errors" ++ ": 5}")%string.

(** Texts the generative model may answer with. *)
Definition gen_growth : string :=
  ("{" ++ quoted "positive_words" ++ ": [" ++ quoted "growth" ++ ", "
   ++ quoted "record" ++ ", " ++ quoted "growth" ++ "], "
   ++ quoted "negative_words" ++ ": []}")%string.

Definition block_nine_words : string :=
  ("{" ++ quoted "positive_words" ++ ": [" ++ quoted "GROWTH" ++ ", "
   ++ quoted "record" ++ ", " ++ quoted "strong" ++ ", " ++ quoted "gain" ++ ", "
   ++ quoted "boost" ++ ", " ++ quoted "surge" ++ ", " ++ quoted "win" ++ ", "
   ++ quoted "rally" ++ ", " ++ quoted "profit" ++ "], "
   ++ quoted "negative_words" ++ ": []}")%string.

Definition gen_nine_words : string := ("Here you go: " ++ block_nine_words)%string.

(** [json.loads] on the texts above. *)
Definition json_table : list (string * json) :=
  [ (body_counts,
     JObj [("added", JInt 1); ("skipped", JInt 1); ("errors", JArr [])]%string);
    (body_empty_object, JObj []);
    (body_errors_number,
     JObj [("added", JInt 1); ("skipped", JInt 0); ("errors", JInt 5)]%string);
    (gen_growth,
     JObj [("positive_words", JArr [JStr "growth"; JStr "record"; JStr "growth"]);
           ("negative_words", JArr [])]%string);
    (block_nine_words,
     JObj [("positive_words",
            JArr [JStr "GROWTH"; JStr "record"; JStr "strong"; JStr "gain";
                  JStr "boost"; JStr "surge"; JStr "win"; JStr "rally";
                  JStr "profit"]);
           ("negative_words", JArr [])]%string) ].

Fixpoint table_lookup (table : list (string * json)) (s : string) : Res json :=
  match table with
  | [] => Raise ValueError
  | (k, v) :: rest => if String.eqb k s then Ok v else table_lookup rest s
  end.

(** The parser knows two complete timestamps and rejects everything else. *)
Definition demo_parse (s : string) : Res datetime :=
  if String.eqb s "2024-01-01T00:00:00" then Ok (mkdt 2024 1 1 0 0 0 0 None)
  else if String.eqb s "9999-12-31T23:59:59" then Ok (mkdt 9999 12 31 23 59 59 0 None)
  else Raise ValueError.

(** A world whose clock starts on 2024-01-01T00:00:00Z and advances by one
    second per query, whose inference provider cannot classify, whose
    generative model answers [gen], whose backend answers 200 with [body],
    and whose environment is [env]. *)
Definition demo_world (body : string) (gen : Res string)
  (env : string -> option string) : World :=
  mkWorld
    (fun t => 1704067200000000 + Z.of_nat t * 1000000)
    (fun _ s => demo_parse s)
    pacific_auckland_rule
    (table_lookup json_table)
    (fun _ _ => Raise (OtherException 0))
    (fun _ _ => gen)
    (fun _ _ => Ok None)
    (fun _ _ _ => Ok (mkResponse 200 body))
    (fun _ _ => Ok [])
    (fun s => Ok s)
    (fun _ _ => Ok [])
    (fun _ => None)
    env.

Definition no_env (name : string) : option string := None.

Definition inference_down : Res string := Raise (OtherException 0).

Definition quiet_world : World := demo_world body_counts inference_down no_env.

Definition article_dated (u : string) (pd : PublishedDate) : Article :=
  mkArticle "Council opens new library" "The library opens on Monday" u
            "Mock" "General" pd "" "neutral"
            (S754_zero false) (S754_zero false) [] [].

Definition new_year_utc : datetime := mkdt 2024 1 1 0 0 0 0 (Some 0).

Definition demo_article (u : string) : Article :=
  article_dated u (PDDatetime new_year_utc).

Definition far_future_article : Article :=
  article_dated "https://example.org/a" (PDDatetime (mkdt 9999 12 31 23 0 0 0 (Some 0))).

Definition far_future_feed_article : Article :=
  article_dated "https://example.org/b" (PDString "9999-12-31T23:59:59").

Definition undated_article : Article :=
  article_dated "https://example.org/c" (PDString "not a date").

(** A scraper whose [scrape()] has a fixed outcome. *)
Definition mock_scraper (name : string) (outcome : Res (list Article)) : Scrapers.Scraper :=
  Scrapers.mkScraper (Scrapers.BaseScraper_init name "" "General") (lift outcome).

Definition good_one : Scrapers.Scraper :=
  mock_scraper "one" (Ok [demo_article "https://example.org/1";
                          demo_article "https://example.org/2"]).

Definition raising : Scrapers.Scraper :=
  mock_scraper "two" (Raise (OtherException 1)).

Definition good_three : Scrapers.Scraper :=
  mock_scraper "three" (Ok [demo_article "https://example.org/3"]).

Definition good_four : Scrapers.Scraper :=
  mock_scraper "four" (Ok [demo_article "https://example.org/4"]).

Definition demo_service : ArticleService.Service :=
  ArticleService.Service_init "http://localhost:5000/" "/api/articles".

Definition demo_orchestrator : Orchestrator.ScraperOrchestrator :=
  Orchestrator.mkOrchestrator demo_service [good_one; raising; good_three; good_four].

Definition env_empty_toggle (name : string) : option string :=
  if String.eqb name "SCRAPE_EXTRACT_CONTENT" then Some ""%string else None.

Definition errors_number_world : World :=
  demo_world body_errors_number inference_down no_env.

Definition empty_object_world : World :=
  demo_world body_empty_object inference_down no_env.

Definition growth_world : World := demo_world body_counts (Ok gen_growth) no_env.

Definition nine_words_world : World :=
  demo_world body_counts (Ok gen_nine_words) no_env.

Definition empty_toggle_world : World :=
  demo_world body_counts inference_down env_empty_toggle.

Definition nine_words : list json :=
  [JStr "GROWTH"; JStr "record"; JStr "strong"; JStr "gain"; JStr "boost";
   JStr "surge"; JStr "win"; JStr "rally"; JStr "profit"]%string.

End Fixtures.

(** * Further definitions *)

(** A string of whitespace only (the empty string included). *)
Definition blank (s : string) : Prop :=
  all_chars (fun c => Py.isspace c = true) s.

(** A match of [_WORD_RE]: a letter, then at least two characters among
    letters, apostrophe and hyphen. *)
Definition word_shaped (w : string) : Prop :=
  match w with
  | EmptyString => False
  | String c rest =>
      Py.is_ascii_letter c = true
      /\ (2 <= String.length rest)%nat
      /\ all_chars (fun c => SentimentAnalyzer.is_word_char c = true) rest
  end.

(** What [findall_from] holds in [cur]: nothing, or a letter followed by
    class characters. *)
Definition run_shaped (cur : string) : Prop :=
  match cur with
  | EmptyString => True
  | String c rest =>
      Py.is_ascii_letter c = true
      /\ all_chars (fun c => SentimentAnalyzer.is_word_char c = true) rest
  end.


(** The provider classifies with label [lab] (letter case aside) and a
    confidence that is not below 0.6. *)
Definition accepts (r : Res (list ClassificationElement)) (lab : string) : Prop :=
  exists top rest,
    r = Ok (top :: rest)
    /\ SFltb (ce_score top) SentimentAnalyzer.float_0_6 = false
    /\ Py.lower (ce_label top) = lab.

(** The state of the per-word loop: every ranked word has been classified
    with the label of its list, is among the words [done], and no word is in
    both lists. *)
Definition ranked_sound (W : World) (done : list string)
  (r : list (spec_float * string) * list (spec_float * string)) : Prop :=
  (forall item, In item (fst r) ->
     In (snd item) done
     /\ exists t, accepts (text_classification W t (snd item)) "positive")
  /\ (forall item, In item (snd r) ->
        In (snd item) done
        /\ exists t, accepts (text_classification W t (snd item)) "negative")
  /\ (forall w, In w (ranked_words (fst r)) -> In w (ranked_words (snd r)) -> False).

(** No character of [s] has code [n]. *)
Definition lacks (n : Z) (s : string) : Prop :=
  all_chars (fun c => Py.code c <> n) s.

(** A run of [k] slashes. *)
Fixpoint slashes (k : nat) : string :=
  match k with
  | O => EmptyString
  | S k' => String "/" (slashes k')
  end.

Definition ends_with_slash (s : string) : Prop :=
  exists p, s = (p ++ "/")%string.

(** ** services/article_service.py: the single-article methods

    [create_article] posts one payload and [get_articles] reads the
    collection; their requests are answered by oracles of their own, asked at
    the moment of the run like those of the world.  The post of the one
    payload is recorded in the trace as [EvPost] with the list of that
    payload. *)

Module ArticleServiceSingle.

Import ArticleModel.

Section WithWorld.

Variable W : World.

(** [requests.post(self.articles_url, json=payload, timeout=10)] *)
Variable requests_post_one : nat -> string -> WireArticle -> Res Response.

(** [requests.get(self.articles_url, timeout=10)] *)
Variable requests_get : nat -> string -> Res Response.

(** [ArticleService.create_article].  The handler of the transport
    exception evaluates [article.to_dict()] again for its log line. *)
Definition create_article (self : ArticleService.Service) (article : Article)
  : M bool :=
  try_except
    (payload <- ArticleCode.to_dict W article ;;
     response <- ask (EvPost (ArticleService.articles_url self) [payload])
                     (fun t => requests_post_one
                                 t (ArticleService.articles_url self) payload) ;;
     if (status_code response =? 200) || (status_code response =? 201)
     then ret true
     else if status_code response =? 409 then ret false
     else ret false)
    is_request_exception
    (_ <- ArticleCode.to_dict W article ;; ret false).

(** [ArticleService.get_articles]; [JNull] is Python's [None]. *)
Definition get_articles (self : ArticleService.Service) : M json :=
  try_except
    (response <- ask (EvHttpGet (ArticleService.articles_url self))
                     (fun t => requests_get t (ArticleService.articles_url self)) ;;
     if status_code response =? 200 then
       (* response.json(), a ValueError giving None *)
       try_except (lift (json_loads W (text response)))
                  is_value_error (ret JNull)
     else ret JNull)
    is_request_exception
    (ret JNull).

End WithWorld.

End ArticleServiceSingle.

(** ** The articles a scraper builds *)

(** An article as a scraper of configuration [self] hands it over: a title
    that is not empty and has no surrounding whitespace, a URL that is not
    empty, the scraper's source, the scraper's category or one of [cats],
    and the defaults of [Article.__init__] for the rest. *)
Definition scraped_article (self : Scrapers.Config) (cats : list string)
  (a : Article) : Prop :=
  title a <> EmptyString
  /\ Py.strip (title a) = title a
  /\ url a <> EmptyString
  /\ source a = Scrapers.source self
  /\ In (category a) (Scrapers.category self :: cats)
  /\ content a = EmptyString
  /\ positive_words a = [] /\ negative_words a = [].

(** The fields the feed scrapers read first. *)
Definition entry_title (entry : FeedEntry) : string :=
  Py.strip (Scrapers.get_str (fe_title entry) "").

Definition entry_url (entry : FeedEntry) : string :=
  Py.strip (Scrapers.get_str (fe_link entry) "").

(** An entry with a title and a link. *)
Definition usable (entry : FeedEntry) : bool :=
  Py.nonempty (entry_title entry) && Py.nonempty (entry_url entry).

(** The article the Stuff scraper builds from an entry. *)
Definition built_from (self : Scrapers.Config) (entry : FeedEntry) (a : Article)
  : Prop :=
  title a = entry_title entry
  /\ url a = entry_url entry
  /\ description a
     = Py.strip (Scrapers.get_str (fe_summary entry) (entry_title entry))
  /\ source a = Scrapers.source self
  /\ (forall iso, Scrapers.published_iso entry = Some iso ->
        published_date a = PDString iso).

(** The source answers with nothing: an exception or an empty list. *)
Definition brings_nothing {A} (r : Res (list A)) : Prop :=
  match r with
  | Ok [] => True
  | Ok (_ :: _) => False
  | Raise _ => True
  end.

(** What [_create_article] guarantees of an article of the page scraper. *)
Definition created_article (self : Scrapers.Config) (a : Article) : Prop :=
  source a = Scrapers.source self
  /\ Py.strip (title a) = title a
  /\ Py.strip (description a) = description a
  /\ content a = EmptyString.

(** The clock is the only thing asked. *)
Definition clock_event (e : Event) : Prop := e = EvNow.

(** ** scrapers/nzherald_scraper.py: the category and the link of an article *)

Module NZHerald.

Local Open Scope string_scope.

(** The dict of [_determine_category], in the order of its keys. *)
Definition category_map : list (string * string) :=
  [ ("/nz/", "New Zealand");
    ("/sport/", "Sport");
    ("/world/", "World");
    ("/business/", "Business");
    ("/entertainment/", "Entertainment");
    ("/lifestyle/", "Lifestyle");
    ("/travel/", "Travel");
    ("/politics/", "Politics");
    ("/opinion/", "Opinion");
    ("/auckland/", "Auckland");
    ("/wellington/", "Wellington");
    ("/sport/rugby/", "Rugby");
    ("/sport/cricket/", "Cricket");
    ("/sport/tennis/", "Tennis");
    ("/sport/boxing/", "Boxing");
    ("/sport/racing/", "Racing");
    ("/viva/", "Lifestyle");
    ("/kahu/", "Kahu") ].

(** [sorted(items, key=lambda x: len(x[0]), reverse=True)]: stable, longest
    pattern first. *)
Fixpoint insert_by_length (x : string * string) (l : list (string * string))
  : list (string * string) :=
  match l with
  | [] => [x]
  | y :: l' =>
      if (String.length (fst x) <? String.length (fst y))%nat
      then y :: insert_by_length x l'
      else x :: l
  end.

Definition sorted_by_length (l : list (string * string)) : list (string * string) :=
  fold_right insert_by_length [] l.

(** [NZHeraldScraper._determine_category] *)
Definition _determine_category (self : Scrapers.Config) (url : string) : string :=
  let url_lower := Py.lower url in
  Scrapers.first_match (sorted_by_length category_map) url_lower
                       (Scrapers.category self).

(** The URLs [_extract_article_from_element] passes over. *)
Definition navigation_patterns : list string :=
  [ "/photo-sales"; "/about-"; "/help-"; "/terms"; "/privacy"; "/subscribe";
    "/newsletters"; "/connect/"; "/topic/"; "/section/" ].

(** [any(x in href for x in [...])] *)
Definition is_navigation (href : string) : bool :=
  existsb (fun x => Py.contains x href) navigation_patterns.

(** The loop over the [href]s of the links of an [<article>] element, with
    its variables [longest_href] and [max_len]. *)
Fixpoint longest_href_loop (hrefs : list string) (longest_href : option string)
  (max_len : nat) : option string * nat :=
  match hrefs with
  | [] => (longest_href, max_len)
  | href :: rest =>
      if negb (Py.nonempty href) || (String.length href <? 80)%nat
      then longest_href_loop rest longest_href max_len
      else if is_navigation href
      then longest_href_loop rest longest_href max_len
      else if (max_len <? String.length href)%nat
      then longest_href_loop rest (Some href) (String.length href)
      else longest_href_loop rest longest_href max_len
  end.

(** The link chosen for the article; [None] where the method returns
    [None] for want of one. *)
Definition longest_href (hrefs : list string) : option string :=
  match fst (longest_href_loop hrefs None 0) with
  | Some href => if Py.nonempty href then Some href else None
  | None => None
  end.

End NZHerald.

(** A pattern list with the longest patterns first. *)
Fixpoint longest_first (l : list (string * string)) : Prop :=
  match l with
  | [] => True
  | x :: l' =>
      Forall (fun y => (String.length (fst y) <= String.length (fst x))%nat) l'
      /\ longest_first l'
  end.

(** A link the page scraper can take for the article's. *)
Definition article_link (href : string) : bool :=
  (80 <=? String.length href)%nat && negb (NZHerald.is_navigation href).

(** ** scrapers/base_scraper.py: the validity check *)

Module BaseScraper.

(** [BaseScraper._is_valid_article]: [bool(title.strip() and url.strip())] *)
Definition _is_valid_article (title url : string) : bool :=
  if Py.nonempty (Py.strip title) then Py.nonempty (Py.strip url) else false.

End BaseScraper.

(** ** services/content_extractor.py: whitespace normalisation *)

Module ContentExtractor.

(** A finished field of [str.split()]: empty fields are not kept. *)
Definition field (cur : string) : list string :=
  if Py.nonempty cur then [cur] else [].

(** [s.split()]: the maximal runs of characters that are not whitespace;
    [cur] is the run read so far. *)
Fixpoint split_from (cur : string) (s : string) : list string :=
  match s with
  | EmptyString => field cur
  | String c s' =>
      if Py.isspace c then field cur ++ split_from EmptyString s'
      else split_from (cur ++ String c EmptyString) s'
  end.

Definition split (s : string) : list string := split_from EmptyString s.

(** [sep.join(words)] *)
Fixpoint join (sep : string) (words : list string) : string :=
  match words with
  | [] => EmptyString
  | [w] => w
  | w :: rest => (w ++ sep ++ join sep rest)%string
  end.

(** [_clean_text] *)
Definition _clean_text (s : string) : string := join " " (split s).

(** What [extract_content] reads off the parsed page, scripts and styles
    removed: the text of the first [<article>] or [<main>] element if there
    is one, the text of each [div], [section], [article] and [p] (reading
    one may raise), the title string and the content of the description
    [meta], each empty when absent. *)
Record Soup : Type := mkSoup {
  main_candidate : option string;
  candidates : list (Res string);
  title_string : string;
  meta_content : string
}.

(** The loop over the candidates: the first of the longest texts. *)
Fixpoint best_text (candidates : list (Res string)) (best : string) : string :=
  match candidates with
  | [] => best
  | Ok t :: rest =>
      if (String.length best <? String.length t)%nat then best_text rest t
      else best_text rest best
  | Raise _ :: rest => best_text rest best
  end.

(** The text taken from a parsed page. *)
Definition page_text (soup : Soup) (max_chars : nat) : option string :=
  match main_candidate soup with
  | Some text => Some (Py.take max_chars (_clean_text text))
  | None =>
      let best := best_text (candidates soup) EmptyString in
      if Py.nonempty best then Some (Py.take max_chars (_clean_text best))
      else
        let combined :=
          Py.strip (_clean_text (title_string soup ++ " " ++ meta_content soup)) in
        if Py.nonempty combined then Some (Py.take max_chars combined) else None
  end.

Section WithPage.

(** [requests.get(url, ...)] with [raise_for_status()], giving the text of
    the response, and [BeautifulSoup(html, 'lxml')] with the queries made on
    it. *)
Variable fetch : nat -> string -> Res string.
Variable parse : string -> Res Soup.

(** [extract_content] *)
Definition extract_content (url : string) (max_chars : nat) : M (option string) :=
  html <- try_except
            (html <- ask (EvHttpGet url) (fun t => fetch t url) ;; ret (Some html))
            is_request_exception
            (ret None) ;;
  match html with
  | None => ret None
  | Some html =>
      try_except
        (soup <- lift (parse html) ;; ret (page_text soup max_chars))
        any_exception
        (ret None)
  end.

End WithPage.

End ContentExtractor.

(** A word: not empty, no whitespace in it. *)
Definition solid (w : string) : Prop :=
  w <> EmptyString /\ all_chars (fun c => Py.isspace c = false) w.

(** The only whitespace of a text is the space character. *)
Definition single_spaced (s : string) : Prop :=
  all_chars (fun c => Py.isspace c = true -> c = " "%char) s.

(** ** What a turn sends to the backend *)

(** The fields that say which story an article is. *)
Definition same_story (a a' : Article) : Prop :=
  title a' = title a /\ description a' = description a /\ url a' = url a
  /\ source a' = source a /\ category a' = category a
  /\ published_date a' = published_date a.

(** The wire article tells the story of the article. *)
Definition wire_story (a : Article) (w : WireArticle) : Prop :=
  w_title w = title a /\ w_description w = description a /\ w_url w = url a
  /\ w_source w = source a /\ w_category w = category a.

(** Reading the clock or parsing a date. *)
Definition date_event (e : Event) : Prop :=
  match e with EvNow | EvParseDate _ => True | _ => False end.

Definition no_event (e : Event) : Prop := False.

(** What a turn asks between the scrape and the post: inference, the dates,
    and the content of the scraped articles. *)
Definition quiet_event (articles : list Article) (e : Event) : Prop :=
  match e with
  | EvClassify _ | EvGenerate _ | EvNow | EvParseDate _ => True
  | EvExtract u => exists a, In a articles /\ u = url a
  | _ => False
  end.

(** The post of a batch, if there is one: to the batch URL, one wire article
    for each article, in order. *)
Definition batch_post (self : ArticleService.Service) (articles : list Article)
  (posted : list Event) : Prop :=
  posted = []
  \/ exists data, posted = [EvPost (batch_url self) data]
                  /\ Forall2 wire_story articles data.

(** The number of articles a scraper hands over at a moment of the run. *)
Definition scraped_count (scraper : Scrapers.Scraper) (tr : Trace) : Z :=
  match fst (Scrapers.scrape scraper tr) with
  | Ok articles => Z.of_nat (List.length articles)
  | Raise _ => 0
  end.

(** ** Values the term extraction cannot use *)

(** A value [list(dict.fromkeys(v))] raises on: not iterable, or a list
    with an unhashable element. *)
Definition unusable (v : json) : Prop :=
  match v with
  | JNull | JBool _ | JInt _ | JFloat _ => True
  | JArr items => exists x, In x items /\ PyVal.hashable x = false
  | JStr _ | JObj _ => False
  end.

(** ** The categories of the feed scrapers *)

(** The rules of the three feed scrapers, in the order of their
    [if]/[elif] chains. *)
Definition stuff_rules : list (string * string) :=
  [("/nz-news/", "NZ News"); ("/world/", "World"); ("/sport/", "Sport");
   ("/business/", "Business"); ("/entertainment/", "Entertainment")]%string.

Definition rnz_rules : list (string * string) :=
  [("/national/", "National"); ("/world/", "World"); ("/political/", "Politics");
   ("/business/", "Business"); ("/sport/", "Sport")]%string.

Definition onenews_rules : list (string * string) :=
  [("/new-zealand/", "New Zealand"); ("/world/", "World");
   ("/politics/", "Politics"); ("/sport/", "Sport")]%string.

(** No pattern of the rules occurs in the URL. *)
Definition no_pattern_of (rules : list (string * string)) (url : string) : Prop :=
  Forall (fun r => Py.contains (fst r) url = false) rules.

(** The category of the article is decided by its URL: it is the category
    of the first rule whose pattern occurs in the URL, and [default] when no
    pattern occurs in it. *)
Definition category_decided (rules : list (string * string)) (default : string)
  (a : Article) : Prop :=
  (category a = default /\ no_pattern_of rules (url a))
  \/ exists pre p post,
       rules = pre ++ (p, category a) :: post
       /\ Py.contains p (url a) = true
       /\ no_pattern_of pre (url a).

(** ** The links of a 1News entry *)

(** A link of an entry that has a [url] naming [1news.co.nz]. *)
Definition names_1news (link : option string) : bool :=
  match link with
  | Some u => Py.contains "1news.co.nz" u
  | None => false
  end.

(** [u] is the address the 1News scraper gives the article of [entry]: the
    entry's link, unless that link is a Google News redirect and the entry
    has links of which one names [1news.co.nz]; it is then the address of
    the first such link. *)
Definition resolved_url (entry : FeedEntry) (u : string) : Prop :=
  match fe_links entry with
  | Some links =>
      if Py.contains "news.google.com" (entry_url entry)
      then (u = entry_url entry /\ Forall (fun l => names_1news l = false) links)
           \/ exists pre post,
                links = pre ++ Some u :: post
                /\ Py.contains "1news.co.nz" u = true
                /\ Forall (fun l => names_1news l = false) pre
      else u = entry_url entry
  | None => u = entry_url entry
  end.

(** The article the 1News scraper builds from an entry. *)
Definition onenews_built (self : Scrapers.Config) (entry : FeedEntry)
  (a : Article) : Prop :=
  title a = entry_title entry
  /\ source a = Scrapers.source self
  /\ resolved_url entry (url a)
  /\ category_decided onenews_rules (Scrapers.category self) a.

(** The description of the entry is plain, or its markup can be removed. *)
Definition description_read (W : World) (entry : FeedEntry) : bool :=
  let d := Py.strip (Scrapers.get_str (fe_summary entry) (entry_title entry)) in
  if Py.contains "<" d then is_ok (soup_get_text W d) else true.

(** The entries of which the 1News scraper makes an article. *)
Definition onenews_kept (W : World) (entry : FeedEntry) : bool :=
  usable entry && description_read W entry.

(** ** The conversion of a date to Auckland time *)







(** ** A feed with three entries *)

Module FeedFixtures.

Local Open Scope string_scope.

Definition entry_rates : FeedEntry :=
  mkEntry (Some "  Rates rise again ") (Some "https://www.stuff.co.nz/business/1")
              None (Some (2024, 1, 1, 0, 0, 0)) None.

Definition entry_untitled : FeedEntry :=
  mkEntry (Some "   ") (Some "https://www.stuff.co.nz/world/2") None None None.

Definition entry_final : FeedEntry :=
  mkEntry (Some "Final tonight") (Some "https://www.stuff.co.nz/sport/3")
              (Some "Kick-off at eight") None None.

(** The quiet world, with a feed that holds the three entries. *)
Definition feed_world : World :=
  let W := Fixtures.quiet_world in
  mkWorld (clock W) (dateutil_parse W) (pacific_auckland W) (json_loads W)
          (text_classification W) (text_generation W) (extract_content W)
          (requests_post W)
          (fun _ _ => Ok [entry_rates; entry_untitled; entry_final])
          (soup_get_text W) (fetch_article_elements W)
          (extract_article_from_element W) (getenv W).

End FeedFixtures.

(** ** Dates at the ends of the calendar, a backend that reports its errors
    as a text, and a Google News feed *)

Module EdgeFixtures.

Local Open Scope string_scope.

(** The first midnight of the calendar, five hours east of UTC: its instant
    lies before the year 1. *)
Definition early_article : Article :=
  Fixtures.article_dated "https://example.org/d"
    (PDDatetime (mkdt 1 1 1 0 0 0 0 (Some (5 * 3600 * 1000000)))).

Definition body_errors_text : string :=
  "{" ++ Fixtures.quoted "skipped" ++ ": 1, "
  ++ Fixtures.quoted "errors" ++ ": " ++ Fixtures.quoted "oops" ++ "}".

(** The quiet world, with a backend that answers 200 with
    [body_errors_text]. *)
Definition errors_text_world : World :=
  let W := Fixtures.quiet_world in
  mkWorld (clock W) (dateutil_parse W) (pacific_auckland W)
          (fun s => if String.eqb s body_errors_text
                    then Ok (JObj [("skipped", JInt 1); ("errors", JStr "oops")])
                    else Raise ValueError)
          (text_classification W) (text_generation W) (extract_content W)
          (fun _ _ _ => Ok (mkResponse 200 body_errors_text))
          (feedparser_parse W) (soup_get_text W) (fetch_article_elements W)
          (extract_article_from_element W) (getenv W).

Definition entry_redirect : FeedEntry :=
  mkEntry (Some "Storm closes roads - 1News")
          (Some "https://news.google.com/rss/articles/abc")
          None None
          (Some [None; Some "https://news.google.com/rss/articles/abc";
                 Some "https://www.1news.co.nz/2024/01/01/new-zealand/storm";
                 Some "https://www.1news.co.nz/other"]).

Definition entry_unresolved : FeedEntry :=
  mkEntry (Some "Budget day - 1News")
          (Some "https://news.google.com/rss/articles/def")
          None None None.

Definition google_world : World :=
  let W := Fixtures.quiet_world in
  mkWorld (clock W) (dateutil_parse W) (pacific_auckland W) (json_loads W)
          (text_classification W) (text_generation W) (extract_content W)
          (requests_post W)
          (fun _ _ => Ok [entry_redirect; entry_unresolved])
          (soup_get_text W) (fetch_article_elements W)
          (extract_article_from_element W) (getenv W).

End EdgeFixtures.

(** * Properties *)

(** ** Rules of the program logic *)

Lemma spec_ret {A} (a : A) (Q : Res A -> Prop) E :
  Q (Ok a) -> spec (ret a) Q E.
Proof.
  intros H tr. exists (Ok a), []. rewrite app_nil_r. auto.
Qed.

Lemma spec_lift {A} (r : Res A) (Q : Res A -> Prop) E :
  Q r -> spec (lift r) Q E.
Proof.
  intros H tr. exists r, []. rewrite app_nil_r. auto.
Qed.

Lemma spec_ask {A} ev (oracle : nat -> Res A) (Q : Res A -> Prop) (E : Event -> Prop) :
  E ev -> (forall t, Q (oracle t)) -> spec (ask ev oracle) Q E.
Proof.
  intros He Hq tr. exists (oracle (List.length tr)), [ev]. auto.
Qed.

Lemma spec_bind {A B} (m : M A) (f : A -> M B) Q1 (Q : Res B -> Prop) E :
  spec m Q1 E ->
  (forall a, Q1 (Ok a) -> spec (f a) Q E) ->
  (forall e, Q1 (Raise e) -> Q (Raise e)) ->
  spec (bind m f) Q E.
Proof.
  intros Hm Hf He tr. unfold bind.
  destruct (Hm tr) as (r & evs & Hr & Hq & Hev). rewrite Hr.
  destruct r as [a | e].
  - destruct (Hf a Hq (tr ++ evs)) as (r' & evs' & Hr' & Hq' & Hev').
    exists r', (evs ++ evs'). rewrite app_assoc. repeat split; auto.
    apply Forall_app; auto.
  - exists (Raise e), evs. auto.
Qed.

Lemma spec_try {A} (m : M A) catches (handler : M A) Q1 (Q : Res A -> Prop) E :
  spec m Q1 E ->
  (forall a, Q1 (Ok a) -> Q (Ok a)) ->
  (forall e, Q1 (Raise e) -> catches e = true -> spec handler Q E) ->
  (forall e, Q1 (Raise e) -> catches e = false -> Q (Raise e)) ->
  spec (try_except m catches handler) Q E.
Proof.
  intros Hm Hok Hcatch Hpass tr. unfold try_except.
  destruct (Hm tr) as (r & evs & Hr & Hq & Hev). rewrite Hr.
  destruct r as [a | e].
  - exists (Ok a), evs. auto.
  - destruct (catches e) eqn:Hc.
    + destruct (Hcatch e Hq Hc (tr ++ evs)) as (r' & evs' & Hr' & Hq' & Hev').
      exists r', (evs ++ evs'). rewrite app_assoc. repeat split; auto.
      apply Forall_app; auto.
    + exists (Raise e), evs. auto.
Qed.

Lemma spec_weaken {A} (m : M A) (Q Q' : Res A -> Prop) (E E' : Event -> Prop) :
  spec m Q E -> (forall r, Q r -> Q' r) -> (forall e, E e -> E' e) -> spec m Q' E'.
Proof.
  intros Hm Hq He tr. destruct (Hm tr) as (r & evs & Hr & Hqr & Hev).
  exists r, evs. repeat split; auto.
  eapply Forall_impl; [| exact Hev]. auto.
Qed.

Lemma spec_protect {A} (current : A) (m : M A) Q1 (P : A -> Prop) E :
  spec m Q1 E ->
  (forall a, Q1 (Ok a) -> P a) ->
  P current ->
  spec (Orchestrator.protect current m) (returns P) E.
Proof.
  intros Hm Hok Hcur. unfold Orchestrator.protect.
  eapply spec_try; eauto.
  - intros a Ha. exists a. auto.
  - intros e _ _. apply spec_ret. exists current. auto.
  - intros e _ Hc. discriminate.
Qed.

Lemma spec_mapM {A B} (f : A -> M B) (P : A -> B -> Prop) E (l : list A) :
  (forall x, In x l -> spec (f x) (returns (P x)) E) ->
  spec (mapM f l) (returns (Forall2 P l)) E.
Proof.
  induction l as [| x l IH]; intros H; simpl.
  - apply spec_ret. exists []. auto.
  - eapply spec_bind; [apply H; left; reflexivity | |].
    + intros y (y' & Hy & Py). inversion Hy; subst y'.
      eapply spec_bind; [apply IH; intros; apply H; right; assumption | |].
      * intros ys (ys' & Hys & Pys). inversion Hys; subst ys'.
        apply spec_ret. exists (y :: ys). auto.
      * intros e (a & Ha & _). discriminate.
    + intros e (a & Ha & _). discriminate.
Qed.

(** [emits m E]: whatever its result, [m] only appends events of [E]. *)
Lemma emits_ret {A} (a : A) E : spec (ret a) (fun _ => True) E.
Proof. apply spec_ret. exact I. Qed.

Lemma emits_lift {A} (r : Res A) E : spec (lift r) (fun _ => True) E.
Proof. apply spec_lift. exact I. Qed.

Lemma emits_ask {A} ev (oracle : nat -> Res A) (E : Event -> Prop) :
  E ev -> spec (ask ev oracle) (fun _ => True) E.
Proof. intros H. apply spec_ask; auto. Qed.

Lemma emits_bind {A B} (m : M A) (f : A -> M B) E :
  spec m (fun _ => True) E ->
  (forall a, spec (f a) (fun _ => True) E) ->
  spec (bind m f) (fun _ => True) E.
Proof. intros Hm Hf. eapply spec_bind; eauto. Qed.

Lemma emits_of_spec {A} (m : M A) Q E : spec m Q E -> spec m (fun _ => True) E.
Proof. intros H. eapply spec_weaken; eauto. Qed.

Lemma spec_protect_any {A} (current : A) (m : M A) E :
  spec m (fun _ => True) E ->
  spec (try_except m any_exception (ret current)) (returns (fun _ => True)) E.
Proof.
  intros H. apply spec_protect with (Q1 := fun _ => True); auto.
Qed.

(** ** The sentiment analyzer always returns *)

Section SentimentTotal.

Variable W : World.

Lemma classify_emits text :
  spec (SentimentAnalyzer.classify W text) (fun _ => True) inference_event.
Proof. apply emits_ask. exact I. Qed.

Lemma generate_emits prompt :
  spec (SentimentAnalyzer.generate W prompt) (fun _ => True) inference_event.
Proof. apply emits_ask. exact I. Qed.

Lemma classify_word_returns word ranked :
  spec (SentimentAnalyzer.classify_word W word ranked)
       (returns (fun _ => True)) inference_event.
Proof.
  unfold SentimentAnalyzer.classify_word. apply spec_protect_any.
  apply emits_bind; [apply classify_emits |].
  intros [| top out]; [apply emits_ret |].
  destruct (SFltb _ _); [apply emits_ret |].
  destruct (String.eqb _ "positive"); [apply emits_ret |].
  destruct (String.eqb _ "negative"); apply emits_ret.
Qed.

Lemma classify_words_returns words ranked :
  spec (SentimentAnalyzer.classify_words W words ranked)
       (returns (fun _ => True)) inference_event.
Proof.
  revert ranked. induction words as [| w words IH]; intros ranked; simpl.
  - apply spec_ret. exists ranked. auto.
  - eapply spec_bind; [apply classify_word_returns | |].
    + intros r _. apply IH.
    + intros e (a & Ha & _). discriminate.
Qed.

Lemma classify_model_returns text :
  spec (SentimentAnalyzer._classify_words_with_sentiment_model W text)
       (returns (fun _ => True)) inference_event.
Proof.
  unfold SentimentAnalyzer._classify_words_with_sentiment_model.
  eapply spec_bind; [apply classify_words_returns | |].
  - intros r _. apply spec_ret. eexists. eauto.
  - intros e (a & Ha & _). discriminate.
Qed.

(** The analyzer never raises, and only queries the inference provider. *)
Lemma analyze_returns title description :
  spec (SentimentAnalyzer.analyze_text_sentiment_and_terms W title description)
       (returns (fun _ => True)) inference_event.
Proof.
  unfold SentimentAnalyzer.analyze_text_sentiment_and_terms.
  destruct (negb _).
  - apply spec_ret. eexists. eauto.
  - eapply spec_bind.
    + apply spec_protect_any.
      apply emits_bind; [apply classify_emits |].
      intros [| top out]; apply emits_ret.
    + intros [[label score] confidence] _.
      eapply spec_bind.
      * apply spec_protect_any.
        apply emits_bind; [apply generate_emits |]. intros gen.
        apply emits_bind; [apply emits_lift | intros; apply emits_ret].
      * intros words _.
        eapply spec_bind with (Q1 := returns (fun _ => True)).
        -- destruct words as [[| p ps] [| n ns]];
             try (apply spec_ret; eexists; eauto).
           apply classify_model_returns.
        -- intros ws _. apply spec_ret. eexists. eauto.
        -- intros e (a & Ha & _). discriminate.
      * intros e (a & Ha & _). discriminate.
    + intros e (a & Ha & _). discriminate.
Qed.

End SentimentTotal.

(** ** Enrichment keeps existing content *)

Section Enrichment.

Variable W : World.

Lemma enrich_sentiment_spec art :
  spec (Orchestrator.enrich_sentiment W art)
       (returns (fun a' => url a' = url art /\ content a' = content art))
       inference_event.
Proof.
  unfold Orchestrator.enrich_sentiment.
  eapply spec_bind; [apply analyze_returns | |].
  - intros st _. apply spec_ret. eexists. split; [reflexivity |]. split; reflexivity.
  - intros e (a & Ha & _). discriminate.
Qed.

Lemma extract_one_spec art :
  spec (Orchestrator.extract_one W art)
       (returns (fun a' =>
          url a' = url art
          /\ (content art <> ""%string -> a' = art)
          /\ (content art = ""%string ->
              (forall t, extraction_failed (extract_content W t (url art))) ->
              a' = art)))
       (fun e => content art = ""%string /\ e = EvExtract (url art)).
Proof.
  unfold Orchestrator.extract_one.
  destruct (content art) as [| c s] eqn:Hc; simpl Py.nonempty; cbv iota.
  - eapply spec_protect
      with (Q1 := fun r => match r with
                           | Ok a' => url a' = url art /\
                               ((forall t, extraction_failed (extract_content W t (url art))) -> a' = art)
                           | Raise _ => True
                           end).
    + eapply spec_bind
        with (Q1 := fun r => exists t, r = extract_content W t (url art)).
      * apply spec_ask; [auto | intros t; exists t; reflexivity].
      * intros [s |] (t & Ht).
        -- destruct s as [| c s]; simpl Py.nonempty; cbv iota.
           ++ apply spec_ret. auto.
           ++ apply spec_ret. split; [reflexivity |].
              intros Hfail. specialize (Hfail t). rewrite <- Ht in Hfail.
              simpl in Hfail. discriminate.
        -- apply spec_ret. auto.
      * intros e _. exact I.
    + intros a' [Hu Hk]. repeat split; auto. intros H. congruence.
    + repeat split; auto.
  - apply spec_protect with (Q1 := fun r => r = Ok art).
    + apply spec_ret. reflexivity.
    + intros a' Ha. inversion Ha; subst. repeat split; auto.
    + repeat split; auto.
Qed.

End Enrichment.

(** ** The content-extraction toggle *)

Lemma str_in_cons (s x : string) (l : list string) :
  Py.str_in s (x :: l) = String.eqb s x || Py.str_in s l.
Proof. reflexivity. Qed.

Lemma extraction_enabled_false (s : string) :
  Orchestrator.extraction_enabled s = false <->
  (s = ""%string \/ Py.lower s = "0"%string \/ Py.lower s = "false"%string
   \/ Py.lower s = "no"%string).
Proof.
  unfold Orchestrator.extraction_enabled, Py.str_in; simpl existsb.
  destruct s as [| c s'].
  - simpl. split; auto.
  - set (l := Py.lower (String c s')). simpl Py.nonempty.
    rewrite andb_true_l, negb_false_iff, orb_false_r, !orb_true_iff.
    rewrite !String.eqb_eq. split.
    + intros H. right. exact H.
    + intros [H | H]; [discriminate | exact H].
Qed.

(** C7 (as amended): extraction is off exactly when the toggle is set to the
    empty string or, case-insensitively, to [0], [false] or [no]; when it is
    unset or holds anything else the second loop runs [extract_one] over the
    articles, and when it is off the articles pass through untouched and no
    query is made. *)
Theorem extraction_toggle_values (W : World) :
  (extraction_toggle W = false <->
     toggle_disables (getenv W "SCRAPE_EXTRACT_CONTENT"))
  /\ (forall articles tr,
        Orchestrator.extract_phase W articles tr =
        if extraction_toggle W
        then mapM (Orchestrator.extract_one W) articles tr
        else (Ok articles, tr)).
Proof.
  split.
  - unfold extraction_toggle, Orchestrator.getenv_default, toggle_disables.
    destruct (getenv W "SCRAPE_EXTRACT_CONTENT") as [v |].
    + rewrite extraction_enabled_false. split.
      * intros H. exists v. auto.
      * intros (s & Hs & H). inversion Hs; subst. exact H.
    + split; [vm_compute; discriminate | intros (s & Hs & _); discriminate].
  - intros articles tr. unfold Orchestrator.extract_phase, extraction_toggle.
    destruct (Orchestrator.extraction_enabled _); reflexivity.
Qed.

Lemma Forall2_compose {A B C} (R1 : A -> B -> Prop) (R2 : B -> C -> Prop)
  (R : A -> C -> Prop) (l1 : list A) (l2 : list B) (l3 : list C) :
  (forall a b c, In a l1 -> R1 a b -> R2 b c -> R a c) ->
  Forall2 R1 l1 l2 -> Forall2 R2 l2 l3 -> Forall2 R l1 l3.
Proof.
  intros H H12. revert l3 H. induction H12 as [| a b l1 l2 Hab H12 IH]; intros l3 H H23.
  - inversion H23. constructor.
  - inversion H23 as [| b' c l2' l3' Hbc H23' ]; subst. constructor.
    + eapply H; eauto. left. reflexivity.
    + apply IH; auto. intros a' b' c' Hin. apply H. right. exact Hin.
Qed.

Lemma Forall2_In_r {A B} (R : A -> B -> Prop) (l1 : list A) (l2 : list B) (b : B) :
  Forall2 R l1 l2 -> In b l2 -> exists a, In a l1 /\ R a b.
Proof.
  induction 1 as [| a b' l1 l2 Hab H IH]; intros Hin.
  - destruct Hin.
  - destruct Hin as [-> | Hin].
    + exists a. split; [left; reflexivity | exact Hab].
    + destruct (IH Hin) as (a' & Ha' & Hr). exists a'. split; [right |]; assumption.
Qed.

Section EnrichmentPhase.

Variable W : World.

Lemma extract_phase_spec (l : list Article) :
  spec (Orchestrator.extract_phase W l)
       (returns (Forall2 (fun a a' =>
          url a' = url a
          /\ (content a <> ""%string -> a' = a)
          /\ (content a = ""%string ->
              (forall t, extraction_failed (extract_content W t (url a))) ->
              a' = a)) l))
       (fun e => exists a, In a l /\ content a = ""%string /\ e = EvExtract (url a)).
Proof.
  unfold Orchestrator.extract_phase.
  destruct (Orchestrator.extraction_enabled _).
  - apply spec_mapM. intros x Hx.
    eapply spec_weaken; [apply extract_one_spec | auto |].
    intros e [Hc He]. exists x. auto.
  - apply spec_ret. exists l. split; [reflexivity |].
    induction l as [| a l IH]; constructor; auto.
Qed.

(** C9: through the two enrichment loops of a turn (sentiment, then content
    extraction) every article keeps its URL; an article whose content is not
    empty keeps that content; an article whose extraction fails keeps its
    empty content; and content extraction is only ever asked for articles
    whose content is empty.  The phase itself never raises. *)
Theorem enrichment_keeps_existing_content (articles : list Article) (tr : Trace) :
  exists articles' evs,
    bind (mapM (Orchestrator.enrich_sentiment W) articles)
         (Orchestrator.extract_phase W) tr = (Ok articles', tr ++ evs)
    /\ Forall2 (enriched W) articles articles'
    /\ Forall (enrichment_event articles) evs.
Proof.
  assert (H : spec (bind (mapM (Orchestrator.enrich_sentiment W) articles)
                         (Orchestrator.extract_phase W))
                   (returns (Forall2 (enriched W) articles))
                   (enrichment_event articles)).
  { eapply spec_bind.
    - apply spec_mapM with (P := fun a a' => url a' = url a /\ content a' = content a).
      intros x _. eapply spec_weaken; [apply enrich_sentiment_spec | auto |].
      intros e He. left. exact He.
    - intros l1 (l1' & Hl1 & H1). inversion Hl1; subst l1'.
      eapply spec_weaken; [apply extract_phase_spec | |].
      + intros r (l2 & -> & H2). exists l2. split; [reflexivity |].
        eapply Forall2_compose; [| exact H1 | exact H2].
        intros a b c _ [Hu Hc] (Hu' & Hkeep & Hfail). unfold enriched.
        split; [congruence |]. split.
        * intros Hne. rewrite Hkeep; congruence.
        * intros He Hall. rewrite Hfail; try congruence.
          intros t. rewrite Hu. apply Hall.
      + intros e (b & Hb & Hc & He). right.
        destruct (Forall2_In_r _ _ _ _ H1 Hb) as (a & Ha & Hu & Hca).
        exists a. split; [exact Ha |]. split; congruence.
    - intros e (a & Ha & _). discriminate. }
  destruct (H tr) as (r & evs & Hr & (articles' & -> & HF) & Hev).
  exists articles', evs. auto.
Qed.

End EnrichmentPhase.

(** ** The orchestrator *)

Section Resilience.

Variable W : World.
Variable self : Orchestrator.ScraperOrchestrator.

Lemma protect_total {A} (current : A) (m : M A) (tr : Trace) :
  exists a tr', Orchestrator.protect current m tr = (Ok a, tr').
Proof.
  unfold Orchestrator.protect, try_except, any_exception, ret.
  destruct (m tr) as [[a | e] tr']; eauto.
Qed.

Lemma scrape_one_total scraper totals tr :
  exists totals' tr',
    Orchestrator.scrape_one W self scraper totals tr = (Ok totals', tr').
Proof. apply protect_total. Qed.

Lemma for_each_app {A S} (body : A -> S -> M S) (l1 l2 : list A) (acc : S) (tr : Trace) :
  Scrapers.for_each body (l1 ++ l2) acc tr =
  match Scrapers.for_each body l1 acc tr with
  | (Ok acc', tr') => Scrapers.for_each body l2 acc' tr'
  | (Raise e, tr') => (Raise e, tr')
  end.
Proof.
  revert acc tr. induction l1 as [| x l1 IH]; intros acc tr; simpl.
  - reflexivity.
  - unfold bind. destruct (body x acc tr) as [[acc' | e] tr']; auto.
Qed.

Lemma scrape_loop_total (l : list Scrapers.Scraper) totals tr :
  exists totals' tr',
    Scrapers.for_each (Orchestrator.scrape_one W self) l totals tr = (Ok totals', tr').
Proof.
  revert totals tr. induction l as [| s l IH]; intros totals tr; simpl.
  - unfold ret. eauto.
  - unfold bind. destruct (scrape_one_total s totals tr) as (t1 & tr1 & ->). apply IH.
Qed.

(** A scraper whose [scrape()] raises leaves the three counters as they were. *)
Lemma scrape_one_raising scraper totals tr e tr' :
  Scrapers.scrape scraper tr = (Raise e, tr') ->
  Orchestrator.scrape_one W self scraper totals tr = (Ok totals, tr').
Proof.
  intros H. unfold Orchestrator.scrape_one, Orchestrator.protect, try_except, bind.
  rewrite H. reflexivity.
Qed.

End Resilience.

Section Sums.

Variable W : World.
Variable self : Orchestrator.ScraperOrchestrator.

Lemma add_int_shift (a : Z) (v : json) (d : PyVal.num) :
  PyVal.add (PyVal.NInt 0) v = Ok d ->
  (exists z, d = PyVal.NInt z) ->
  PyVal.add (PyVal.NInt a) v = Ok (PyVal.NInt (a + int_of d)).
Proof.
  intros H (z & ->). destruct v; simpl in *; try discriminate;
    try (inversion H; subst; reflexivity).
  all: destruct (PyVal.float_of_int 0); discriminate.
Qed.

Lemma add_int_raise (a : Z) (v : json) (e : exn) :
  PyVal.add (PyVal.NInt 0) v = Raise e ->
  exists e', PyVal.add (PyVal.NInt a) v = Raise e'.
Proof.
  destruct v; simpl; intros H; try discriminate; eauto.
Qed.

(** The turn of a scraper adds the same amounts whatever the counters hold,
    as long as the amounts are integers. *)
Lemma scrape_one_shift scraper totals d tr tr' :
  int_totals totals ->
  Orchestrator.scrape_one W self scraper Orchestrator.zero_totals tr = (Ok d, tr') ->
  int_totals d ->
  Orchestrator.scrape_one W self scraper totals tr = (Ok (add_totals totals d), tr').
Proof.
  intros (a & k & Ha & Hk) H (da & dk & Hda & Hdk).
  destruct totals as [n ta tk]. simpl in Ha, Hk. subst ta tk.
  unfold Orchestrator.scrape_one, Orchestrator.protect, try_except, bind,
    any_exception, ret, lift in *.
  destruct (Scrapers.scrape scraper tr) as [[articles | e] tr1].
  2:{ inversion H; subst. unfold add_totals; simpl. rewrite !Z.add_0_r. reflexivity. }
  destruct articles as [| art articles].
  { inversion H; subst. unfold add_totals; simpl. rewrite !Z.add_0_r. reflexivity. }
  cbn [Orchestrator.total_scraped Orchestrator.total_added
       Orchestrator.total_skipped Orchestrator.zero_totals] in *.
  destruct (mapM (Orchestrator.enrich_sentiment W) (art :: articles) tr1)
    as [[l1 | e1] tr2].
  2:{ inversion H; subst. unfold add_totals; simpl. rewrite !Z.add_0_r. reflexivity. }
  destruct (Orchestrator.extract_phase W l1 tr2) as [[l2 | e2] tr3].
  2:{ inversion H; subst. unfold add_totals; simpl. rewrite !Z.add_0_r. reflexivity. }
  destruct (ArticleService.create_articles_batch W
              (Orchestrator.article_service self) l2 tr3) as [[result | e3] tr4].
  2:{ inversion H; subst. unfold add_totals; simpl. rewrite !Z.add_0_r. reflexivity. }
  destruct (PyVal.add (PyVal.NInt 0) (ArticleService.added result)) as [xa | ea] eqn:Ea.
  2:{ destruct (add_int_raise a _ _ Ea) as (e' & ->).
      inversion H; subst. unfold add_totals; simpl. rewrite !Z.add_0_r. reflexivity. }
  cbn [Orchestrator.total_scraped Orchestrator.total_added
       Orchestrator.total_skipped Orchestrator.zero_totals] in *.
  assert (Hxa : exists z, xa = PyVal.NInt z).
  { destruct (PyVal.add (PyVal.NInt 0) (ArticleService.skipped result)) as [xk | ek];
      [destruct (Orchestrator.log_errors result tr4) as [[u | eu] tr5] |];
      inversion H; subst; simpl in Hda; eauto. }
  rewrite (add_int_shift a _ _ Ea Hxa).
  destruct (PyVal.add (PyVal.NInt 0) (ArticleService.skipped result)) as [xk | ek] eqn:Ek.
  2:{ destruct (add_int_raise k _ _ Ek) as (e' & ->).
      inversion H; subst. unfold add_totals; simpl. rewrite !Z.add_0_r. reflexivity. }
  cbn [Orchestrator.total_scraped Orchestrator.total_added
       Orchestrator.total_skipped Orchestrator.zero_totals] in *.
  assert (Hxk : exists z, xk = PyVal.NInt z).
  { destruct (Orchestrator.log_errors result tr4) as [[u | eu] tr5];
      inversion H; subst; simpl in Hdk; eauto. }
  rewrite (add_int_shift k _ _ Ek Hxk).
  destruct (Orchestrator.log_errors result tr4) as [[u | eu] tr5];
    inversion H; subst; reflexivity.
Qed.

Lemma add_totals_int t d : int_totals (add_totals t d).
Proof. unfold int_totals, add_totals; simpl. eauto. Qed.

Lemma zero_totals_int : int_totals Orchestrator.zero_totals.
Proof. unfold int_totals; simpl. eauto. Qed.

(** The queries made during a turn do not depend on the counters. *)
Lemma scrape_one_trace scraper t t' tr :
  snd (Orchestrator.scrape_one W self scraper t tr) =
  snd (Orchestrator.scrape_one W self scraper t' tr).
Proof.
  unfold Orchestrator.scrape_one, Orchestrator.protect, try_except, bind,
    any_exception, ret, lift.
  destruct (Scrapers.scrape scraper tr) as [[articles | e] tr1]; [| reflexivity].
  destruct articles as [| art articles]; [reflexivity |].
  destruct (mapM (Orchestrator.enrich_sentiment W) (art :: articles) tr1)
    as [[l1 | e1] tr2]; [| reflexivity].
  destruct (Orchestrator.extract_phase W l1 tr2) as [[l2 | e2] tr3]; [| reflexivity].
  destruct (ArticleService.create_articles_batch W
              (Orchestrator.article_service self) l2 tr3) as [[result | e3] tr4];
    [| reflexivity].
  assert (Hlog : forall tt0, snd (Orchestrator.log_errors result tt0) = tt0).
  { intros tt0. unfold Orchestrator.log_errors, bind, lift, ret.
    destruct (PyVal.truthy _); [| reflexivity].
    destruct (PyVal.py_slice _ _); [| reflexivity].
    destruct (PyVal.py_len _); reflexivity. }
  assert (Htail : forall tot : Orchestrator.Totals,
            snd (match Orchestrator.log_errors result tr4 with
                 | (Ok _, tr5) => (Ok tot, tr5)
                 | (Raise _, tr5) => (Ok tot, tr5)
                 end) = tr4).
  { intros tot. specialize (Hlog tr4).
    destruct (Orchestrator.log_errors result tr4) as [[u | eu] tr5]; exact Hlog. }
  destruct (PyVal.add (Orchestrator.total_added _) _);
    destruct (PyVal.add (Orchestrator.total_added _) _); simpl; try reflexivity;
    repeat match goal with
           | |- context [PyVal.add ?x ?y] => destruct (PyVal.add x y)
           end; simpl; try reflexivity;
    repeat match goal with
           | |- context [Orchestrator.log_errors result tr4] =>
               let tr5 := fresh "tr5" in
               specialize (Hlog tr4);
               destruct (Orchestrator.log_errors result tr4) as [[? | ?] tr5];
               simpl in Hlog; subst tr5
           end; reflexivity.
Qed.

Lemma contributions_cons s l tr :
  contributions W self (s :: l) tr =
  match fst (Orchestrator.scrape_one W self s Orchestrator.zero_totals tr) with
  | Ok d => d
  | Raise _ => Orchestrator.zero_totals
  end :: contributions W self l
           (snd (Orchestrator.scrape_one W self s Orchestrator.zero_totals tr)).
Proof.
  simpl.
  destruct (Orchestrator.scrape_one W self s Orchestrator.zero_totals tr) as [[d | e] tr1];
    reflexivity.
Qed.

Lemma contributions_app l1 l2 totals tr :
  contributions W self (l1 ++ l2) tr =
  contributions W self l1 tr
  ++ contributions W self l2
       (snd (Scrapers.for_each (Orchestrator.scrape_one W self) l1 totals tr)).
Proof.
  revert totals tr. induction l1 as [| s l1 IH]; intros totals tr.
  - reflexivity.
  - rewrite <- app_comm_cons, !contributions_cons, <- app_comm_cons. f_equal.
    simpl Scrapers.for_each. unfold bind.
    pose proof (scrape_one_trace s totals Orchestrator.zero_totals tr) as Htr.
    destruct (scrape_one_total W self s totals tr) as (t1 & tr1 & Ht).
    rewrite Ht in *. simpl in Htr. rewrite <- Htr. apply IH.
Qed.

(** With integer amounts the counters are the sum of the contributions. *)
Lemma scrape_loop_sum l totals tr :
  int_totals totals ->
  Forall int_totals (contributions W self l tr) ->
  fst (Scrapers.for_each (Orchestrator.scrape_one W self) l totals tr) =
  Ok (fold_left add_totals (contributions W self l tr) totals).
Proof.
  revert totals tr. induction l as [| s l IH]; intros totals tr Hint Hall.
  - reflexivity.
  - rewrite contributions_cons in *.
    destruct (scrape_one_total W self s Orchestrator.zero_totals tr) as (d & tr1 & Hd).
    rewrite Hd in *. cbn [fst snd] in *. inversion Hall as [| ? ? Hd_int Hrest]; subst.
    simpl Scrapers.for_each. unfold bind.
    rewrite (scrape_one_shift s totals d tr tr1 Hint Hd Hd_int).
    simpl fold_left. apply IH; [apply add_totals_int | exact Hrest].
Qed.

End Sums.

Section Resilient.

Variable W : World.
Variable self : Orchestrator.ScraperOrchestrator.

(** C1: when the scraper [bad] of a run raises from [scrape()], the run
    still returns its counters; the turn of [bad] leaves the three counters
    as they were; the scrapers after it are run as the loop runs them, from
    those unchanged counters; the contribution of [bad] is zero on all three
    counters; and the returned counters are the sum of the contributions
    whenever the amounts reported by the backend are integers. *)
Theorem scrape_all_survives_raising_scraper
  (pre post : list Scrapers.Scraper) (bad : Scrapers.Scraper) (tr : Trace) (e : exn) :
  Orchestrator.scrapers self = pre ++ bad :: post ->
  fst (Scrapers.scrape bad
         (snd (Scrapers.for_each (Orchestrator.scrape_one W self) pre
                 Orchestrator.zero_totals tr))) = Raise e ->
  exists totals1 tr1 tr2 totals tr',
    Scrapers.for_each (Orchestrator.scrape_one W self) pre
      Orchestrator.zero_totals tr = (Ok totals1, tr1)
    /\ Scrapers.scrape bad tr1 = (Raise e, tr2)
    /\ Orchestrator.scrape_one W self bad totals1 tr1 = (Ok totals1, tr2)
    /\ Orchestrator.scrape_all W self tr =
       Scrapers.for_each (Orchestrator.scrape_one W self) post totals1 tr2
    /\ Orchestrator.scrape_all W self tr = (Ok totals, tr')
    /\ contributions W self (Orchestrator.scrapers self) tr =
       contributions W self pre tr
       ++ Orchestrator.zero_totals :: contributions W self post tr2
    /\ (Forall int_totals (contributions W self (Orchestrator.scrapers self) tr) ->
        totals = fold_left add_totals
                   (contributions W self (Orchestrator.scrapers self) tr)
                   Orchestrator.zero_totals).
Proof.
  intros Hs Hbad.
  destruct (scrape_loop_total W self pre Orchestrator.zero_totals tr)
    as (totals1 & tr1 & Hpre).
  rewrite Hpre in Hbad. cbn [snd] in Hbad.
  destruct (Scrapers.scrape bad tr1) as [r tr2] eqn:Hscrape.
  cbn [fst] in Hbad. subst r.
  pose proof (scrape_one_raising W self bad totals1 tr1 e tr2 Hscrape) as Hone.
  assert (Hall : Orchestrator.scrape_all W self tr =
                 Scrapers.for_each (Orchestrator.scrape_one W self) post totals1 tr2).
  { unfold Orchestrator.scrape_all. rewrite Hs, for_each_app, Hpre.
    simpl Scrapers.for_each. unfold bind. rewrite Hone. reflexivity. }
  destruct (scrape_loop_total W self post totals1 tr2) as (totals & tr' & Hpost).
  exists totals1, tr1, tr2, totals, tr'.
  repeat split; auto.
  - congruence.
  - rewrite Hs.
    rewrite (contributions_app W self pre (bad :: post) Orchestrator.zero_totals tr).
    rewrite Hpre. cbn [snd]. f_equal. rewrite contributions_cons.
    rewrite (scrape_one_raising W self bad Orchestrator.zero_totals tr1 e tr2 Hscrape).
    reflexivity.
  - intros Hint.
    pose proof (scrape_loop_sum W self (Orchestrator.scrapers self)
                  Orchestrator.zero_totals tr (zero_totals_int) Hint) as Hsum.
    fold (Orchestrator.scrape_all W self tr) in Hsum.
    rewrite Hall, Hpost in Hsum. cbn [fst] in Hsum. congruence.
Qed.

End Resilient.

(** ** Deduplication *)

Lemma existsb_false_forall {A} (f : A -> bool) (l : list A) :
  existsb f l = false -> forall x, In x l -> f x = false.
Proof.
  induction l as [| a l IH]; simpl; intros H x Hx; [destruct Hx |].
  apply orb_false_iff in H. destruct H as [Ha Hl].
  destruct Hx as [-> | Hx]; auto.
Qed.

Lemma dedup_distinct (l seen : list json) :
  py_distinct (PyVal.dedup seen l)
  /\ (forall y x, In y (PyVal.dedup seen l) -> In x seen -> PyVal.py_eqb y x = false).
Proof.
  revert seen. induction l as [| a l IH]; intros seen; simpl.
  - split; [constructor | intros y x []].
  - destruct (existsb (PyVal.same_key a) seen) eqn:Hex.
    + apply IH.
    + destruct (IH (seen ++ [a])) as [Hd Hs]. split.
      * constructor; [| exact Hd].
        apply Forall_forall. intros y Hy. apply Hs; [exact Hy |].
        apply in_or_app. right. left. reflexivity.
      * intros y x [<- | Hy] Hx.
        -- eapply existsb_false_forall in Hex; [| exact Hx].
           unfold PyVal.same_key in Hex. apply orb_false_iff in Hex. apply Hex.
        -- apply Hs; [exact Hy | apply in_or_app; left; exact Hx].
Qed.

Lemma list_fromkeys_distinct (v : json) (l : list json) :
  PyVal.list_fromkeys v = Ok l -> py_distinct l.
Proof.
  destruct v; simpl; try discriminate.
  - intros H; inversion H; subst. apply dedup_distinct.
  - destruct (forallb PyVal.hashable items); [| discriminate].
    intros H; inversion H; subst. apply dedup_distinct.
  - intros H; inversion H; subst. apply dedup_distinct.
Qed.

Lemma py_distinct_nil : py_distinct [].
Proof. constructor. Qed.

Lemma terms_of_data_distinct (data : json) :
  py_distinct (fst (SentimentAnalyzer.terms_of_data data))
  /\ py_distinct (snd (SentimentAnalyzer.terms_of_data data)).
Proof.
  unfold SentimentAnalyzer.terms_of_data.
  destruct (PyVal.get data "positive_words" (JArr [])) as [pv | e];
    [| split; apply py_distinct_nil].
  destruct (PyVal.list_fromkeys pv) as [pw | e] eqn:Hp;
    [| split; apply py_distinct_nil].
  apply list_fromkeys_distinct in Hp.
  destruct (PyVal.get data "negative_words" (JArr [])) as [nv | e];
    [| split; [exact Hp | apply py_distinct_nil]].
  destruct (PyVal.list_fromkeys nv) as [nw | e] eqn:Hn;
    [| split; [exact Hp | apply py_distinct_nil]].
  apply list_fromkeys_distinct in Hn. split; assumption.
Qed.

Lemma str_in_map_JStr (x : string) (seen : list string) :
  existsb (PyVal.same_key (JStr x)) (map JStr seen) = Py.str_in x seen.
Proof.
  unfold Py.str_in. induction seen as [| s seen IH]; simpl; [reflexivity |].
  rewrite IH. reflexivity.
Qed.

(** On words, [dict.fromkeys] keeps the first occurrence of each. *)
Lemma dedup_words (l seen : list string) :
  PyVal.dedup (map JStr seen) (map JStr l) = map JStr (keep_first seen l).
Proof.
  revert seen. induction l as [| x l IH]; intros seen; simpl; [reflexivity |].
  rewrite str_in_map_JStr. destruct (Py.str_in x seen).
  - apply IH.
  - simpl. f_equal. rewrite <- IH, map_app. reflexivity.
Qed.

Lemma str_in_In (x : string) (l : list string) :
  Py.str_in x l = true <-> In x l.
Proof.
  unfold Py.str_in. rewrite existsb_exists. split.
  - intros (y & Hy & He). apply String.eqb_eq in He. subst. exact Hy.
  - intros H. exists x. split; [exact H | apply String.eqb_refl].
Qed.

Lemma keep_first_spec (l seen : list string) :
  NoDup (keep_first seen l)
  /\ subsequence (keep_first seen l) l
  /\ (forall x, In x (keep_first seen l) <-> In x l /\ ~ In x seen).
Proof.
  revert seen. induction l as [| a l IH]; intros seen; simpl.
  - split; [constructor |]. split; [constructor |]. intros x. tauto.
  - destruct (Py.str_in a seen) eqn:Ha.
    + apply str_in_In in Ha. destruct (IH seen) as (Hn & Hs & Hi).
      split; [exact Hn |]. split; [constructor; exact Hs |].
      intros x. rewrite Hi. split.
      * intros [H1 H2]. auto.
      * intros [[<- | H1] H2]; [contradiction | auto].
    + assert (Hna : ~ In a seen).
      { intros H. apply str_in_In in H. congruence. }
      destruct (IH (seen ++ [a])) as (Hn & Hs & Hi).
      split.
      * constructor; [| exact Hn]. rewrite Hi. intros [_ H]. apply H.
        apply in_or_app. right. left. reflexivity.
      * split; [constructor; exact Hs |].
        intros x. simpl. rewrite Hi. split.
        -- intros [<- | [H1 H2]]; [auto |]. split; [auto |].
           intros H. apply H2. apply in_or_app. left. exact H.
        -- intros [[<- | H1] H2]; [auto |].
           destruct (string_dec a x) as [-> | Hne]; [auto |]. right.
           split; [exact H1 |]. intros H. apply in_app_or in H.
           destruct H as [H | [H | []]]; [contradiction | congruence].
Qed.

(** ** The sentiment cascade *)

Section Cascade.

Variable W : World.

Lemma classify_word_failing word ranked tr :
  (forall t s, is_ok (text_classification W t s) = false) ->
  SentimentAnalyzer.classify_word W word ranked tr = (Ok ranked, tr ++ [EvClassify word]).
Proof.
  intros Hfail.
  unfold SentimentAnalyzer.classify_word, try_except, bind,
    SentimentAnalyzer.classify, ask.
  specialize (Hfail (List.length tr) word).
  destruct (text_classification W (List.length tr) word); [discriminate | reflexivity].
Qed.

Lemma classify_words_failing words ranked tr :
  (forall t s, is_ok (text_classification W t s) = false) ->
  fst (SentimentAnalyzer.classify_words W words ranked tr) = Ok ranked.
Proof.
  intros Hfail. revert tr. induction words as [| w words IH]; intros tr; simpl.
  - reflexivity.
  - unfold bind. rewrite classify_word_failing by exact Hfail. apply IH.
Qed.

Lemma hashable_words (ws : list string) :
  forallb PyVal.hashable (map JStr ws) = true.
Proof. induction ws; simpl; auto. Qed.

Lemma terms_of_word_arrays fields ps ns :
  PyVal.lookup fields "positive_words" = Some (JArr (map JStr ps)) ->
  PyVal.lookup fields "negative_words" = Some (JArr (map JStr ns)) ->
  SentimentAnalyzer.terms_of_data (JObj fields) =
  (map JStr (keep_first [] ps), map JStr (keep_first [] ns)).
Proof.
  intros Hp Hn.
  unfold SentimentAnalyzer.terms_of_data, PyVal.get, PyVal.dict_get.
  rewrite Hp, Hn. simpl PyVal.list_fromkeys. rewrite !hashable_words.
  change (@nil json) with (map JStr []) at 1 2.
  rewrite (dedup_words ps []), (dedup_words ns []). reflexivity.
Qed.

(** C4: when every call to the inference provider fails, the analyzer
    returns the neutral defaults with two empty lists; when the structured
    extraction leaves at least one non-empty list, the analyzer returns the
    two lists as extracted, after exactly two queries (one classification of
    the whole text, one generation), so that no word is classified on its
    own; and the lists extracted from two arrays of words are those arrays
    with each word kept at its first occurrence. *)
Theorem sentiment_cascade :
  (forall title description tr,
      (forall t s, is_ok (text_classification W t s) = false) ->
      (forall t s, is_ok (text_generation W t s) = false) ->
      fst (SentimentAnalyzer.analyze_text_sentiment_and_terms W title description tr)
      = Ok SentimentAnalyzer.default_terms)
  /\ (forall title description tr gen,
      analyzed_text title description <> ""%string ->
      text_generation W
        (List.length (tr ++ [EvClassify (analyzed_text title description)]))
        (SentimentAnalyzer.extraction_prompt (analyzed_text title description))
      = Ok gen ->
      (fst (SentimentAnalyzer.terms_of_data (decoded_block W gen)) <> []
       \/ snd (SentimentAnalyzer.terms_of_data (decoded_block W gen)) <> []) ->
      exists label score confidence,
        SentimentAnalyzer.analyze_text_sentiment_and_terms W title description tr =
        (Ok (SentimentAnalyzer.mkTerms label score confidence
               (fst (SentimentAnalyzer.terms_of_data
                       (decoded_block W gen)))
               (snd (SentimentAnalyzer.terms_of_data
                       (decoded_block W gen)))),
         tr ++ [EvClassify (analyzed_text title description);
                EvGenerate (SentimentAnalyzer.extraction_prompt
                              (analyzed_text title description))]))
  /\ (forall fields ps ns,
      PyVal.lookup fields "positive_words" = Some (JArr (map JStr ps)) ->
      PyVal.lookup fields "negative_words" = Some (JArr (map JStr ns)) ->
      SentimentAnalyzer.terms_of_data (JObj fields) =
        (map JStr (keep_first [] ps), map JStr (keep_first [] ns))
      /\ NoDup (keep_first [] ps) /\ subsequence (keep_first [] ps) ps
      /\ NoDup (keep_first [] ns) /\ subsequence (keep_first [] ns) ns).
Proof.
  split; [| split].
  - intros title description tr Hc Hg.
    unfold SentimentAnalyzer.analyze_text_sentiment_and_terms.
    fold (analyzed_text title description).
    destruct (negb (Py.nonempty (analyzed_text title description))); [reflexivity |].
    unfold bind at 1. unfold try_except at 1. unfold bind at 1.
    unfold SentimentAnalyzer.classify at 1. unfold ask at 1.
    pose proof (Hc (List.length tr) (analyzed_text title description)) as H1.
    destruct (text_classification W (List.length tr) (analyzed_text title description));
      [discriminate |].
    unfold any_exception, ret at 1.
    unfold bind at 1. unfold try_except at 1. unfold bind at 1.
    unfold SentimentAnalyzer.generate at 1. unfold ask at 1.
    match goal with
    | |- context [text_generation W ?t ?p] =>
        pose proof (Hg t p) as H2; destruct (text_generation W t p); [discriminate |]
    end.
    unfold ret at 1. unfold bind at 1.
    unfold SentimentAnalyzer._classify_words_with_sentiment_model, bind.
    match goal with
    | |- context [SentimentAnalyzer.classify_words W ?ws ?r ?t] =>
        pose proof (classify_words_failing ws r t Hc) as H3;
        destruct (SentimentAnalyzer.classify_words W ws r t) as [res tr3]
    end.
    cbn [fst] in H3. subst res. reflexivity.
  - intros title description tr gen Htext Hgen Hne.
    unfold SentimentAnalyzer.analyze_text_sentiment_and_terms.
    fold (analyzed_text title description).
    assert (Hn : negb (Py.nonempty (analyzed_text title description)) = false).
    { destruct (analyzed_text title description); [congruence | reflexivity]. }
    rewrite Hn.
    unfold bind at 1. unfold try_except at 1. unfold bind at 1.
    unfold SentimentAnalyzer.classify at 1. unfold ask at 1.
    set (terms := SentimentAnalyzer.terms_of_data (decoded_block W gen)) in *.
    assert (Htail : forall lsc : string * spec_float * spec_float,
      exists label score confidence,
        (let '(label, score, confidence) := lsc in
         words <- try_except
                    (gen0 <- SentimentAnalyzer.generate W
                               (SentimentAnalyzer.extraction_prompt
                                  (analyzed_text title description)) ;;
                     data <- lift (SentimentAnalyzer._parse_json_block W gen0) ;;
                     ret (SentimentAnalyzer.terms_of_data data))
                    any_exception (ret ([], [])) ;;
         words0 <- match words with
                   | ([], []) =>
                       SentimentAnalyzer._classify_words_with_sentiment_model W
                         (analyzed_text title description)
                   | _ => ret words
                   end ;;
         ret (SentimentAnalyzer.mkTerms label score confidence (fst words0) (snd words0)))
          (tr ++ [EvClassify (analyzed_text title description)])
        = (Ok (SentimentAnalyzer.mkTerms label score confidence (fst terms) (snd terms)),
           tr ++ [EvClassify (analyzed_text title description);
                  EvGenerate (SentimentAnalyzer.extraction_prompt
                                (analyzed_text title description))])).
    { intros [[label score] confidence]. exists label, score, confidence.
      unfold bind at 1. unfold try_except at 1. unfold bind at 1.
      unfold SentimentAnalyzer.generate at 1. unfold ask at 1.
      rewrite Hgen. unfold bind at 1. unfold lift at 1.
      subst terms. unfold decoded_block in *.
      destruct (SentimentAnalyzer._parse_json_block W gen) as [data | e];
        [| exfalso; cbn in Hne; destruct Hne; congruence].
      unfold ret at 1.
      rewrite <- app_assoc. simpl app.
      destruct (SentimentAnalyzer.terms_of_data data) as [[| p ps] [| n ns]];
        simpl in Hne.
      - destruct Hne; congruence.
      - reflexivity.
      - reflexivity.
      - reflexivity. }
    destruct (text_classification W (List.length tr) (analyzed_text title description))
      as [[| top out] | e]; unfold any_exception, ret at 1.
    + apply (Htail ("neutral"%string, SentimentAnalyzer.float_zero,
                    SentimentAnalyzer.float_zero)).
    + apply (Htail (Py.lower (ce_label top), ce_score top, ce_score top)).
    + apply (Htail ("neutral"%string, SentimentAnalyzer.float_zero,
                    SentimentAnalyzer.float_zero)).
  - intros fields ps ns Hp Hn.
    split; [apply terms_of_word_arrays; assumption |].
    destruct (keep_first_spec ps []) as (H1 & H2 & _).
    destruct (keep_first_spec ns []) as (H3 & H4 & _). auto.
Qed.

End Cascade.

(** ** The per-word fallback yields capped lists of distinct lowercase words *)

Lemma lower_char_idempotent (c : ascii) :
  Py.lower_char (Py.lower_char c) = Py.lower_char c.
Proof.
  destruct c as [[] [] [] [] [] [] [] []]; reflexivity.
Qed.

Lemma lower_all_lowered (s : string) : all_chars lowered (Py.lower s).
Proof.
  induction s as [| c s IH]; simpl; [exact I |].
  split; [apply lower_char_idempotent | exact IH].
Qed.

Lemma all_lowered_term (s : string) : all_chars lowered s -> lowercase_term s.
Proof.
  unfold lowercase_term. induction s as [| c s IH]; simpl; [reflexivity |].
  intros [Hc Hs]. rewrite Hc, IH by exact Hs. reflexivity.
Qed.

Lemma all_chars_snoc P (s : string) (c : ascii) :
  all_chars P s -> P c -> all_chars P (s ++ String c EmptyString).
Proof.
  induction s as [| a s IH]; simpl; intros Hs Hc; [auto |].
  destruct Hs as [Ha Hs]. auto.
Qed.

Lemma findall_from_chars P (s cur : string) :
  all_chars P cur -> all_chars P s ->
  Forall (all_chars P) (SentimentAnalyzer.findall_from cur s).
Proof.
  revert cur. induction s as [| c s IH]; intros cur Hcur Hs; simpl.
  - unfold SentimentAnalyzer.emit. destruct (3 <=? String.length cur)%nat; auto.
  - destruct Hs as [Hc Hs].
    destruct (Py.nonempty cur).
    + destruct (SentimentAnalyzer.is_word_char c).
      * apply IH; [apply all_chars_snoc; assumption | exact Hs].
      * apply Forall_app. split.
        -- unfold SentimentAnalyzer.emit.
           destruct (3 <=? String.length cur)%nat; auto.
        -- apply IH; [exact I | exact Hs].
    + destruct (Py.is_ascii_letter c).
      * apply IH; [simpl; auto | exact Hs].
      * apply IH; [exact I | exact Hs].
Qed.

Lemma candidate_loop_spec (Q : string -> Prop) limit tokens seen words :
  (forall w, In w words -> In w seen) ->
  NoDup words -> Forall Q words -> Forall Q tokens ->
  NoDup (SentimentAnalyzer.candidate_loop limit tokens seen words)
  /\ Forall Q (SentimentAnalyzer.candidate_loop limit tokens seen words).
Proof.
  revert seen words. induction tokens as [| t tokens IH];
    intros seen words Hseen Hnd Hq Htok; cbn [SentimentAnalyzer.candidate_loop].
  - auto.
  - inversion Htok as [| ? ? Ht Htok']; subst.
    destruct (Py.str_in t SentimentAnalyzer._STOP_WORDS); [apply IH; auto |].
    destruct (Py.str_in t seen) eqn:Hin; [apply IH; auto |].
    assert (Hnot : ~ In t words).
    { intros H. apply Hseen in H. apply str_in_In in H. congruence. }
    assert (Hnd' : NoDup (words ++ [t])).
    { apply NoDup_app; [exact Hnd | repeat constructor; intros [] | ].
      intros a Ha [<- | []]. contradiction. }
    assert (Hq' : Forall Q (words ++ [t])).
    { apply Forall_app. auto. }
    destruct (limit <=? List.length (words ++ [t]))%nat; [auto |].
    apply IH; auto.
    intros w Hw. apply in_app_or in Hw. destruct Hw as [Hw | [<- | []]].
    + right. apply Hseen. exact Hw.
    + left. reflexivity.
Qed.

Lemma candidates_spec (text : string) (limit : nat) :
  NoDup (SentimentAnalyzer._extract_candidate_words text limit)
  /\ Forall lowercase_term (SentimentAnalyzer._extract_candidate_words text limit).
Proof.
  unfold SentimentAnalyzer._extract_candidate_words.
  apply candidate_loop_spec; [intros w [] | constructor | constructor |].
  unfold SentimentAnalyzer._WORD_RE_findall.
  eapply Forall_impl; [intros w; apply all_lowered_term |].
  apply findall_from_chars; [exact I | apply lower_all_lowered].
Qed.

Lemma subsequence_In {A} (l1 l2 : list A) (x : A) :
  subsequence l1 l2 -> In x l1 -> In x l2.
Proof.
  induction 1; simpl; intros Hin; auto.
  destruct Hin; auto.
Qed.

Lemma subsequence_NoDup {A} (l1 l2 : list A) :
  subsequence l1 l2 -> NoDup l2 -> NoDup l1.
Proof.
  induction 1 as [| x l1 l2 H IH | x l1 l2 H IH]; intros Hnd; auto.
  - inversion Hnd; auto.
  - inversion Hnd; subst. constructor; auto.
    intros Hin. eapply subsequence_In in Hin; eauto.
Qed.

Lemma subsequence_Forall {A} (P : A -> Prop) (l1 l2 : list A) :
  subsequence l1 l2 -> Forall P l2 -> Forall P l1.
Proof.
  induction 1; intros Hf; auto; inversion Hf; subst; auto.
Qed.

Lemma subsequence_nil {A} (l : list A) : subsequence [] l.
Proof. induction l; constructor; auto. Qed.

Lemma subsequence_firstn {A} (n : nat) (l : list A) : subsequence (firstn n l) l.
Proof.
  revert n. induction l as [| x l IH]; intros [| n]; simpl.
  - constructor.
  - constructor.
  - apply subsequence_nil.
  - apply subseq_keep. apply IH.
Qed.

Lemma insert_ranked_perm x l :
  Permutation (SentimentAnalyzer.insert_ranked x l) (x :: l).
Proof.
  induction l as [| y l IH]; simpl; [reflexivity |].
  destruct (SFltb (fst x) (fst y)); [| reflexivity].
  rewrite IH. apply perm_swap.
Qed.

Lemma sort_ranked_perm l : Permutation (SentimentAnalyzer.sort_ranked l) l.
Proof.
  unfold SentimentAnalyzer.sort_ranked.
  induction l as [| x l IH]; simpl; [reflexivity |].
  rewrite insert_ranked_perm. constructor. exact IH.
Qed.

Lemma top_words_capped (ranked : list (spec_float * string)) :
  NoDup (ranked_words ranked) -> Forall lowercase_term (ranked_words ranked) ->
  capped_lowercase_words
    (SentimentAnalyzer.top_words (SentimentAnalyzer.sort_ranked ranked)).
Proof.
  intros Hnd Hlow. unfold SentimentAnalyzer.top_words, capped_lowercase_words.
  exists (map snd (firstn 8 (SentimentAnalyzer.sort_ranked ranked))).
  assert (Hp : Permutation (ranked_words (SentimentAnalyzer.sort_ranked ranked))
                           (ranked_words ranked)).
  { apply Permutation_map. apply sort_ranked_perm. }
  assert (Hsub : subsequence
                   (map snd (firstn 8 (SentimentAnalyzer.sort_ranked ranked)))
                   (ranked_words (SentimentAnalyzer.sort_ranked ranked))).
  { unfold ranked_words. rewrite <- firstn_map. apply subsequence_firstn. }
  split; [rewrite map_map; reflexivity |]. split; [| split].
  - eapply subsequence_NoDup; [exact Hsub |].
    eapply Permutation_NoDup; [symmetry; exact Hp | exact Hnd].
  - eapply subsequence_Forall; [exact Hsub |].
    eapply Permutation_Forall; [symmetry; exact Hp | exact Hlow].
  - rewrite length_map. apply firstn_le_length.
Qed.

Section WordLists.

Variable W : World.

Lemma classify_word_step word ranked :
  spec (SentimentAnalyzer.classify_word W word ranked)
       (returns (fun r =>
          r = ranked
          \/ (exists c, r = (fst ranked ++ [(c, word)], snd ranked))
          \/ (exists c, r = (fst ranked, snd ranked ++ [(c, word)]))))
       inference_event.
Proof.
  unfold SentimentAnalyzer.classify_word.
  apply spec_protect
    with (Q1 := fun r => match r with
                         | Ok r =>
                             r = ranked
                             \/ (exists c, r = (fst ranked ++ [(c, word)], snd ranked))
                             \/ (exists c, r = (fst ranked, snd ranked ++ [(c, word)]))
                         | Raise _ => True
                         end); [| auto | auto].
  eapply spec_bind with (Q1 := fun _ => True);
    [apply classify_emits | | intros; exact I].
  intros [| top out] _; [apply spec_ret; auto |].
  destruct (SFltb _ _); [apply spec_ret; auto |].
  destruct (String.eqb _ "positive"); [apply spec_ret; eauto |].
  destruct (String.eqb _ "negative"); apply spec_ret; eauto.
Qed.

Lemma NoDup_snoc {A} (l : list A) (x : A) : NoDup l -> ~ In x l -> NoDup (l ++ [x]).
Proof.
  intros Hnd Hx. apply NoDup_app; [exact Hnd | repeat constructor; intros [] |].
  intros a Ha [<- | []]. contradiction.
Qed.

Lemma ranked_words_snoc l c w : ranked_words (l ++ [(c, w)]) = ranked_words l ++ [w].
Proof. unfold ranked_words. rewrite map_app. reflexivity. Qed.

Lemma classify_words_inv (Q : string -> Prop) words :
  forall ranked,
  NoDup words ->
  (forall w, In w (ranked_words (fst ranked)) \/ In w (ranked_words (snd ranked)) ->
             ~ In w words) ->
  NoDup (ranked_words (fst ranked)) -> NoDup (ranked_words (snd ranked)) ->
  Forall Q (ranked_words (fst ranked)) -> Forall Q (ranked_words (snd ranked)) ->
  Forall Q words ->
  spec (SentimentAnalyzer.classify_words W words ranked)
       (returns (fun r =>
          NoDup (ranked_words (fst r)) /\ NoDup (ranked_words (snd r))
          /\ Forall Q (ranked_words (fst r)) /\ Forall Q (ranked_words (snd r))))
       inference_event.
Proof.
  induction words as [| w words IH];
    intros ranked Hnd Hfresh Hp Hn Hqp Hqn Hq; simpl.
  - apply spec_ret. exists ranked. auto.
  - inversion Hnd as [| ? ? Hw Hnd']; subst.
    inversion Hq as [| ? ? Hqw Hq']; subst.
    assert (Hwp : ~ In w (ranked_words (fst ranked))).
    { intros H. apply (Hfresh w); [left; exact H | left; reflexivity]. }
    assert (Hwn : ~ In w (ranked_words (snd ranked))).
    { intros H. apply (Hfresh w); [right; exact H | left; reflexivity]. }
    eapply spec_bind; [apply classify_word_step | |].
    + intros r (r' & Hr & Hcase). inversion Hr; subst r'.
      apply IH; [exact Hnd' | | | | | | exact Hq'].
      * intros x Hx Hin.
        destruct Hcase as [-> | [(c & ->) | (c & ->)]]; cbn [fst snd] in Hx;
          try rewrite ranked_words_snoc in Hx.
        -- apply (Hfresh x Hx). right. exact Hin.
        -- destruct Hx as [Hx | Hx].
           ++ apply in_app_or in Hx. destruct Hx as [Hx | [<- | []]].
              ** apply (Hfresh x); [left; exact Hx | right; exact Hin].
              ** contradiction.
           ++ apply (Hfresh x); [right; exact Hx | right; exact Hin].
        -- destruct Hx as [Hx | Hx].
           ++ apply (Hfresh x); [left; exact Hx | right; exact Hin].
           ++ apply in_app_or in Hx. destruct Hx as [Hx | [<- | []]].
              ** apply (Hfresh x); [right; exact Hx | right; exact Hin].
              ** contradiction.
      * destruct Hcase as [-> | [(c & ->) | (c & ->)]]; cbn [fst]; auto.
        rewrite ranked_words_snoc. apply NoDup_snoc; auto.
      * destruct Hcase as [-> | [(c & ->) | (c & ->)]]; cbn [snd]; auto.
        rewrite ranked_words_snoc. apply NoDup_snoc; auto.
      * destruct Hcase as [-> | [(c & ->) | (c & ->)]]; cbn [fst]; auto.
        rewrite ranked_words_snoc. apply Forall_app. split; auto.
      * destruct Hcase as [-> | [(c & ->) | (c & ->)]]; cbn [snd]; auto.
        rewrite ranked_words_snoc. apply Forall_app. split; auto.
    + intros e (a & Ha & _). discriminate.
Qed.

Lemma capped_nil : capped_lowercase_words [].
Proof.
  exists []. repeat split; try constructor. simpl. lia.
Qed.

Lemma fallback_capped text :
  spec (SentimentAnalyzer._classify_words_with_sentiment_model W text)
       (returns (fun r => capped_lowercase_words (fst r)
                          /\ capped_lowercase_words (snd r)))
       inference_event.
Proof.
  unfold SentimentAnalyzer._classify_words_with_sentiment_model.
  destruct (candidates_spec text 30) as [Hnd Hlow].
  eapply spec_bind.
  - apply (classify_words_inv lowercase_term); try exact Hnd; try exact Hlow;
      cbn [fst snd ranked_words map]; try constructor.
    intros w [[] | []].
  - intros r (r' & Hr & H1 & H2 & H3 & H4). inversion Hr; subst r'.
    apply spec_ret. eexists. split; [reflexivity |]. cbn [fst snd].
    split; apply top_words_capped; assumption.
  - intros e (a & Ha & _). discriminate.
Qed.

Lemma capped_distinct (l : list json) : capped_lowercase_words l -> py_distinct l.
Proof.
  intros (ws & -> & Hnd & _). unfold py_distinct.
  induction Hnd as [| x ws Hx Hnd IH]; simpl; constructor; [| exact IH].
  apply Forall_forall. intros y Hy. apply in_map_iff in Hy.
  destruct Hy as (w & <- & Hw). simpl. apply String.eqb_neq. congruence.
Qed.

(** C5 (as amended): the analyzer always returns two lists without
    duplicates (no entry [==] an earlier one).  When the lists come from the
    per-word fallback, or are both empty, each holds at most 8 distinct
    lowercase words.  Otherwise they are the lists of the structured
    extraction exactly as it left them, at least one of them non-empty:
    neither capped nor lower-cased by the analyzer. *)
Theorem word_lists_shape (title description : string) (tr : Trace) :
  exists st tr',
    SentimentAnalyzer.analyze_text_sentiment_and_terms W title description tr
    = (Ok st, tr')
    /\ py_distinct (SentimentAnalyzer.positive_words st)
    /\ py_distinct (SentimentAnalyzer.negative_words st)
    /\ ((exists gen,
           (SentimentAnalyzer.positive_words st, SentimentAnalyzer.negative_words st)
           = SentimentAnalyzer.terms_of_data (decoded_block W gen)
           /\ (SentimentAnalyzer.positive_words st <> []
               \/ SentimentAnalyzer.negative_words st <> []))
        \/ (capped_lowercase_words (SentimentAnalyzer.positive_words st)
            /\ capped_lowercase_words (SentimentAnalyzer.negative_words st))).
Proof.
  set (shape := fun st : SentimentAnalyzer.SentimentTerms =>
    py_distinct (SentimentAnalyzer.positive_words st)
    /\ py_distinct (SentimentAnalyzer.negative_words st)
    /\ ((exists gen,
           (SentimentAnalyzer.positive_words st, SentimentAnalyzer.negative_words st)
           = SentimentAnalyzer.terms_of_data (decoded_block W gen)
           /\ (SentimentAnalyzer.positive_words st <> []
               \/ SentimentAnalyzer.negative_words st <> []))
        \/ (capped_lowercase_words (SentimentAnalyzer.positive_words st)
            /\ capped_lowercase_words (SentimentAnalyzer.negative_words st)))).
  assert (H : spec (SentimentAnalyzer.analyze_text_sentiment_and_terms W title description)
                   (returns shape) inference_event).
  { unfold SentimentAnalyzer.analyze_text_sentiment_and_terms.
    destruct (negb _).
    - apply spec_ret. eexists. split; [reflexivity |]. unfold shape. simpl.
      split; [apply py_distinct_nil |]. split; [apply py_distinct_nil |].
      right. split; apply capped_nil.
    - eapply spec_bind.
      + apply spec_protect_any.
        apply emits_bind; [apply classify_emits |].
        intros [| top out]; apply emits_ret.
      + intros [[label score] confidence] _.
        eapply spec_bind
          with (Q1 := returns (fun words =>
                  words = ([], [])
                  \/ exists gen, words = SentimentAnalyzer.terms_of_data
                                           (decoded_block W gen))).
        * apply spec_protect
            with (Q1 := fun r => match r with
                                 | Ok words =>
                                     exists gen, words = SentimentAnalyzer.terms_of_data
                                       (decoded_block W gen)
                                 | Raise _ => True
                                 end); [| auto | auto].
          eapply spec_bind with (Q1 := fun _ => True);
            [apply generate_emits | | intros; exact I].
          intros gen _.
          eapply spec_bind
            with (Q1 := fun r => r = SentimentAnalyzer._parse_json_block W gen);
            [apply spec_lift; reflexivity | | intros; exact I].
          intros data Hd. apply spec_ret. exists gen.
          unfold decoded_block. rewrite <- Hd. reflexivity.
        * intros words (words' & Hw & Hsrc). inversion Hw; subst words'.
          eapply spec_bind with (Q1 := returns (fun ws => shape
                    (SentimentAnalyzer.mkTerms label score confidence (fst ws) (snd ws)))).
          -- assert (Hkeep : words <> ([], []) ->
                      spec (ret words)
                           (returns (fun ws => shape
                              (SentimentAnalyzer.mkTerms label score confidence
                                 (fst ws) (snd ws))))
                           inference_event).
             { intros Hne. apply spec_ret. exists words. split; [reflexivity |].
               destruct Hsrc as [-> | (gen & Hgen)]; [congruence |].
               unfold shape. simpl. rewrite Hgen.
               destruct (terms_of_data_distinct
                           (decoded_block W gen)) as [Hd1 Hd2].
               split; [exact Hd1 |]. split; [exact Hd2 |]. left. exists gen.
               split; [symmetry; apply surjective_pairing |].
               rewrite <- Hgen. destruct words as [[| p ps] [| n ns]]; simpl.
               - congruence.
               - right. discriminate.
               - left. discriminate.
               - left. discriminate. }
             destruct words as [[| p ps] [| n ns]];
               try (apply Hkeep; discriminate).
             eapply spec_weaken; [apply fallback_capped | | auto].
             intros r (ws & -> & Hc1 & Hc2). exists ws. split; [reflexivity |].
             unfold shape. simpl.
             split; [apply capped_distinct; exact Hc1 |].
             split; [apply capped_distinct; exact Hc2 |].
             right. auto.
          -- intros ws (ws' & Hws & Hshape). inversion Hws; subst ws'.
             apply spec_ret. eexists. split; [reflexivity | exact Hshape].
          -- intros e (a & Ha & _). discriminate.
        * intros e (a & Ha & _). discriminate.
      + intros e (a & Ha & _). discriminate. }
  destruct (H tr) as (r & evs & Hr & (st & -> & Hshape) & _).
  exists st, (tr ++ evs). split; [exact Hr | exact Hshape].
Qed.

End WordLists.

(** ** The cap on the articles of one scrape *)

Section ScraperCap.

Variable W : World.

Lemma Article_init_emits title description url source category pd :
  spec (ArticleCode.Article_init W title description url source category pd)
       (fun _ => True) any_event.
Proof.
  unfold ArticleCode.Article_init.
  apply emits_bind.
  - destruct pd; [apply emits_ret |].
    apply emits_bind; [apply emits_ask; exact I | intros; apply emits_ret].
  - intros; apply emits_ret.
Qed.

Lemma for_each_length {A} (body : A -> list Article -> M (list Article)) (l : list A) :
  (forall x acc,
      spec (body x acc)
           (returns (fun r => (List.length r <= S (List.length acc))%nat)) any_event) ->
  forall acc,
    spec (Scrapers.for_each body l acc)
         (returns (fun r => (List.length r <= List.length acc + List.length l)%nat))
         any_event.
Proof.
  intros Hbody. induction l as [| x l IH]; intros acc; simpl.
  - apply spec_ret. exists acc. split; [reflexivity | lia].
  - eapply spec_bind; [apply Hbody | |].
    + intros acc' (a & Ha & Hlen). inversion Ha; subst a.
      eapply spec_weaken; [apply IH | | auto].
      intros r (r' & -> & Hr). exists r'. split; [reflexivity | lia].
    + intros e (a & Ha & _). discriminate.
Qed.

(** The step shared by the bodies of the three feed loops: the entry is
    skipped, or one article is appended. *)
Lemma append_article_step (articles : list Article) (m : M (list Article)) :
  spec m (fun r => match r with
                   | Ok r => (List.length r <= S (List.length articles))%nat
                   | Raise _ => True
                   end) any_event ->
  spec (try_except m any_exception (ret articles))
       (returns (fun r => (List.length r <= S (List.length articles))%nat)) any_event.
Proof.
  intros H. eapply spec_protect; [exact H | auto | lia].
Qed.

Lemma init_then_append articles title description url source category pd :
  spec (article <- ArticleCode.Article_init W title description url source category pd ;;
        ret (articles ++ [article]))
       (fun r => match r with
                 | Ok r => (List.length r <= S (List.length articles))%nat
                 | Raise _ => True
                 end) any_event.
Proof.
  eapply spec_bind with (Q1 := fun _ => True);
    [apply Article_init_emits | | intros; exact I].
  intros a _. apply spec_ret. rewrite length_app. simpl. lia.
Qed.

Lemma stuff_entry_length self entry articles :
  spec (Scrapers.stuff_entry W self entry articles)
       (returns (fun r => (List.length r <= S (List.length articles))%nat)) any_event.
Proof.
  unfold Scrapers.stuff_entry. apply append_article_step.
  destruct (_ || _); [apply spec_ret; lia | apply init_then_append].
Qed.

Lemma plain_description_emits d :
  spec (Scrapers.plain_description W d) (fun _ => True) any_event.
Proof.
  unfold Scrapers.plain_description.
  destruct (Py.contains _ _); [apply emits_lift | apply emits_ret].
Qed.

Lemma rnz_entry_length self entry articles :
  spec (Scrapers.rnz_entry W self entry articles)
       (returns (fun r => (List.length r <= S (List.length articles))%nat)) any_event.
Proof.
  unfold Scrapers.rnz_entry. apply append_article_step.
  destruct (_ || _); [apply spec_ret; lia |].
  eapply spec_bind with (Q1 := fun _ => True);
    [apply plain_description_emits | | intros; exact I].
  intros d _. apply init_then_append.
Qed.

Lemma onenews_entry_length self entry articles :
  spec (Scrapers.onenews_entry W self entry articles)
       (returns (fun r => (List.length r <= S (List.length articles))%nat)) any_event.
Proof.
  unfold Scrapers.onenews_entry. apply append_article_step.
  destruct (_ || _); [apply spec_ret; lia |].
  eapply spec_bind with (Q1 := fun _ => True);
    [apply plain_description_emits | | intros; exact I].
  intros d _. apply init_then_append.
Qed.

(** A feed loop over the first 20 entries returns at most 20 articles. *)
Lemma feed_scrape_length (self : Scrapers.Config)
  (body : FeedEntry -> list Article -> M (list Article)) :
  (forall entry acc,
      spec (body entry acc)
           (returns (fun r => (List.length r <= S (List.length acc))%nat)) any_event) ->
  spec (try_except
          (entries <- Scrapers.feed_entries W (Scrapers.base_url self) ;;
           match entries with
           | [] => ret []
           | _ => Scrapers.for_each body (firstn 20 entries) []
           end)
          any_exception (ret []))
       (returns (fun r => (List.length r <= 20)%nat)) any_event.
Proof.
  intros Hbody.
  eapply spec_protect
    with (Q1 := fun r => match r with
                         | Ok r => (List.length r <= 20)%nat
                         | Raise _ => True
                         end); [| auto | simpl; lia].
  eapply spec_bind with (Q1 := fun _ => True);
    [apply emits_ask; exact I | | intros; exact I].
  intros entries _. destruct entries as [| e0 entries]; [apply spec_ret; simpl; lia |].
  eapply spec_weaken; [apply (for_each_length _ _ Hbody) | | auto].
  intros r (r' & -> & Hr). rewrite length_firstn in Hr.
  change (List.length (@nil Article)) with 0%nat in Hr. lia.
Qed.

Lemma create_article_emits self f :
  spec (Scrapers._create_article W self f) (fun _ => True) any_event.
Proof. apply Article_init_emits. Qed.

Lemma extract_element_emits self elem :
  spec (Scrapers._extract_article_from_element W self elem) (fun _ => True) any_event.
Proof.
  unfold Scrapers._extract_article_from_element.
  apply emits_of_spec with (Q := returns (fun _ => True)).
  apply spec_protect_any.
  destruct (extract_article_from_element W elem); [| apply emits_ret].
  apply emits_bind; [apply create_article_emits | intros; apply emits_ret].
Qed.

(** The page loop never goes past [max_articles]. *)
Lemma nzherald_loop_length self elems :
  forall articles seen_urls,
    Z.of_nat (List.length articles) <= Scrapers.max_articles self ->
    spec (Scrapers.nzherald_loop W self elems articles seen_urls)
         (returns (fun r => Z.of_nat (List.length r) <= Scrapers.max_articles self))
         any_event.
Proof.
  induction elems as [| elem elems IH]; intros articles seen Hlen; simpl.
  - apply spec_ret. exists articles. auto.
  - destruct (Scrapers.max_articles self <=? Z.of_nat (List.length articles)) eqn:Hmax.
    + apply spec_ret. exists articles. auto.
    + apply Z.leb_gt in Hmax.
      eapply spec_bind
        with (Q1 := returns (fun st =>
                Z.of_nat (List.length (fst st)) <= Scrapers.max_articles self)).
      * eapply spec_protect
          with (Q1 := fun r => match r with
                               | Ok st => Z.of_nat (List.length (fst st))
                                          <= Scrapers.max_articles self
                               | Raise _ => True
                               end); [| auto | simpl; lia].
        eapply spec_bind with (Q1 := fun _ => True);
          [apply extract_element_emits | | intros; exact I].
        intros [a |] _; [| apply spec_ret; simpl; lia].
        destruct (Py.str_in _ _); apply spec_ret; simpl; [lia |].
        rewrite length_app. simpl. lia.
      * intros st (st' & Hst & Hl). inversion Hst; subst st'. apply IH. exact Hl.
      * intros e (a & Ha & _). discriminate.
Qed.

Lemma nzherald_scrape_length self :
  0 <= Scrapers.max_articles self ->
  spec (Scrapers.nzherald_scrape W self)
       (returns (fun r => Z.of_nat (List.length r) <= Scrapers.max_articles self))
       any_event.
Proof.
  intros Hmax. unfold Scrapers.nzherald_scrape.
  eapply spec_protect
    with (Q1 := fun r => match r with
                         | Ok r => Z.of_nat (List.length r) <= Scrapers.max_articles self
                         | Raise _ => True
                         end); [| auto | simpl; lia].
  eapply spec_bind with (Q1 := fun _ => True);
    [apply emits_ask; exact I | | intros; exact I].
  intros elems _. destruct elems as [| e0 elems]; [apply spec_ret; simpl; lia |].
  eapply spec_weaken; [apply nzherald_loop_length; simpl; lia | | auto].
  intros r (r' & -> & Hr). exact Hr.
Qed.

(** C6: each of the four registered scrapers has [max_articles = 20], its
    [scrape()] always returns a list (it never raises), and the list holds
    at most [max_articles] articles. *)
Theorem registered_scrapers_respect_cap :
  Forall (fun s =>
            Scrapers.max_articles (Scrapers.config s) = 20
            /\ forall tr, exists articles tr',
                 Scrapers.scrape s tr = (Ok articles, tr')
                 /\ Z.of_nat (List.length articles)
                    <= Scrapers.max_articles (Scrapers.config s))
         (Scrapers.get_all_scrapers W).
Proof.
  assert (Hfeed : forall m : M (list Article),
            spec m (returns (fun r => (List.length r <= 20)%nat)) any_event ->
            forall tr, exists articles tr',
              m tr = (Ok articles, tr') /\ Z.of_nat (List.length articles) <= 20).
  { intros m Hm tr. destruct (Hm tr) as (r & evs & Hr & (a & -> & Ha) & _).
    exists a, (tr ++ evs). split; [exact Hr | lia]. }
  unfold Scrapers.get_all_scrapers, Scrapers.SCRAPER_REGISTRY.
  repeat constructor; cbn [Scrapers.config Scrapers.scrape Scrapers.StuffScraper
    Scrapers.RNZScraper Scrapers.OneNewsScraper Scrapers.NZHeraldScraper
    Scrapers.max_articles Scrapers.BaseScraper_init].
  - apply Hfeed. apply feed_scrape_length. apply stuff_entry_length.
  - apply Hfeed. apply feed_scrape_length. apply rnz_entry_length.
  - apply Hfeed. apply feed_scrape_length. apply onenews_entry_length.
  - intros tr.
    destruct (nzherald_scrape_length
                (Scrapers.BaseScraper_init "NZ Herald"
                   "https://www.nzherald.co.nz/latest-news/" "General")
                ltac:(simpl; lia) tr)
      as (r & evs & Hr & (a & -> & Ha) & _).
    exists a, (tr ++ evs). split; [exact Hr | exact Ha].
Qed.

End ScraperCap.

(** ** Batch submission *)

Section Batch.

Variable W : World.
Variable self : ArticleService.Service.

Ltac batch_start Hser Hpost :=
  unfold ArticleService.create_articles_batch, try_except, bind,
    ArticleService.post, ask, lift, ret;
  fold (batch_url self); rewrite Hser, Hpost.

(** The four outcomes of a batch submission named by the specification, for
    articles that serialize: a conforming 200 answer is returned as it is; a
    200 answer that is not JSON, or not a JSON object, gives the empty
    result; any other status gives the truncated body as the only error; a
    transport failure gives the fixed error entry. *)
Lemma create_articles_batch_cases articles tr data tr1 :
  mapM (ArticleCode.to_dict W) articles tr = (Ok data, tr1) ->
  (forall resp fields a k es,
      requests_post W (List.length tr1) (batch_url self) data = Ok resp ->
      status_code resp = 200 ->
      json_loads W (text resp) = Ok (JObj fields) ->
      PyVal.lookup fields "added" = Some (JInt a) ->
      PyVal.lookup fields "skipped" = Some (JInt k) ->
      PyVal.lookup fields "errors" = Some (JArr es) ->
      ArticleService.create_articles_batch W self articles tr =
      (Ok (ArticleService.mkBatch (JInt a) (JInt k) (JArr es)),
       tr1 ++ [EvPost (batch_url self) data]))
  /\ (forall resp,
      requests_post W (List.length tr1) (batch_url self) data = Ok resp ->
      status_code resp = 200 ->
      (json_loads W (text resp) = Raise ValueError
       \/ exists v, json_loads W (text resp) = Ok v /\ PyVal.is_dict v = false) ->
      ArticleService.create_articles_batch W self articles tr =
      (Ok empty_batch, tr1 ++ [EvPost (batch_url self) data]))
  /\ (forall resp,
      requests_post W (List.length tr1) (batch_url self) data = Ok resp ->
      status_code resp <> 200 ->
      ArticleService.create_articles_batch W self articles tr =
      (Ok (ArticleService.mkBatch (JInt 0) (JInt 0)
             (JArr [JStr (ArticleService._truncate (text resp) 500)])),
       tr1 ++ [EvPost (batch_url self) data]))
  /\ (requests_post W (List.length tr1) (batch_url self) data = Raise RequestException ->
      ArticleService.create_articles_batch W self articles tr =
      (Ok (ArticleService.mkBatch (JInt 0) (JInt 0) (JArr [JStr "request exception"])),
       tr1 ++ [EvPost (batch_url self) data])).
Proof.
  intros Hser. repeat split.
  - intros resp fields a k es Hpost Hst Hjson Ha Hk He.
    batch_start Hser Hpost. rewrite Hst, Hjson. simpl.
    unfold PyVal.dict_get. rewrite Ha, Hk, He.
    destruct es as [| e0 es]; reflexivity.
  - intros resp Hpost Hst Hjson. batch_start Hser Hpost. rewrite Hst. simpl.
    destruct Hjson as [-> | (v & -> & Hv)]; [reflexivity |].
    rewrite Hv. reflexivity.
  - intros resp Hpost Hst. batch_start Hser Hpost.
    apply Z.eqb_neq in Hst. rewrite Hst. reflexivity.
  - intros Hpost. batch_start Hser Hpost. reflexivity.
Qed.

(** X28: on a 200 answer holding a JSON object whose [errors] field is
    absent, null or an array, the call returns; a missing [added] or
    [skipped] is returned as 0; a missing or null [errors] is returned as the
    empty list; and the returned [errors] is a list, never null. *)
Theorem batch_defaults_for_missing_fields articles tr data tr1 resp fields :
  mapM (ArticleCode.to_dict W) articles tr = (Ok data, tr1) ->
  requests_post W (List.length tr1) (batch_url self) data = Ok resp ->
  status_code resp = 200 ->
  json_loads W (text resp) = Ok (JObj fields) ->
  (PyVal.lookup fields "errors" = None
   \/ PyVal.lookup fields "errors" = Some JNull
   \/ exists es, PyVal.lookup fields "errors" = Some (JArr es)) ->
  exists r,
    ArticleService.create_articles_batch W self articles tr =
    (Ok r, tr1 ++ [EvPost (batch_url self) data])
    /\ ArticleService.added r = PyVal.dict_get fields "added" (JInt 0)
    /\ ArticleService.skipped r = PyVal.dict_get fields "skipped" (JInt 0)
    /\ (PyVal.lookup fields "added" = None -> ArticleService.added r = JInt 0)
    /\ (PyVal.lookup fields "skipped" = None -> ArticleService.skipped r = JInt 0)
    /\ (PyVal.lookup fields "errors" = None \/ PyVal.lookup fields "errors" = Some JNull ->
        ArticleService.errors r = JArr [])
    /\ PyVal.is_list (ArticleService.errors r) = true
    /\ ArticleService.errors r <> JNull.
Proof.
  intros Hser Hpost Hst Hjson Herr.
  assert (Hrun : exists es,
    ArticleService.create_articles_batch W self articles tr =
    (Ok (ArticleService.mkBatch (PyVal.dict_get fields "added" (JInt 0))
           (PyVal.dict_get fields "skipped" (JInt 0)) (JArr es)),
     tr1 ++ [EvPost (batch_url self) data])
    /\ (PyVal.lookup fields "errors" = None \/ PyVal.lookup fields "errors" = Some JNull ->
        es = [])).
  { batch_start Hser Hpost. rewrite Hst, Hjson. simpl.
    destruct Herr as [H | [H | (es & H)]].
    - assert (Hev : PyVal.dict_get fields "errors" (JArr []) = JArr [])
        by (unfold PyVal.dict_get; rewrite H; reflexivity).
      rewrite Hev. exists []. split; [reflexivity | auto].
    - assert (Hev : PyVal.dict_get fields "errors" (JArr []) = JNull)
        by (unfold PyVal.dict_get; rewrite H; reflexivity).
      rewrite Hev. exists []. split; [reflexivity | auto].
    - assert (Hev : PyVal.dict_get fields "errors" (JArr []) = JArr es)
        by (unfold PyVal.dict_get; rewrite H; reflexivity).
      rewrite Hev. exists es. split.
      + destruct es; reflexivity.
      + intros [H' | H']; congruence. }
  destruct Hrun as (es & Hrun & Hes).
  eexists. split; [exact Hrun |]. cbn [ArticleService.added ArticleService.skipped
                                       ArticleService.errors].
  repeat split.
  - intros H. unfold PyVal.dict_get. rewrite H. reflexivity.
  - intros H. unfold PyVal.dict_get. rewrite H. reflexivity.
  - intros H. rewrite (Hes H). reflexivity.
  - discriminate.
Qed.

Lemma py_or_not_null (ev : json) : PyVal.py_or ev (JArr []) <> JNull.
Proof.
  unfold PyVal.py_or. destruct (PyVal.truthy ev) eqn:Ht; [| discriminate].
  intros ->. discriminate.
Qed.

Ltac bail :=
  match goal with
  | |- context [is_request_exception ?e] => destruct (is_request_exception e)
  end;
  let H := fresh "H" in intros H; inversion H; subst; discriminate.

(** Whenever the call returns, the [errors] it returns is not null (nor any
    other value that counts as false, the empty list apart). *)
Lemma batch_errors_never_null articles tr r tr' :
  ArticleService.create_articles_batch W self articles tr = (Ok r, tr') ->
  ArticleService.errors r <> JNull.
Proof.
  unfold ArticleService.create_articles_batch, try_except, bind,
    ArticleService.post, ask, lift, ret.
  destruct (mapM (ArticleCode.to_dict W) articles tr) as [[data | e] tr1]; [| bail].
  destruct (requests_post W _ _ data) as [resp | e]; [| bail].
  destruct (status_code resp =? 200);
    [| intros H; inversion H; subst; discriminate].
  destruct (json_loads W (text resp)) as [v | e0];
    [| destruct (is_value_error e0);
       [simpl; intros H; inversion H; subst; discriminate | bail]].
  (set (result := if PyVal.is_dict _ then _ else _);
     destruct (PyVal.get result "added" (JInt 0)) as [a | e]; simpl; [| bail];
     destruct (PyVal.get result "skipped" (JInt 0)) as [k | e]; simpl; [| bail];
     destruct (PyVal.get result "errors" (JArr [])) as [ev | e]; simpl; [| bail];
     pose proof (py_or_not_null ev) as Hor;
     destruct (PyVal.py_len (PyVal.py_or ev (JArr []))) as [n | e]; simpl; [| bail];
     destruct (PyVal.truthy (PyVal.py_or ev (JArr [])));
     [ destruct (PyVal.py_slice 5 (PyVal.py_or ev (JArr []))) as [sl | e]; simpl;
         [| bail];
       destruct (PyVal.py_len sl) as [n' | e]; simpl; [| bail];
       intros H; inversion H; subst; exact Hor
     | intros H; inversion H; subst; exact Hor ]).
Qed.

End Batch.

(** ** Calendar arithmetic: a date and its day number *)

Lemma all_from_spec (n : nat) :
  forall z, all_from n z = true ->
  forall k, z <= k < z + Z.of_nat n -> doe_ok k = true.
Proof.
  induction n as [| n IH]; simpl all_from; intros z H k Hk; [lia |].
  apply andb_true_iff in H. destruct H as [Hz Hrest].
  destruct (Z.eq_dec k z) as [-> | Hne]; [exact Hz |].
  apply (IH (z + 1) Hrest). lia.
Qed.

Lemma era_days_ok : all_from (Z.to_nat 146097) 0 = true.
Proof. vm_compute. reflexivity. Qed.

Lemma doe_ok_in_era (doe : Z) : 0 <= doe < 146097 -> doe_ok doe = true.
Proof.
  intros H. apply (all_from_spec _ _ era_days_ok). lia.
Qed.

Lemma days_from_civil_from_days (z : Z) :
  let '(y, m, d) := Datetime.civil_from_days z in
  Datetime.days_from_civil y m d = z.
Proof.
  unfold Datetime.civil_from_days.
  set (z' := z + 719468).
  set (era := z' / 146097).
  set (doe := z' - era * 146097).
  assert (Hdoe : 0 <= doe < 146097).
  { subst doe era. pose proof (Z.div_mod z' 146097 ltac:(lia)).
    pose proof (Z.mod_pos_bound z' 146097 ltac:(lia)). lia. }
  pose proof (doe_ok_in_era doe Hdoe) as Hok. unfold doe_ok in Hok.
  cbv zeta in Hok.
  set (yoe := Datetime.yoe_of_doe doe) in *.
  set (doy := Datetime.doy_of doe yoe) in *.
  set (mp := Datetime.mp_of doy) in *.
  apply andb_true_iff in Hok. destruct Hok as [Hok Hmp2].
  apply andb_true_iff in Hok. destruct Hok as [Hok Hmp1].
  apply andb_true_iff in Hok. destruct Hok as [Hy1 Hy2].
  apply Z.leb_le in Hy1, Hy2, Hmp1, Hmp2.
  assert (Hdoy : doy = doe - (365 * yoe + yoe / 4 - yoe / 100)) by reflexivity.
  assert (Hz : z = era * 146097 + doe - 719468) by (subst doe z'; lia).
  clearbody mp doy yoe doe era. clear z'.
  assert (Hera : (yoe + era * 400) / 400 = era).
  { symmetry. apply Z.div_unique with (r := yoe); lia. }
  unfold Datetime.days_from_civil.
  destruct (mp <? 10) eqn:Hlt.
  - apply Z.ltb_lt in Hlt.
    replace (mp + 3 <=? 2) with false by (symmetry; apply Z.leb_gt; lia).
    replace (2 <? mp + 3) with true by (symmetry; apply Z.ltb_lt; lia).
    rewrite Hera.
    replace (mp + 3 - 3) with mp by lia.
    replace (yoe + era * 400 - era * 400) with yoe by lia.
    lia.
  - apply Z.ltb_ge in Hlt.
    replace (mp - 9 <=? 2) with true by (symmetry; apply Z.leb_le; lia).
    replace (2 <? mp - 9) with false by (symmetry; apply Z.ltb_ge; lia).
    replace (yoe + era * 400 + 1 - 1) with (yoe + era * 400) by lia.
    rewrite Hera.
    replace (mp - 9 + 9) with mp by lia.
    replace (yoe + era * 400 - era * 400) with yoe by lia.
    lia.
Qed.

(** The wall-clock fields computed from a count of microseconds give the
    count back. *)
Lemma wall_us_of_wall_us (t : Z) (tz : option Z) :
  Datetime.wall_us (Datetime.of_wall_us t tz) = t.
Proof.
  unfold Datetime.of_wall_us, Datetime.wall_us.
  pose proof (days_from_civil_from_days (t / Datetime.us_per_day)) as Hd.
  destruct (Datetime.civil_from_days (t / Datetime.us_per_day)) as [[y m] d].
  cbn [Datetime.year Datetime.month Datetime.day Datetime.hour Datetime.minute
       Datetime.second Datetime.microsecond].
  rewrite Hd. unfold Datetime.us_per_day, Datetime.us_per_second.
  Z.div_mod_to_equations. lia.
Qed.

(** ** Serialization of the published date *)

Section Serialization.

Variable W : World.

(** [to_dict] in three steps: the stored date is read, the clock stands in
    for a date that cannot be read, and the date is serialized. *)
Lemma to_dict_shape self tr :
  ArticleCode.to_dict W self tr =
  bind (read_stored W self)
       (fun dt => bind (match dt with
                        | None => ArticleCode.now_utc W
                        | Some d => ret d
                        end)
                       (fun d => lift (serialized W self d))) tr.
Proof.
  unfold ArticleCode.to_dict, read_stored, bind.
  destruct (match published_date self with
            | PDDatetime d => ret (Some d)
            | PDString s => _
            | PDOther => ret None
            end tr) as [[o | e] tr1]; [| reflexivity].
  destruct (match o with None => ArticleCode.now_utc W | Some d => ret d end tr1)
    as [[d | e] tr2]; [| reflexivity].
  unfold lift, ret, serialized, auckland_time, assume_utc, wire_of.
  destruct (astimezone _ _); reflexivity.
Qed.

Lemma to_dict_datetime self d tr :
  published_date self = PDDatetime d ->
  ArticleCode.to_dict W self tr = (serialized W self d, tr).
Proof.
  intros H. rewrite to_dict_shape. unfold read_stored. rewrite H. reflexivity.
Qed.

Lemma to_dict_parsed self s d tr :
  published_date self = PDString s ->
  dateutil_parse W (List.length tr) s = Ok d ->
  ArticleCode.to_dict W self tr = (serialized W self d, tr ++ [EvParseDate s]).
Proof.
  intros H Hp. rewrite to_dict_shape. unfold read_stored. rewrite H.
  unfold bind, try_except, ask. rewrite Hp. reflexivity.
Qed.

Lemma to_dict_unparsable self s e tr :
  published_date self = PDString s ->
  dateutil_parse W (List.length tr) s = Raise e ->
  is_parse_error e = true ->
  ArticleCode.to_dict W self tr =
  (serialized W self (now_at W (S (List.length tr))), tr ++ [EvParseDate s; EvNow]).
Proof.
  intros H Hp He. rewrite to_dict_shape. unfold read_stored. rewrite H.
  unfold bind, try_except, ask. rewrite Hp, He.
  unfold ret, ArticleCode.now_utc, ask, lift.
  rewrite length_app, Nat.add_1_r, <- app_assoc. reflexivity.
Qed.

Lemma to_dict_uncaught self s e tr :
  published_date self = PDString s ->
  dateutil_parse W (List.length tr) s = Raise e ->
  is_parse_error e = false ->
  ArticleCode.to_dict W self tr = (Raise e, tr ++ [EvParseDate s]).
Proof.
  intros H Hp He. rewrite to_dict_shape. unfold read_stored. rewrite H.
  unfold bind, try_except, ask. rewrite Hp, He. reflexivity.
Qed.

Lemma to_dict_other self tr :
  published_date self = PDOther ->
  ArticleCode.to_dict W self tr =
  (serialized W self (now_at W (List.length tr)), tr ++ [EvNow]).
Proof.
  intros H. rewrite to_dict_shape. unfold read_stored. rewrite H. reflexivity.
Qed.

Lemma add_us_ok dt delta r :
  add_us dt delta = Ok r ->
  r = of_wall_us (wall_us dt + delta) (tzoffset dt)
  /\ MINYEAR <= year r <= MAXYEAR.
Proof.
  unfold add_us.
  destruct (_ && _) eqn:Hrange; [| discriminate].
  intros H. inversion H; subst. split; [reflexivity |].
  apply andb_true_iff in Hrange. destruct Hrange as [H1 H2].
  apply Z.leb_le in H1, H2. auto.
Qed.

Lemma tzoffset_of_wall_us t tz : tzoffset (of_wall_us t tz) = tz.
Proof.
  unfold of_wall_us. destruct (civil_from_days _) as [[y m] d]. reflexivity.
Qed.

Lemma utc_instant_assume_utc d : utc_instant (assume_utc d) = utc_instant d.
Proof.
  unfold assume_utc, utc_instant. destruct (tzoffset d) eqn:H.
  - rewrite H. reflexivity.
  - unfold wall_us, replace_tzinfo. simpl. reflexivity.
Qed.

(** The conversion keeps the instant, carries the offset of the zone at that
    instant, and stays within the years of [datetime]. *)
Lemma auckland_time_ok d nz :
  auckland_time W d = Ok nz ->
  tzoffset nz = Some (pacific_auckland W (utc_instant d) * us_per_second)
  /\ wall_us nz - pacific_auckland W (utc_instant d) * us_per_second = utc_instant d
  /\ MINYEAR <= year nz <= MAXYEAR.
Proof.
  unfold auckland_time. rewrite <- (utc_instant_assume_utc d).
  generalize (assume_utc d). clear d. intros d.
  unfold astimezone, utc_instant.
  destruct (tzoffset d) as [off |] eqn:Hoff; [| discriminate].
  destruct (valid_offset off); cbn [negb]; [| discriminate].
  destruct (add_us d (- off)) as [utc | e] eqn:Hutc; [| discriminate].
  apply add_us_ok in Hutc. destruct Hutc as [Hutc _].
  assert (Hwu : wall_us utc = wall_us d - off).
  { rewrite Hutc, wall_us_of_wall_us. lia. }
  rewrite Hwu.
  destruct (add_us _ _) as [local | e] eqn:Hnz; [| discriminate].
  destruct (valid_offset _); [| discriminate].
  intros Hl. inversion Hl; subst local. clear Hl.
  apply add_us_ok in Hnz. destruct Hnz as [Hnz Hy].
  assert (Hw : wall_us (replace_tzinfo utc
                 (Some (pacific_auckland W (wall_us d - off) * us_per_second)))
               = wall_us utc) by reflexivity.
  rewrite Hw, Hwu in Hnz. cbn [tzoffset replace_tzinfo] in Hnz.
  split; [rewrite Hnz; apply tzoffset_of_wall_us |].
  split; [rewrite Hnz, wall_us_of_wall_us; lia | exact Hy].
Qed.



(** C8 (as amended): two serializations of the same article give the same
    output when the stored date reads the same at both calls (a [datetime],
    or a string that parses to the same [datetime]).  In every case the two
    outputs agree on every key but [publishedDate]. *)
Theorem to_dict_repeatable (self : Article) :
  (date_is_fixed W self ->
   forall tr1 tr2,
     fst (ArticleCode.to_dict W self tr1) = fst (ArticleCode.to_dict W self tr2))
  /\ (date_is_fixed W self ->
      forall tr w1 w2,
        fst (serialize_twice W self tr) = Ok (w1, w2) -> w1 = w2)
  /\ (forall tr1 tr2 w1 w2,
        fst (ArticleCode.to_dict W self tr1) = Ok w1 ->
        fst (ArticleCode.to_dict W self tr2) = Ok w2 ->
        w2 = with_published_date w1 (w_publishedDate w2)).
Proof.
  assert (Hfixed : date_is_fixed W self ->
            forall tr1 tr2,
              fst (ArticleCode.to_dict W self tr1) = fst (ArticleCode.to_dict W self tr2)).
  { unfold date_is_fixed. intros Hf tr1 tr2.
    destruct (published_date self) as [d | s |] eqn:Hpd.
    - rewrite !(to_dict_datetime self d) by exact Hpd. reflexivity.
    - destruct Hf as (d & Hd).
      rewrite (to_dict_parsed self s d tr1 Hpd (Hd _)).
      rewrite (to_dict_parsed self s d tr2 Hpd (Hd _)). reflexivity.
    - destruct Hf. }
  assert (Hshape : forall tr w,
            fst (ArticleCode.to_dict W self tr) = Ok w ->
            exists p, w = wire_of self p).
  { intros tr w.
    assert (Hser : forall d, serialized W self d = Ok w -> exists p, w = wire_of self p).
    { intros d. unfold serialized. destruct (auckland_time W d); [| discriminate].
      intros H. inversion H. eauto. }
    destruct (published_date self) as [d | s |] eqn:Hpd.
    - rewrite (to_dict_datetime self d tr Hpd). apply Hser.
    - destruct (dateutil_parse W (List.length tr) s) as [d | e] eqn:Hp.
      + rewrite (to_dict_parsed self s d tr Hpd Hp). apply Hser.
      + destruct (is_parse_error e) eqn:He.
        * rewrite (to_dict_unparsable self s e tr Hpd Hp He). apply Hser.
        * rewrite (to_dict_uncaught self s e tr Hpd Hp He). discriminate.
    - rewrite (to_dict_other self tr Hpd). apply Hser. }
  split; [exact Hfixed |]. split.
  - intros Hf tr w1 w2. unfold serialize_twice, bind.
    pose proof (Hfixed Hf tr) as Hsame.
    destruct (ArticleCode.to_dict W self tr) as [[a | e] tr1]; [| discriminate].
    specialize (Hsame tr1). cbn [fst] in Hsame.
    destruct (ArticleCode.to_dict W self tr1) as [[b | e] tr2]; [| discriminate].
    cbn [fst] in Hsame. unfold ret. cbn [fst]. intros H. inversion H; subst.
    inversion Hsame. reflexivity.
  - intros tr1 tr2 w1 w2 H1 H2.
    destruct (Hshape tr1 w1 H1) as (p1 & ->).
    destruct (Hshape tr2 w2 H2) as (p2 & ->). reflexivity.
Qed.

End Serialization.

(** * The properties at work on the fixtures *)

Import Fixtures.

(** Four scrapers, the second of which raises: the run returns 4 scraped,
    3 added and 3 skipped, from the other three. *)
Lemma scrape_all_survives_witness :
  fst (Orchestrator.scrape_all quiet_world demo_orchestrator [])
  = Ok (Orchestrator.mkTotals 4 (PyVal.NInt 3) (PyVal.NInt 3))
  /\ contributions quiet_world demo_orchestrator
       (Orchestrator.scrapers demo_orchestrator) []
     = [Orchestrator.mkTotals 2 (PyVal.NInt 1) (PyVal.NInt 1);
        Orchestrator.zero_totals;
        Orchestrator.mkTotals 1 (PyVal.NInt 1) (PyVal.NInt 1);
        Orchestrator.mkTotals 1 (PyVal.NInt 1) (PyVal.NInt 1)].
Proof.
  destruct (scrape_all_survives_raising_scraper quiet_world demo_orchestrator
              [good_one] [good_three; good_four] raising [] (OtherException 1))
    as (t1 & tr1 & tr2 & totals & tr' & Hpre & Hbad & Hone & Hrest & Hall & Hc & Hsum).
  - reflexivity.
  - vm_compute. reflexivity.
  - split.
    + rewrite Hall. cbn [fst]. rewrite Hsum.
      * vm_compute. reflexivity.
      * vm_compute. repeat constructor; eexists; eexists; split; reflexivity.
    + vm_compute. reflexivity.
Defined.

(** C2: the call raises [TypeError] when the backend answers 200 with an
    object whose [errors] is the number 5 (the log line takes its length),
    and [OverflowError] when an article carries a date of the year 9999 that
    has no Auckland local time within the range of [datetime]. *)
Theorem create_articles_batch_can_raise :
  fst (ArticleService.create_articles_batch errors_number_world demo_service
         [demo_article "https://example.org/1"] [])
  = Raise TypeError
  /\ fst (ArticleService.create_articles_batch quiet_world demo_service
            [far_future_feed_article] [])
     = Raise OverflowError.
Proof.
  split; vm_compute; reflexivity.
Qed.

(** C3: no [publishedDate] is emitted for a date at either end of the
    calendar: [to_dict] raises [OverflowError] for the aware date
    9999-12-31T23:00:00+00:00, for the text 9999-12-31T23:59:59 that a feed
    scraper stores for an entry of that date, and for 0001-01-01T00:00:00
    five hours east of UTC. *)
Theorem far_future_date_is_not_serialized :
  fst (ArticleCode.to_dict quiet_world far_future_article []) = Raise OverflowError
  /\ fst (ArticleCode.to_dict quiet_world far_future_feed_article [])
     = Raise OverflowError
  /\ fst (ArticleCode.to_dict quiet_world EdgeFixtures.early_article [])
     = Raise OverflowError.
Proof. repeat split; vm_compute; reflexivity. Qed.

(** C10: the backend answers 200 with an object that has no [added] field
    and whose [errors] field is a text: 0 stands in for the missing count,
    and the [errors] returned is that text, not a list. *)
Theorem batch_errors_can_be_a_text :
  fst (ArticleService.create_articles_batch EdgeFixtures.errors_text_world
         demo_service [demo_article "https://example.org/1"] [])
  = Ok (ArticleService.mkBatch (JInt 0) (JInt 1) (JStr "oops"))
  /\ PyVal.is_list (JStr "oops") = false.
Proof. split; vm_compute; reflexivity. Qed.

Lemma sentiment_cascade_witness :
  fst (SentimentAnalyzer.analyze_text_sentiment_and_terms quiet_world
         "Markets rally" "" [])
  = Ok SentimentAnalyzer.default_terms
  /\ exists label score confidence,
       SentimentAnalyzer.analyze_text_sentiment_and_terms growth_world
         "Markets rally" "" []
       = (Ok (SentimentAnalyzer.mkTerms label score confidence
                [JStr "growth"; JStr "record"] []),
          [EvClassify "Markets rally";
           EvGenerate (SentimentAnalyzer.extraction_prompt "Markets rally")]).
Proof.
  split.
  - apply (proj1 (sentiment_cascade quiet_world)); intros t s; reflexivity.
  - destruct (proj1 (proj2 (sentiment_cascade growth_world))
                "Markets rally"%string ""%string [] gen_growth)
      as (label & score & confidence & H).
    + vm_compute. discriminate.
    + vm_compute. reflexivity.
    + left. vm_compute. discriminate.
    + exists label, score, confidence. rewrite H. vm_compute. reflexivity.
Defined.

(** Nine words from the structured extraction, the first in capitals: the
    list is returned as it is. *)
Lemma structured_lists_are_not_capped :
  fst (SentimentAnalyzer.analyze_text_sentiment_and_terms nine_words_world
         "Markets rally" "" [])
  = Ok (SentimentAnalyzer.mkTerms "neutral" (S754_zero false) (S754_zero false)
          nine_words [])
  /\ ~ capped_lowercase_words nine_words.
Proof.
  split; [vm_compute; reflexivity |].
  intros (ws & Hws & _ & _ & Hlen).
  apply (f_equal (@List.length json)) in Hws. rewrite length_map in Hws.
  simpl in Hws. lia.
Qed.

(** The toggle set to the empty string: extraction is off, although the
    value is none of [0], [false], [no]. *)
Lemma empty_toggle_disables_extraction :
  extraction_toggle empty_toggle_world = false
  /\ ~ toggle_disables_as_specified (getenv empty_toggle_world "SCRAPE_EXTRACT_CONTENT").
Proof.
  split; [reflexivity |].
  intros [H | [H | H]]; vm_compute in H; discriminate H.
Qed.

(** A date that cannot be parsed: each serialization reads the clock. *)
Lemma unparsable_date_serializes_differently :
  fst (serialize_twice quiet_world undated_article [])
  = Ok (wire_of undated_article "2024-01-01T13:00:01+13:00",
        wire_of undated_article "2024-01-01T13:00:03+13:00")
  /\ wire_of undated_article "2024-01-01T13:00:01+13:00"
     <> wire_of undated_article "2024-01-01T13:00:03+13:00".
Proof.
  split; [vm_compute; reflexivity |].
  intros H. apply (f_equal w_publishedDate) in H. vm_compute in H. discriminate H.
Qed.

Lemma to_dict_repeatable_witness :
  fst (ArticleCode.to_dict quiet_world (demo_article "https://example.org/1") [])
  = fst (ArticleCode.to_dict quiet_world (demo_article "https://example.org/1") [EvNow])
  /\ forall w1 w2,
       fst (serialize_twice quiet_world (demo_article "https://example.org/1") [])
       = Ok (w1, w2) -> w1 = w2.
Proof.
  split.
  - apply (proj1 (to_dict_repeatable quiet_world (demo_article "https://example.org/1"))).
    exact I.
  - apply (proj1 (proj2 (to_dict_repeatable quiet_world
                           (demo_article "https://example.org/1")))).
    exact I.
Defined.

Lemma batch_defaults_witness :
  exists tr',
    ArticleService.create_articles_batch empty_object_world demo_service
      [demo_article "https://example.org/1"] [] = (Ok empty_batch, tr').
Proof.
  edestruct (batch_defaults_for_missing_fields empty_object_world demo_service
               [demo_article "https://example.org/1"] [])
    as (r & Hrun & Ha & Hk & Ha0 & Hk0 & He & Hl & Hn).
  - vm_compute. reflexivity.
  - vm_compute. reflexivity.
  - reflexivity.
  - vm_compute. reflexivity.
  - left. reflexivity.
  - eexists. rewrite Hrun. destruct r as [a k e].
    cbn [ArticleService.added ArticleService.skipped ArticleService.errors] in *.
    rewrite (Ha0 eq_refl), (Hk0 eq_refl), (He (or_introl eq_refl)). reflexivity.
Defined.

(** * Further properties *)

(** ** Blank strings and [strip] *)

Lemma lstrip_blank (s : string) : blank s -> Py.lstrip s = EmptyString.
Proof.
  induction s as [| c s IH]; simpl; [reflexivity |].
  intros [Hc Hs]. rewrite Hc. apply IH. exact Hs.
Qed.

Lemma lstrip_head (s : string) :
  Py.lstrip s = EmptyString
  \/ exists c rest, Py.lstrip s = String c rest /\ Py.isspace c = false.
Proof.
  induction s as [| c s IH]; simpl; [left; reflexivity |].
  destruct (Py.isspace c) eqn:Hc; [exact IH |].
  right. exists c, s. auto.
Qed.

Lemma lstrip_empty_blank (s : string) : Py.lstrip s = EmptyString -> blank s.
Proof.
  induction s as [| c s IH]; simpl; [intros _; exact I |].
  destruct (Py.isspace c) eqn:Hc; [| discriminate].
  intros H. split; [exact Hc | apply IH; exact H].
Qed.

Lemma rstrip_head (c : ascii) (rest : string) :
  Py.isspace c = false -> exists r, Py.rstrip (String c rest) = String c r.
Proof.
  intros Hc. simpl. destruct (Py.rstrip rest) as [| d r'].
  - rewrite Hc. eauto.
  - eauto.
Qed.

(** [strip] gives the empty string exactly on blank strings. *)
Lemma strip_empty_iff (s : string) : Py.strip s = EmptyString <-> blank s.
Proof.
  unfold Py.strip. split.
  - intros H. destruct (lstrip_head s) as [He | (c & rest & He & Hc)].
    + apply lstrip_empty_blank. exact He.
    + rewrite He in H. destruct (rstrip_head c rest Hc) as (r & Hr).
      rewrite Hr in H. discriminate.
  - intros H. rewrite lstrip_blank by exact H. reflexivity.
Qed.

Lemma blank_app (a b : string) : blank (a ++ b) <-> blank a /\ blank b.
Proof.
  unfold blank. induction a as [| c a IH]; simpl; [tauto |].
  rewrite IH. tauto.
Qed.

Lemma strip_blank_iff (s : string) : blank (Py.strip s) <-> blank s.
Proof.
  split.
  - intros H. unfold Py.strip in H.
    destruct (lstrip_head s) as [He | (c & rest & He & Hc)].
    + apply lstrip_empty_blank. exact He.
    + rewrite He in H. destruct (rstrip_head c rest Hc) as (r & Hr).
      rewrite Hr in H. destruct H as [H _]. congruence.
  - intros H. apply strip_empty_iff in H. rewrite H. exact I.
Qed.

(** X1: the analyzer works on an empty text exactly when the title and the
    description are both blank (empty or whitespace only); it then returns
    the neutral defaults without a single query to the inference provider. *)
Theorem analyze_blank_text (W : World) (title description : string) :
  (analyzed_text title description = EmptyString
   <-> blank title /\ blank description)
  /\ (analyzed_text title description = EmptyString ->
      forall tr,
        SentimentAnalyzer.analyze_text_sentiment_and_terms W title description tr
        = (Ok SentimentAnalyzer.default_terms, tr)).
Proof.
  split.
  - unfold analyzed_text. rewrite strip_empty_iff, !blank_app, !strip_blank_iff.
    split; [tauto |]. intros [H1 H2]. repeat split; auto.
  - intros H tr. unfold SentimentAnalyzer.analyze_text_sentiment_and_terms.
    fold (analyzed_text title description). rewrite H. reflexivity.
Qed.

(** ** The candidate words of the per-word fallback *)

Lemma all_chars_snoc_iff P (s : string) (c : ascii) :
  all_chars P (s ++ String c EmptyString) <-> all_chars P s /\ P c.
Proof.
  induction s as [| a s IH]; simpl; [tauto |]. rewrite IH. tauto.
Qed.

Lemma length_snoc (s : string) (c : ascii) :
  String.length (s ++ String c EmptyString) = S (String.length s).
Proof. induction s as [| a s IH]; simpl; [reflexivity | rewrite IH; reflexivity]. Qed.

Lemma emit_shaped (cur : string) :
  run_shaped cur -> Forall word_shaped (SentimentAnalyzer.emit cur).
Proof.
  intros H. unfold SentimentAnalyzer.emit.
  destruct (3 <=? String.length cur)%nat eqn:Hlen; [| constructor].
  apply Nat.leb_le in Hlen. constructor; [| constructor].
  destruct cur as [| c rest]; simpl in *; [lia |].
  destruct H as [Hc Hrest]. repeat split; auto. lia.
Qed.

Lemma findall_from_shaped (s cur : string) :
  run_shaped cur -> Forall word_shaped (SentimentAnalyzer.findall_from cur s).
Proof.
  revert cur. induction s as [| c s IH]; intros cur Hcur; simpl.
  - apply emit_shaped. exact Hcur.
  - destruct cur as [| c0 rest]; simpl Py.nonempty; cbv iota.
    + destruct (Py.is_ascii_letter c) eqn:Hc; apply IH; simpl; auto.
    + destruct (SentimentAnalyzer.is_word_char c) eqn:Hc.
      * apply IH. simpl. destruct Hcur as [H0 Hrest]. split; [exact H0 |].
        apply all_chars_snoc_iff. auto.
      * apply Forall_app. split; [apply emit_shaped; exact Hcur |].
        apply IH. exact I.
Qed.

Lemma subsequence_refl {A} (l : list A) : subsequence l l.
Proof. induction l; [constructor | apply subseq_keep; assumption]. Qed.

Lemma subsequence_app_keep {A} (pre l1 l2 : list A) :
  subsequence l1 l2 -> subsequence (pre ++ l1) (pre ++ l2).
Proof. intros H. induction pre; simpl; [exact H | constructor; exact IHpre]. Qed.

Lemma candidate_loop_more limit tokens :
  forall seen words,
    (List.length words < Nat.max 1 limit)%nat ->
    exists added,
      SentimentAnalyzer.candidate_loop limit tokens seen words = words ++ added
      /\ subsequence added tokens
      /\ Forall (fun w => Py.str_in w SentimentAnalyzer._STOP_WORDS = false) added
      /\ (List.length (words ++ added) <= Nat.max 1 limit)%nat.
Proof.
  induction tokens as [| t tokens IH]; intros seen words Hlen;
    cbn [SentimentAnalyzer.candidate_loop].
  - exists []. rewrite app_nil_r. repeat split; try constructor. lia.
  - destruct (Py.str_in t SentimentAnalyzer._STOP_WORDS) eqn:Hstop.
    { destruct (IH seen words Hlen) as (added & He & Hs & Hf & Hl).
      exists added. repeat split; auto. apply subseq_skip. exact Hs. }
    destruct (Py.str_in t seen).
    { destruct (IH seen words Hlen) as (added & He & Hs & Hf & Hl).
      exists added. repeat split; auto. apply subseq_skip. exact Hs. }
    destruct (limit <=? List.length (words ++ [t]))%nat eqn:Hfull.
    + exists [t]. split; [reflexivity |]. split.
      * apply subseq_keep. apply subsequence_nil.
      * split; [constructor; [exact Hstop | constructor] |].
        rewrite length_app. cbn [List.length]. lia.
    + apply Nat.leb_gt in Hfull.
      destruct (IH (t :: seen) (words ++ [t])) as (added & He & Hs & Hf & Hl).
      { rewrite length_app in *. cbn [List.length] in *. lia. }
      exists (t :: added). rewrite He, <- app_assoc. split; [reflexivity |].
      split; [apply subseq_keep; exact Hs |]. split; [constructor; assumption |].
      rewrite <- app_assoc in Hl. exact Hl.
Qed.

Lemma candidate_words_at_most_30 (text : string) :
  (List.length (SentimentAnalyzer._extract_candidate_words text 30) <= 30)%nat.
Proof.
  unfold SentimentAnalyzer._extract_candidate_words.
  destruct (candidate_loop_more 30
              (SentimentAnalyzer._WORD_RE_findall (Py.lower text)) [] [])
    as (added & He & _ & _ & Hl); [cbn [List.length]; lia |].
  rewrite He. cbn [app List.length] in *. lia.
Qed.

(** X2: [_extract_candidate_words] returns at most [limit] words (one word
    when [limit] is 0), all different, in the order of their first
    occurrence among the matches of the word pattern in the lower-cased
    text; each is a match of the pattern (a letter and at least two more
    characters among letters, apostrophe and hyphen), is in lower case, and
    is not a stop word. *)
Theorem candidate_words_properties (text : string) (limit : nat) :
  (List.length (SentimentAnalyzer._extract_candidate_words text limit)
   <= Nat.max 1 limit)%nat
  /\ NoDup (SentimentAnalyzer._extract_candidate_words text limit)
  /\ subsequence (SentimentAnalyzer._extract_candidate_words text limit)
                 (SentimentAnalyzer._WORD_RE_findall (Py.lower text))
  /\ Forall (fun w => word_shaped w /\ lowercase_term w
                      /\ Py.str_in w SentimentAnalyzer._STOP_WORDS = false)
            (SentimentAnalyzer._extract_candidate_words text limit).
Proof.
  unfold SentimentAnalyzer._extract_candidate_words.
  set (tokens := SentimentAnalyzer._WORD_RE_findall (Py.lower text)).
  destruct (candidate_loop_more limit tokens [] []) as (added & He & Hs & Hf & Hl);
    [cbn [List.length]; lia |].
  assert (Htok : Forall (fun w => word_shaped w /\ lowercase_term w) tokens).
  { apply Forall_and.
    - apply findall_from_shaped. exact I.
    - eapply Forall_impl; [intros w; apply all_lowered_term |].
      apply findall_from_chars; [exact I | apply lower_all_lowered]. }
  destruct (candidate_loop_spec (fun w => word_shaped w /\ lowercase_term w)
              limit tokens [] []) as [Hnd Hq];
    [intros w [] | constructor | constructor | exact Htok |].
  rewrite He in *. cbn [app] in *. repeat split; auto.
  apply Forall_forall. intros w Hw.
  rewrite Forall_forall in Hq, Hf. destruct (Hq w Hw). auto.
Qed.

(** ** The queries of the analyzer *)

Section AnalyzerQueries.

Variable W : World.

Lemma classify_word_trace word ranked tr :
  exists r, SentimentAnalyzer.classify_word W word ranked tr
            = (Ok r, tr ++ [EvClassify word]).
Proof.
  unfold SentimentAnalyzer.classify_word, try_except, bind,
    SentimentAnalyzer.classify, ask, any_exception, ret.
  destruct (text_classification W (List.length tr) word) as [[| top out] | e];
    eauto.
  destruct (SFltb _ _); eauto.
  destruct (String.eqb _ "positive"); eauto.
  destruct (String.eqb _ "negative"); eauto.
Qed.

Lemma classify_words_trace words ranked tr :
  exists r, SentimentAnalyzer.classify_words W words ranked tr
            = (Ok r, tr ++ map EvClassify words).
Proof.
  revert ranked tr. induction words as [| w words IH]; intros ranked tr; simpl.
  - exists ranked. rewrite app_nil_r. reflexivity.
  - unfold bind. destruct (classify_word_trace w ranked tr) as (r1 & ->).
    destruct (IH r1 (tr ++ [EvClassify w])) as (r & ->).
    exists r. rewrite <- app_assoc. reflexivity.
Qed.

Lemma fallback_trace text tr :
  exists r, SentimentAnalyzer._classify_words_with_sentiment_model W text tr
            = (Ok r, tr ++ map EvClassify
                               (SentimentAnalyzer._extract_candidate_words text 30)).
Proof.
  unfold SentimentAnalyzer._classify_words_with_sentiment_model, bind.
  destruct (classify_words_trace
              (SentimentAnalyzer._extract_candidate_words text 30) ([], []) tr)
    as (r & ->).
  unfold ret. eauto.
Qed.

(** X3: the analyzer never raises, and its queries to the inference
    provider are: none for an empty text; otherwise one classification of
    the text and one generation, followed, only when the per-word fallback
    runs, by one classification per candidate word, in order.  That is at
    most 32 queries for one article. *)
Theorem analyzer_queries (title description : string) (tr : Trace) :
  exists st evs,
    SentimentAnalyzer.analyze_text_sentiment_and_terms W title description tr
    = (Ok st, tr ++ evs)
    /\ ((analyzed_text title description = EmptyString /\ evs = [])
        \/ (analyzed_text title description <> EmptyString
            /\ (evs = [EvClassify (analyzed_text title description);
                       EvGenerate (SentimentAnalyzer.extraction_prompt
                                     (analyzed_text title description))]
                \/ evs = [EvClassify (analyzed_text title description);
                          EvGenerate (SentimentAnalyzer.extraction_prompt
                                        (analyzed_text title description))]
                         ++ map EvClassify
                              (SentimentAnalyzer._extract_candidate_words
                                 (analyzed_text title description) 30))))
    /\ (List.length evs <= 32)%nat.
Proof.
  unfold SentimentAnalyzer.analyze_text_sentiment_and_terms.
  fold (analyzed_text title description).
  set (text := analyzed_text title description).
  destruct text as [| c0 rest] eqn:Htext.
  { exists SentimentAnalyzer.default_terms, []. rewrite app_nil_r.
    split; [reflexivity |]. split; [left; auto | simpl; lia]. }
  rewrite <- Htext. replace (negb (Py.nonempty text)) with false
    by (rewrite Htext; reflexivity).
  assert (Hne : text <> EmptyString) by (rewrite Htext; discriminate).
  set (tr1 := tr ++ [EvClassify text]).
  set (tr2 := tr1 ++ [EvGenerate (SentimentAnalyzer.extraction_prompt text)]).
  assert (H1 : exists lsc,
    try_except
      (out <- SentimentAnalyzer.classify W text ;;
       match out with
       | top :: _ => ret (Py.lower (ce_label top), ce_score top, ce_score top)
       | [] => ret ("neutral"%string, SentimentAnalyzer.float_zero,
                    SentimentAnalyzer.float_zero)
       end)
      any_exception
      (ret ("neutral"%string, SentimentAnalyzer.float_zero,
            SentimentAnalyzer.float_zero)) tr = (Ok lsc, tr1)).
  { unfold try_except, bind, SentimentAnalyzer.classify, ask, any_exception, ret.
    destruct (text_classification W (List.length tr) text) as [[| top out] | e];
      eauto. }
  assert (H2 : exists words,
    try_except
      (gen <- SentimentAnalyzer.generate W (SentimentAnalyzer.extraction_prompt text) ;;
       data <- lift (SentimentAnalyzer._parse_json_block W gen) ;;
       ret (SentimentAnalyzer.terms_of_data data))
      any_exception (ret ([], [])) tr1 = (Ok words, tr2)).
  { unfold try_except, bind, SentimentAnalyzer.generate, ask, any_exception, ret,
      lift.
    destruct (text_generation W (List.length tr1) _) as [gen | e]; eauto.
    destruct (SentimentAnalyzer._parse_json_block W gen); eauto. }
  destruct H1 as ([[label score] confidence] & H1).
  destruct H2 as (words & H2).
  unfold bind at 1. rewrite H1. unfold bind at 1. rewrite H2.
  assert (Hcands : (List.length (SentimentAnalyzer._extract_candidate_words text 30)
                    <= 30)%nat).
  { apply candidate_words_at_most_30. }
  assert (Htr2 : tr2 = tr ++ [EvClassify text;
                              EvGenerate (SentimentAnalyzer.extraction_prompt text)]).
  { unfold tr2, tr1. rewrite <- app_assoc. reflexivity. }
  assert (Hkeep : words <> ([], []) ->
    exists st evs,
      (words0 <- ret words ;;
       ret (SentimentAnalyzer.mkTerms label score confidence (fst words0) (snd words0)))
        tr2 = (Ok st, tr ++ evs)
      /\ evs = [EvClassify text;
                EvGenerate (SentimentAnalyzer.extraction_prompt text)]).
  { intros _. eexists. eexists. unfold bind, ret. rewrite Htr2. split; reflexivity. }
  destruct words as [[| p ps] [| n ns]].
  - unfold bind at 1.
    destruct (fallback_trace text tr2) as (r & ->). unfold ret.
    eexists. eexists. split; [rewrite Htr2, <- app_assoc; reflexivity |].
    split; [right; split; [exact Hne | right; reflexivity] |].
    rewrite length_app, length_map. simpl. lia.
  - destruct Hkeep as (st & evs & He & ->); [discriminate |].
    exists st. eexists. split; [exact He |].
    split; [right; split; [exact Hne | left; reflexivity] | simpl; lia].
  - destruct Hkeep as (st & evs & He & ->); [discriminate |].
    exists st. eexists. split; [exact He |].
    split; [right; split; [exact Hne | left; reflexivity] | simpl; lia].
  - destruct Hkeep as (st & evs & He & ->); [discriminate |].
    exists st. eexists. split; [exact He |].
    split; [right; split; [exact Hne | left; reflexivity] | simpl; lia].
Qed.

End AnalyzerQueries.

(** ** The lists of the per-word fallback *)

Section FallbackLists.

Variable W : World.

Lemma classify_word_sound word ranked :
  spec (SentimentAnalyzer.classify_word W word ranked)
       (returns (fun r =>
          r = ranked
          \/ (exists c t, r = (fst ranked ++ [(c, word)], snd ranked)
                          /\ accepts (text_classification W t word) "positive")
          \/ (exists c t, r = (fst ranked, snd ranked ++ [(c, word)])
                          /\ accepts (text_classification W t word) "negative")))
       inference_event.
Proof.
  unfold SentimentAnalyzer.classify_word.
  apply spec_protect
    with (Q1 := fun r => match r with
                         | Ok r =>
                             r = ranked
                             \/ (exists c t, r = (fst ranked ++ [(c, word)], snd ranked)
                                   /\ accepts (text_classification W t word) "positive")
                             \/ (exists c t, r = (fst ranked, snd ranked ++ [(c, word)])
                                   /\ accepts (text_classification W t word) "negative")
                         | Raise _ => True
                         end); [| auto | auto].
  eapply spec_bind
    with (Q1 := fun r => exists t, r = text_classification W t word).
  - apply spec_ask; [exact I | intros t; exists t; reflexivity].
  - intros [| top out] (t & Ht); [apply spec_ret; auto |].
    destruct (SFltb _ _) eqn:Hconf; [apply spec_ret; auto |].
    destruct (String.eqb _ "positive") eqn:Hpos.
    + apply spec_ret. right. left. exists (ce_score top), t. split; [reflexivity |].
      exists top, out. apply String.eqb_eq in Hpos. auto.
    + destruct (String.eqb _ "negative") eqn:Hneg; apply spec_ret; [| auto].
      right. right. exists (ce_score top), t. split; [reflexivity |].
      exists top, out. apply String.eqb_eq in Hneg. auto.
  - intros e _. exact I.
Qed.

Lemma in_ranked_words (l : list (spec_float * string)) (w : string) :
  In w (ranked_words l) <-> exists item, In item l /\ snd item = w.
Proof.
  unfold ranked_words. rewrite in_map_iff. split; intros (x & H1 & H2); eauto.
Qed.

Lemma classify_words_sound words :
  forall done ranked,
    NoDup words ->
    (forall w, In w words -> ~ In w done) ->
    ranked_sound W done ranked ->
    spec (SentimentAnalyzer.classify_words W words ranked)
         (returns (ranked_sound W (done ++ words))) inference_event.
Proof.
  induction words as [| w words IH]; intros done ranked Hnd Hfresh Hinv; simpl.
  - apply spec_ret. exists ranked. rewrite app_nil_r. auto.
  - inversion Hnd as [| ? ? Hw Hnd']; subst.
    eapply spec_bind; [apply classify_word_sound | |].
    + intros r (r' & Hr & Hcase). inversion Hr; subst r'.
      assert (Hstep : ranked_sound W (done ++ [w]) r).
      { destruct Hinv as (Hp & Hn & Hd).
        assert (Hwp : ~ In w (ranked_words (fst ranked))).
        { intros H. apply in_ranked_words in H. destruct H as (item & Hi & <-).
          apply (Hfresh (snd item)); [left; reflexivity | apply Hp; exact Hi]. }
        assert (Hwn : ~ In w (ranked_words (snd ranked))).
        { intros H. apply in_ranked_words in H. destruct H as (item & Hi & <-).
          apply (Hfresh (snd item)); [left; reflexivity | apply Hn; exact Hi]. }
        destruct Hcase as [-> | [(c & t & -> & Hacc) | (c & t & -> & Hacc)]];
          unfold ranked_sound; cbn [fst snd].
        - split; [| split; [| exact Hd]].
          + intros item Hi. destruct (Hp item Hi) as [H1 H2].
            split; [apply in_or_app; left; exact H1 | exact H2].
          + intros item Hi. destruct (Hn item Hi) as [H1 H2].
            split; [apply in_or_app; left; exact H1 | exact H2].
        - split; [| split].
          + intros item Hi. apply in_app_or in Hi. destruct Hi as [Hi | [<- | []]].
            * destruct (Hp item Hi) as [H1 H2].
              split; [apply in_or_app; left; exact H1 | exact H2].
            * cbn [snd]. split; [apply in_or_app; right; left; reflexivity | eauto].
          + intros item Hi. destruct (Hn item Hi) as [H1 H2].
            split; [apply in_or_app; left; exact H1 | exact H2].
          + intros x Hx1 Hx2. rewrite ranked_words_snoc in Hx1.
            apply in_app_or in Hx1. destruct Hx1 as [Hx1 | [<- | []]].
            * exact (Hd x Hx1 Hx2).
            * exact (Hwn Hx2).
        - split; [| split].
          + intros item Hi. destruct (Hp item Hi) as [H1 H2].
            split; [apply in_or_app; left; exact H1 | exact H2].
          + intros item Hi. apply in_app_or in Hi. destruct Hi as [Hi | [<- | []]].
            * destruct (Hn item Hi) as [H1 H2].
              split; [apply in_or_app; left; exact H1 | exact H2].
            * cbn [snd]. split; [apply in_or_app; right; left; reflexivity | eauto].
          + intros x Hx1 Hx2. rewrite ranked_words_snoc in Hx2.
            apply in_app_or in Hx2. destruct Hx2 as [Hx2 | [<- | []]].
            * exact (Hd x Hx1 Hx2).
            * exact (Hwp Hx1). }
      eapply spec_weaken; [apply (IH (done ++ [w]) r Hnd') | | auto].
      * intros x Hx Hin. apply in_app_or in Hin. destruct Hin as [Hin | [<- | []]].
        -- apply (Hfresh x); [right; exact Hx | exact Hin].
        -- contradiction.
      * exact Hstep.
      * intros res (a & -> & Ha). exists a. split; [reflexivity |].
        rewrite <- app_assoc in Ha. exact Ha.
    + intros e (a & Ha & _). discriminate.
Qed.

Lemma top_words_in (ranked : list (spec_float * string)) (v : json) :
  In v (SentimentAnalyzer.top_words (SentimentAnalyzer.sort_ranked ranked)) ->
  exists item, In item ranked /\ v = JStr (snd item).
Proof.
  unfold SentimentAnalyzer.top_words. intros H. apply in_map_iff in H.
  destruct H as (item & <- & Hi). exists item. split; [| reflexivity].
  eapply Permutation_in; [apply sort_ranked_perm |].
  eapply subsequence_In; [apply subsequence_firstn | exact Hi].
Qed.

Lemma top_words_length (ranked : list (spec_float * string)) :
  (List.length (SentimentAnalyzer.top_words ranked) <= 8)%nat.
Proof.
  unfold SentimentAnalyzer.top_words. rewrite length_map. apply firstn_le_length.
Qed.

(** X4: the per-word fallback never raises and asks for one classification
    per candidate word, in order.  Each list it returns holds at most 8
    words; every word of the positive list is a candidate word that the
    provider classified positive with a confidence not below 0.6, every word
    of the negative list one that it classified negative so; and no word is
    in both lists. *)
Theorem fallback_lists_are_sound (text : string) (tr : Trace) :
  exists pos neg,
    SentimentAnalyzer._classify_words_with_sentiment_model W text tr
    = (Ok (pos, neg),
       tr ++ map EvClassify (SentimentAnalyzer._extract_candidate_words text 30))
    /\ (List.length pos <= 8)%nat /\ (List.length neg <= 8)%nat
    /\ (forall v, In v pos ->
          exists w t, v = JStr w
            /\ In w (SentimentAnalyzer._extract_candidate_words text 30)
            /\ accepts (text_classification W t w) "positive")
    /\ (forall v, In v neg ->
          exists w t, v = JStr w
            /\ In w (SentimentAnalyzer._extract_candidate_words text 30)
            /\ accepts (text_classification W t w) "negative")
    /\ (forall v, In v pos -> In v neg -> False).
Proof.
  set (cands := SentimentAnalyzer._extract_candidate_words text 30).
  assert (Hnd : NoDup cands) by apply candidates_spec.
  assert (Hinit : ranked_sound W [] ([], [])).
  { unfold ranked_sound; cbn [fst snd].
    split; [intros ? [] | split; [intros ? [] | intros ? []]]. }
  destruct (classify_words_sound cands [] ([], []) Hnd (fun w _ H => H) Hinit tr)
    as (res & evs & Hrun & (r & -> & Hp & Hn & Hd) & _).
  destruct (classify_words_trace W cands ([], []) tr) as (r' & Htrace).
  rewrite Htrace in Hrun. inversion Hrun as [[Hr Hevs]]. subst r'.
  unfold SentimentAnalyzer._classify_words_with_sentiment_model, bind, ret.
  fold cands. rewrite Htrace.
  eexists. eexists. split; [reflexivity |].
  split; [apply top_words_length |]. split; [apply top_words_length |].
  split; [| split].
  - intros v Hv. apply top_words_in in Hv. destruct Hv as (item & Hi & ->).
    destruct (Hp item Hi) as [Hin (t & Hacc)]. exists (snd item), t. auto.
  - intros v Hv. apply top_words_in in Hv. destruct Hv as (item & Hi & ->).
    destruct (Hn item Hi) as [Hin (t & Hacc)]. exists (snd item), t. auto.
  - intros v Hv1 Hv2. apply top_words_in in Hv1, Hv2.
    destruct Hv1 as (i1 & Hi1 & ->). destruct Hv2 as (i2 & Hi2 & He).
    inversion He as [He']. apply (Hd (snd i1)).
    + apply in_ranked_words. eauto.
    + apply in_ranked_words. exists i2. auto.
Qed.

End FallbackLists.

(** ** The JSON block of a generated text *)

Lemma from_first_brace_skips (pre rest : string) :
  lacks 123 pre ->
  SentimentAnalyzer.from_first_brace (pre ++ String "{" rest) = Some rest.
Proof.
  induction pre as [| c pre IH]; intros H; simpl.
  - reflexivity.
  - destruct H as [Hc Hpre]. apply Z.eqb_neq in Hc. rewrite Hc. auto.
Qed.

Lemma upto_last_brace_none (post : string) :
  lacks 125 post -> SentimentAnalyzer.upto_last_brace post = None.
Proof.
  induction post as [| c post IH]; intros H; simpl.
  - reflexivity.
  - destruct H as [Hc Hpost]. rewrite (IH Hpost). apply Z.eqb_neq in Hc.
    rewrite Hc. reflexivity.
Qed.

Lemma upto_last_brace_stops (mid post : string) :
  lacks 125 post ->
  SentimentAnalyzer.upto_last_brace (mid ++ String "}" post)
  = Some (mid ++ "}")%string.
Proof.
  intros H. induction mid as [| c mid IH]; simpl.
  - rewrite (upto_last_brace_none post H). reflexivity.
  - rewrite IH. reflexivity.
Qed.

Lemma from_first_brace_none (s : string) :
  lacks 123 s -> SentimentAnalyzer.from_first_brace s = None.
Proof.
  induction s as [| c s IH]; intros H; simpl.
  - reflexivity.
  - destruct H as [Hc Hs]. apply Z.eqb_neq in Hc. rewrite Hc. auto.
Qed.

(** X5: the generated text is searched for the block that runs from its
    first opening brace to its last closing brace: text before the first
    opening brace and after the last closing brace does not change what is
    decoded.  A text with no opening brace gives the empty object without
    the decoder being asked. *)
Theorem parse_json_block_ignores_prose (W : World) (pre mid post : string) :
  lacks 123 pre ->
  lacks 125 post ->
  SentimentAnalyzer.search_braces (pre ++ String "{" (mid ++ String "}" post))
  = Some (String "{" (mid ++ "}"))
  /\ SentimentAnalyzer._parse_json_block W
       (pre ++ String "{" (mid ++ String "}" post))
     = SentimentAnalyzer._parse_json_block W (String "{" (mid ++ "}"))
  /\ SentimentAnalyzer._parse_json_block W pre = Ok (JObj []).
Proof.
  intros Hpre Hpost.
  assert (H1 : SentimentAnalyzer.search_braces
                 (pre ++ String "{" (mid ++ String "}" post))
               = Some (String "{" (mid ++ "}"))).
  { unfold SentimentAnalyzer.search_braces.
    rewrite (from_first_brace_skips pre _ Hpre).
    rewrite (upto_last_brace_stops mid post Hpost). reflexivity. }
  assert (H2 : SentimentAnalyzer.search_braces (String "{" (mid ++ "}"))
               = Some (String "{" (mid ++ "}"))).
  { unfold SentimentAnalyzer.search_braces.
    pose proof (from_first_brace_skips "" (mid ++ "}") I) as Hf.
    cbn [String.append] in Hf. rewrite Hf.
    rewrite (upto_last_brace_stops mid "" I). reflexivity. }
  split; [exact H1 |]. split.
  - unfold SentimentAnalyzer._parse_json_block. rewrite H1, H2. reflexivity.
  - unfold SentimentAnalyzer._parse_json_block, SentimentAnalyzer.search_braces.
    rewrite (from_first_brace_none pre Hpre). reflexivity.
Qed.

Lemma parse_json_block_ignores_prose_witness :
  SentimentAnalyzer._parse_json_block Fixtures.quiet_world
    ("Here you are: " ++ String "{" ("}" ++ String "}" " Done."))
  = SentimentAnalyzer._parse_json_block Fixtures.quiet_world
      (String "{" ("}" ++ "}")).
Proof.
  refine (proj1 (proj2 (parse_json_block_ignores_prose Fixtures.quiet_world
                          "Here you are: " "}" " Done." _ _)));
    unfold lacks; cbv; intuition discriminate.
Defined.

(** ** Truncation for the log *)

Lemma take_prefix (n : nat) (s : string) :
  exists rest, s = (Py.take n s ++ rest)%string.
Proof.
  unfold Py.take. revert s. induction n as [| n IH]; intros s.
  - exists s. destruct s; reflexivity.
  - destruct s as [| c s]; [exists EmptyString; reflexivity |].
    destruct (IH s) as (rest & Hrest). exists rest. simpl. f_equal. exact Hrest.
Qed.

Lemma take_length (n : nat) (s : string) :
  (n <= String.length s)%nat -> String.length (Py.take n s) = n.
Proof.
  unfold Py.take. revert s. induction n as [| n IH]; intros s H.
  - destruct s; reflexivity.
  - destruct s as [| c s]; simpl in *; [lia |]. rewrite IH; lia.
Qed.

Lemma length_append (a b : string) :
  String.length (a ++ b) = (String.length a + String.length b)%nat.
Proof. induction a as [| c a IH]; simpl; [reflexivity | rewrite IH; reflexivity]. Qed.

(** X6: [_truncate] leaves a text of at most [length] characters alone
    and replaces a longer one by its first [length] characters followed by
    three dots, so the result never has more than [length + 3] characters
    (a text of [length + 1] to [length + 2] characters gets longer). *)
Theorem truncate_bounds (s : string) (length : nat) :
  ((String.length s <= length)%nat -> ArticleService._truncate s length = s)
  /\ ((length < String.length s)%nat ->
      exists rest,
        s = (Py.take length s ++ rest)%string
        /\ ArticleService._truncate s length = (Py.take length s ++ "...")%string
        /\ String.length (ArticleService._truncate s length) = (length + 3)%nat)
  /\ (String.length (ArticleService._truncate s length) <= length + 3)%nat.
Proof.
  unfold ArticleService._truncate.
  destruct (Nat.ltb_spec length (String.length s)) as [Hlt | Hge].
  - assert (Hlen : String.length (Py.take length s ++ "...") = (length + 3)%nat).
    { rewrite length_append, take_length by lia. reflexivity. }
    split; [lia |]. split; [| lia].
    intros _. destruct (take_prefix length s) as (rest & Hrest).
    exists rest. auto.
  - split; [reflexivity |]. split; lia.
Qed.

(** ** The service's URLs *)

Lemma code_47 (c : ascii) : Py.code c = 47 -> c = "/"%char.
Proof.
  unfold Py.code. intros H.
  rewrite <- (ascii_N_embedding c).
  replace (N_of_ascii c) with 47%N by lia. reflexivity.
Qed.

Lemma rstrip_slash_app_slash (s : string) :
  ArticleService.rstrip_slash (s ++ "/") = ArticleService.rstrip_slash s.
Proof.
  induction s as [| c s IH]; [reflexivity |].
  cbn [String.append ArticleService.rstrip_slash]. rewrite IH. reflexivity.
Qed.

Lemma rstrip_slash_slashes (s : string) (k : nat) :
  ArticleService.rstrip_slash (s ++ slashes k) = ArticleService.rstrip_slash s.
Proof.
  revert s. induction k as [| k IH]; intros s; cbn [slashes].
  - f_equal. induction s as [| c s IHs]; simpl; [reflexivity | f_equal; exact IHs].
  - replace (s ++ String "/" (slashes k))%string
      with ((s ++ "/") ++ slashes k)%string.
    + rewrite IH. apply rstrip_slash_app_slash.
    + induction s as [| c s IHs]; simpl; [reflexivity | f_equal; exact IHs].
Qed.

Lemma rstrip_slash_split (b : string) :
  exists k, b = (ArticleService.rstrip_slash b ++ slashes k)%string.
Proof.
  induction b as [| c b (k & Hk)]; [exists O; reflexivity |].
  cbn [ArticleService.rstrip_slash].
  destruct (ArticleService.rstrip_slash b) as [| d r] eqn:Hr.
  - simpl in Hk. destruct (Z.eqb_spec (Py.code c) 47) as [Hc | Hc].
    + exists (S k). apply code_47 in Hc. subst. reflexivity.
    + exists k. subst. reflexivity.
  - exists k. simpl. f_equal. exact Hk.
Qed.

Lemma rstrip_slash_end (b p : string) :
  ArticleService.rstrip_slash b = (p ++ "/")%string -> False.
Proof.
  revert p. induction b as [| c b IH]; intros p.
  - destruct p; discriminate.
  - cbn [ArticleService.rstrip_slash].
    destruct (ArticleService.rstrip_slash b) as [| d r] eqn:Hr.
    + destruct (Z.eqb_spec (Py.code c) 47) as [Hc | Hc].
      * destruct p; discriminate.
      * destruct p as [| c' p]; simpl; intros H; inversion H; subst.
        -- apply Hc. reflexivity.
        -- destruct p; discriminate.
    + destruct p as [| c' p]; simpl; intros H; [discriminate H |].
      injection H as _ H2. exact (IH p H2).
Qed.

(** X7: the service keeps the base URL without its trailing slashes: the
    stored base does not end with a slash, the given base is the stored one
    followed by slashes only, the articles URL is the stored base followed
    by the endpoint, and bases that differ only in trailing slashes give the
    same service. *)
Theorem service_base_url_normalised (base endpoint : string) :
  let self := ArticleService.Service_init base endpoint in
  ~ ends_with_slash (ArticleService.base_url self)
  /\ (exists k, base = (ArticleService.base_url self ++ slashes k)%string)
  /\ ArticleService.articles_url self
     = (ArticleService.base_url self ++ endpoint)%string
  /\ (forall k, ArticleService.Service_init (base ++ slashes k) endpoint = self).
Proof.
  unfold ArticleService.Service_init; cbn [ArticleService.base_url
    ArticleService.articles_url].
  split; [intros (p & Hp); exact (rstrip_slash_end base p Hp) |].
  split; [apply rstrip_slash_split |].
  split; [reflexivity |].
  intros k. rewrite rstrip_slash_slashes. reflexivity.
Qed.

(** ** The single-article methods of the service *)

Section SingleArticle.

Variable W : World.
Variable requests_post_one : nat -> string -> WireArticle -> Res Response.
Variable requests_get : nat -> string -> Res Response.
Variable self : ArticleService.Service.

(** X8: [create_article] returns [True] exactly when the article was
    serialized and the backend answered the post of that payload with 200 or
    201; any other answer gives [False].  A transport failure of the post is
    not raised: the article is serialized a second time (for the log), and
    the call returns [False] unless that second serialization raises. *)
Theorem create_article_result (article : Article) (tr : Trace) :
  let url := ArticleService.articles_url self in
  let run := ArticleServiceSingle.create_article W requests_post_one self article in
  (forall tr',
     run tr = (Ok true, tr') <->
     exists data tr1 resp,
       ArticleCode.to_dict W article tr = (Ok data, tr1)
       /\ requests_post_one (List.length tr1) url data = Ok resp
       /\ (status_code resp = 200 \/ status_code resp = 201)
       /\ tr' = tr1 ++ [EvPost url [data]])
  /\ (forall data tr1 resp,
        ArticleCode.to_dict W article tr = (Ok data, tr1) ->
        requests_post_one (List.length tr1) url data = Ok resp ->
        status_code resp <> 200 -> status_code resp <> 201 ->
        run tr = (Ok false, tr1 ++ [EvPost url [data]]))
  /\ (forall data tr1,
        ArticleCode.to_dict W article tr = (Ok data, tr1) ->
        requests_post_one (List.length tr1) url data = Raise RequestException ->
        run tr
        = match ArticleCode.to_dict W article (tr1 ++ [EvPost url [data]]) with
          | (Ok _, tr2) => (Ok false, tr2)
          | (Raise e, tr2) => (Raise e, tr2)
          end).
Proof.
  intros url run. subst run.
  unfold ArticleServiceSingle.create_article, try_except, bind, ask. fold url.
  destruct (ArticleCode.to_dict W article tr) as [[data | e] tr1] eqn:Hd.
  - destruct (requests_post_one (List.length tr1) url data) as [resp | e] eqn:Hp.
    + destruct (Z.eqb_spec (status_code resp) 200) as [H200 | H200];
        destruct (Z.eqb_spec (status_code resp) 201) as [H201 | H201];
        cbn [orb ret].
      * split; [| split].
        -- intros tr'. split.
           ++ intros H. inversion H. exists data, tr1, resp. auto.
           ++ intros (d & t & r & H1 & H2 & H3 & ->). inversion H1; subst.
              reflexivity.
        -- intros d t r H1 H2 H3 H4. inversion H1; subst.
           rewrite Hp in H2. inversion H2; subst. contradiction.
        -- intros d t H1 H2. inversion H1; subst. rewrite Hp in H2. discriminate.
      * split; [| split].
        -- intros tr'. split.
           ++ intros H. inversion H. exists data, tr1, resp. auto.
           ++ intros (d & t & r & H1 & H2 & H3 & ->). inversion H1; subst.
              reflexivity.
        -- intros d t r H1 H2 H3 H4. inversion H1; subst.
           rewrite Hp in H2. inversion H2; subst. contradiction.
        -- intros d t H1 H2. inversion H1; subst. rewrite Hp in H2. discriminate.
      * split; [| split].
        -- intros tr'. split.
           ++ intros H. inversion H. exists data, tr1, resp. auto.
           ++ intros (d & t & r & H1 & H2 & H3 & ->). inversion H1; subst.
              reflexivity.
        -- intros d t r H1 H2 H3 H4. inversion H1; subst.
           rewrite Hp in H2. inversion H2; subst. contradiction.
        -- intros d t H1 H2. inversion H1; subst. rewrite Hp in H2. discriminate.
      * assert (Hf : (if status_code resp =? 409 then @ret bool false else ret false)
                     = ret false) by (destruct (status_code resp =? 409); reflexivity).
        rewrite Hf. cbn [ret]. split; [| split].
        -- intros tr'. split.
           ++ intros H. inversion H.
           ++ intros (d & t & r & H1 & H2 & H3 & ->). inversion H1; subst.
              rewrite Hp in H2. inversion H2; subst. destruct H3; contradiction.
        -- intros d t r H1 H2 H3 H4. inversion H1; subst. reflexivity.
        -- intros d t H1 H2. inversion H1; subst. rewrite Hp in H2. discriminate.
    + split; [| split].
      * intros tr'. split.
        -- destruct e; cbn [is_request_exception]; try discriminate.
           destruct (ArticleCode.to_dict W article (tr1 ++ [EvPost url [data]]))
             as [[d2 | e2] tr2]; cbn [ret]; discriminate.
        -- intros (d & t & r & H1 & H2 & H3 & ->). inversion H1; subst.
           rewrite Hp in H2. discriminate.
      * intros d t r H1 H2. inversion H1; subst. rewrite Hp in H2. discriminate.
      * intros d t H1 H2. inversion H1; subst. rewrite Hp in H2.
        inversion H2; subst. cbn [is_request_exception].
        destruct (ArticleCode.to_dict W article (_ ++ _))
          as [[d2 | e2] tr2]; reflexivity.
  - split; [| split].
    + intros tr'. split.
      * destruct e; cbn [is_request_exception]; try discriminate.
        destruct (ArticleCode.to_dict W article tr1) as [[d2 | e2] tr2];
          cbn [ret]; discriminate.
      * intros (d & t & r & H1 & _). discriminate.
    + intros d t r H1. discriminate.
    + intros d t H1. discriminate.
Qed.

(** X9: [get_articles] makes exactly one request, to the articles URL.
    An answer with status 200 whose body decodes gives the decoded body; any
    other status, a body the decoder rejects with a [ValueError], and a
    transport exception (of the request, or of the decoder) give [None]; any
    other exception of the request or of the decoder leaves the call.  So
    the call never raises a transport exception, and a result other than
    [None] is the decoded body of an answer with status 200. *)
Theorem get_articles_result (tr : Trace) :
  let url := ArticleService.articles_url self in
  exists r,
    ArticleServiceSingle.get_articles W requests_get self tr
    = (r, tr ++ [EvHttpGet url])
    /\ r <> Raise RequestException
    /\ (forall v, r = Ok v -> v <> JNull ->
          exists resp, requests_get (List.length tr) url = Ok resp
                       /\ status_code resp = 200
                       /\ json_loads W (text resp) = Ok v)
    /\ (forall resp v,
          requests_get (List.length tr) url = Ok resp ->
          status_code resp = 200 ->
          json_loads W (text resp) = Ok v -> r = Ok v)
    /\ (forall resp,
          requests_get (List.length tr) url = Ok resp ->
          status_code resp <> 200 -> r = Ok JNull)
    /\ (forall resp e,
          requests_get (List.length tr) url = Ok resp ->
          status_code resp = 200 ->
          json_loads W (text resp) = Raise e ->
          r = if is_value_error e || is_request_exception e
              then Ok JNull else Raise e)
    /\ (forall e,
          requests_get (List.length tr) url = Raise e ->
          r = if is_request_exception e then Ok JNull else Raise e).
Proof.
  intros url.
  unfold ArticleServiceSingle.get_articles.
  unfold try_except at 1. unfold bind at 1. unfold ask at 1. fold url.
  destruct (requests_get (List.length tr) url) as [resp | e] eqn:Hg.
  - destruct (Z.eqb_spec (status_code resp) 200) as [H200 | H200].
    + unfold try_except, lift.
      destruct (json_loads W (text resp)) as [v | e] eqn:Hj.
      * exists (Ok v). split; [reflexivity |]. split; [discriminate |].
        split; [| split; [| split; [| split]]].
        -- intros v' Hv _. inversion Hv; subst. exists resp. auto.
        -- intros r v' Hr _ Hv. inversion Hr; subst. congruence.
        -- intros r Hr Hs. inversion Hr; subst. contradiction.
        -- intros r e Hr _ He. inversion Hr; subst. congruence.
        -- intros e He. discriminate.
      * exists (if is_value_error e || is_request_exception e
                then Ok JNull else Raise e).
        split; [destruct e; reflexivity |].
        split; [destruct e; discriminate |].
        split; [| split; [| split; [| split]]].
        -- intros v' Hv Hn. destruct e; inversion Hv; subst; contradiction.
        -- intros r v' Hr _ Hv. inversion Hr; subst. congruence.
        -- intros r Hr Hs. inversion Hr; subst. contradiction.
        -- intros r e' Hr _ He. inversion Hr; subst.
           rewrite Hj in He. inversion He; subst. reflexivity.
        -- intros e' He. discriminate.
    + cbn [ret]. exists (Ok JNull). split; [reflexivity |]. split; [discriminate |].
      split; [| split; [| split; [| split]]].
      * intros v' Hv Hn. inversion Hv; subst. contradiction.
      * intros r v' Hr Hs. inversion Hr; subst. contradiction.
      * reflexivity.
      * intros r e Hr Hs. inversion Hr; subst. contradiction.
      * intros e He. discriminate.
  - exists (if is_request_exception e then Ok JNull else Raise e).
    split; [destruct e; reflexivity |].
    split; [destruct e; discriminate |].
    split; [| split; [| split; [| split]]].
    + intros v' Hv Hn. destruct e; inversion Hv; subst; contradiction.
    + intros r v' Hr. discriminate.
    + intros r Hr. discriminate.
    + intros r e' Hr. discriminate.
    + intros e' He. inversion He; subst. reflexivity.
Qed.

End SingleArticle.

(** ** The articles of the feed scrapers *)

Lemma rstrip_idempotent (s : string) : Py.rstrip (Py.rstrip s) = Py.rstrip s.
Proof.
  induction s as [| c s IH]; [reflexivity |].
  cbn [Py.rstrip]. destruct (Py.rstrip s) as [| d r] eqn:Hr.
  - destruct (Py.isspace c) eqn:Hc; [reflexivity |].
    cbn [Py.rstrip]. rewrite Hc. reflexivity.
  - cbn [Py.rstrip] in *. rewrite IH. reflexivity.
Qed.

Lemma strip_idempotent (s : string) : Py.strip (Py.strip s) = Py.strip s.
Proof.
  unfold Py.strip.
  destruct (lstrip_head s) as [He | (c & rest & He & Hc)].
  - rewrite He. reflexivity.
  - rewrite He. destruct (rstrip_head c rest Hc) as (r & Hr).
    rewrite Hr. cbn [Py.lstrip]. rewrite Hc. rewrite <- Hr.
    apply rstrip_idempotent.
Qed.

Lemma nonempty_true (s : string) : Py.nonempty s = true <-> s <> EmptyString.
Proof. destruct s; simpl; split; congruence. Qed.

Lemma first_match_in (rules : list (string * string)) (url default : string) :
  In (Scrapers.first_match rules url default) (default :: map snd rules).
Proof.
  induction rules as [| [p c] rules IH]; simpl; [left; reflexivity |].
  destruct (Py.contains p url); [right; left; reflexivity |].
  destruct IH as [IH | IH]; [left; exact IH | right; right; exact IH].
Qed.

Lemma contains_empty_hay (needle : string) :
  needle <> EmptyString -> Py.contains needle EmptyString = false.
Proof. destruct needle; simpl; congruence. Qed.

Lemma resolve_link_nonempty (links : list (option string)) (url : string) :
  url <> EmptyString -> Scrapers.resolve_link links url <> EmptyString.
Proof.
  intros Hu. induction links as [| [u |] links IH]; simpl; auto.
  destruct (Py.contains "1news.co.nz" u) eqn:Hc; [| exact IH].
  intros ->. rewrite contains_empty_hay in Hc; discriminate.
Qed.

Section FeedArticles.

Variable W : World.

Lemma Article_init_returns (E : Event -> Prop) t d u s c pd :
  E EvNow ->
  spec (ArticleCode.Article_init W t d u s c pd)
       (returns (fun a =>
          title a = t /\ description a = d /\ url a = u /\ source a = s
          /\ category a = c /\ content a = EmptyString
          /\ positive_words a = [] /\ negative_words a = []
          /\ (forall p, pd = Some p -> published_date a = p)))
       E.
Proof.
  intros HE. unfold ArticleCode.Article_init.
  eapply spec_bind
    with (Q1 := returns (fun p => forall p', pd = Some p' -> p = p')).
  - destruct pd as [p |].
    + apply spec_ret. exists p. split; [reflexivity |]. congruence.
    + eapply spec_bind with (Q1 := returns (fun _ => True)).
      * unfold ArticleCode.now_utc. apply spec_ask; [exact HE |].
        intros t0. eexists. split; [reflexivity | exact I].
      * intros dt _. apply spec_ret. eexists. split; [reflexivity |]. discriminate.
      * intros e (a & Ha & _). discriminate.
  - intros p (p' & Hp & Hpd). inversion Hp; subst p'.
    apply spec_ret. eexists. split; [reflexivity |]. cbn. repeat split; auto.
  - intros e (a & Ha & _). discriminate.
Qed.

Lemma for_each_Forall {A} (P : Article -> Prop)
  (body : A -> list Article -> M (list Article)) (l : list A) :
  (forall x acc, Forall P acc ->
     spec (body x acc) (returns (Forall P)) any_event) ->
  forall acc, Forall P acc ->
    spec (Scrapers.for_each body l acc) (returns (Forall P)) any_event.
Proof.
  intros Hbody. induction l as [| x l IH]; intros acc Hacc; simpl.
  - apply spec_ret. exists acc. auto.
  - eapply spec_bind; [apply (Hbody x acc Hacc) | |].
    + intros acc' (a & Ha & HP). inversion Ha; subst a. apply IH. exact HP.
    + intros e (a & Ha & _). discriminate.
Qed.

Lemma feed_scrape_Forall (P : Article -> Prop) (self : Scrapers.Config)
  (body : FeedEntry -> list Article -> M (list Article)) :
  (forall entry acc, Forall P acc ->
     spec (body entry acc) (returns (Forall P)) any_event) ->
  spec (try_except
          (entries <- Scrapers.feed_entries W (Scrapers.base_url self) ;;
           match entries with
           | [] => ret []
           | _ => Scrapers.for_each body (firstn 20 entries) []
           end)
          any_exception (ret []))
       (returns (Forall P)) any_event.
Proof.
  intros Hbody.
  eapply spec_protect
    with (Q1 := fun r => match r with
                         | Ok r => Forall P r
                         | Raise _ => True
                         end); [| auto | constructor].
  eapply spec_bind with (Q1 := fun _ => True);
    [apply emits_ask; exact I | | intros; exact I].
  intros entries _. destruct entries as [| e0 entries]; [apply spec_ret; constructor |].
  eapply spec_weaken; [apply (for_each_Forall P body _ Hbody); constructor | | auto].
  intros r (r' & -> & Hr). exact Hr.
Qed.

(** The last step of the body of a feed loop. *)
Lemma append_scraped (self : Scrapers.Config) (cats : list string)
  (articles : list Article) (t d u c : string) (pd : option PublishedDate) :
  Forall (scraped_article self cats) articles ->
  Py.nonempty (Py.strip t) = true ->
  u <> EmptyString ->
  In c (Scrapers.category self :: cats) ->
  spec (article <- ArticleCode.Article_init W (Py.strip t) d u
                     (Scrapers.source self) c pd ;;
        ret (articles ++ [article]))
       (fun r => match r with
                 | Ok r => Forall (scraped_article self cats) r
                 | Raise _ => True
                 end) any_event.
Proof.
  intros Hacc Ht Hu Hc.
  eapply spec_bind; [apply Article_init_returns; exact I | | intros; exact I].
  intros a (a' & Ha & H1 & H2 & H3 & H4 & H5 & H6 & H7 & H8 & _).
  inversion Ha; subst a'. apply spec_ret.
  apply Forall_app. split; [exact Hacc |]. constructor; [| constructor].
  unfold scraped_article. rewrite H1, H3, H4, H5.
  split; [apply nonempty_true; exact Ht |].
  split; [apply strip_idempotent |].
  split; [exact Hu |]. split; [reflexivity |]. split; [exact Hc |].
  split; [exact H6 |]. split; [exact H7 | exact H8].
Qed.

Lemma protect_Forall (P : Article -> Prop) (articles : list Article)
  (m : M (list Article)) :
  spec m (fun r => match r with
                   | Ok r => Forall P r
                   | Raise _ => True
                   end) any_event ->
  Forall P articles ->
  spec (try_except m any_exception (ret articles)) (returns (Forall P)) any_event.
Proof.
  intros H Hacc. eapply spec_protect; [exact H | auto | exact Hacc].
Qed.

Lemma orb_negb_false (a b : bool) : negb a || negb b = false -> a = true /\ b = true.
Proof. destruct a, b; simpl; auto; discriminate. Qed.

Lemma stuff_entry_scraped self entry articles :
  Forall (scraped_article self
            ["NZ News"; "World"; "Sport"; "Business"; "Entertainment"]%string)
         articles ->
  spec (Scrapers.stuff_entry W self entry articles)
       (returns (Forall (scraped_article self
                  ["NZ News"; "World"; "Sport"; "Business"; "Entertainment"]%string)))
       any_event.
Proof.
  intros Hacc. unfold Scrapers.stuff_entry. cbv zeta.
  apply protect_Forall; [| exact Hacc].
  destruct (negb _ || negb _) eqn:Hv; [apply spec_ret; exact Hacc |].
  apply orb_negb_false in Hv. destruct Hv as [Ht Hu].
  apply append_scraped; [exact Hacc | exact Ht | apply nonempty_true; exact Hu |].
  match goal with
  | |- In (Scrapers.first_match ?r ?u ?d) _ => exact (first_match_in r u d)
  end.
Qed.

Lemma rnz_entry_scraped self entry articles :
  Forall (scraped_article self
            ["National"; "World"; "Politics"; "Business"; "Sport"]%string)
         articles ->
  spec (Scrapers.rnz_entry W self entry articles)
       (returns (Forall (scraped_article self
                  ["National"; "World"; "Politics"; "Business"; "Sport"]%string)))
       any_event.
Proof.
  intros Hacc. unfold Scrapers.rnz_entry. cbv zeta.
  apply protect_Forall; [| exact Hacc].
  destruct (negb _ || negb _) eqn:Hv; [apply spec_ret; exact Hacc |].
  apply orb_negb_false in Hv. destruct Hv as [Ht Hu].
  eapply spec_bind with (Q1 := fun _ => True);
    [apply plain_description_emits | | intros; exact I].
  intros d _.
  apply append_scraped; [exact Hacc | exact Ht | apply nonempty_true; exact Hu |].
  match goal with
  | |- In (Scrapers.first_match ?r ?u ?d) _ => exact (first_match_in r u d)
  end.
Qed.

Lemma onenews_entry_scraped self entry articles :
  Forall (scraped_article self
            ["New Zealand"; "World"; "Politics"; "Sport"]%string)
         articles ->
  spec (Scrapers.onenews_entry W self entry articles)
       (returns (Forall (scraped_article self
                  ["New Zealand"; "World"; "Politics"; "Sport"]%string)))
       any_event.
Proof.
  intros Hacc. unfold Scrapers.onenews_entry. cbv zeta.
  apply protect_Forall; [| exact Hacc].
  destruct (negb _ || negb _) eqn:Hv; [apply spec_ret; exact Hacc |].
  apply orb_negb_false in Hv. destruct Hv as [Ht Hu].
  apply nonempty_true in Hu.
  eapply spec_bind with (Q1 := fun _ => True);
    [apply plain_description_emits | | intros; exact I].
  intros d _.
  apply append_scraped; [exact Hacc | exact Ht | |].
  - destruct (fe_links entry) as [links |]; [| exact Hu].
    destruct (Py.contains "news.google.com" _); [| exact Hu].
    apply resolve_link_nonempty. exact Hu.
  - match goal with
  | |- In (Scrapers.first_match ?r ?u ?d) _ => exact (first_match_in r u d)
  end.
Qed.

(** X10: whatever the feeds hold, each of the three feed scrapers returns a
    list (it never raises) in which every article has a title that is not
    empty and carries no surrounding whitespace, a URL that is not empty,
    the scraper's own source, the scraper's default category or one of the
    categories it derives from the URL, and no content or word lists yet. *)
Theorem feed_scrapers_build_wellformed_articles :
  let stuff := Scrapers.StuffScraper W in
  let rnz := Scrapers.RNZScraper W in
  let onenews := Scrapers.OneNewsScraper W in
  spec (Scrapers.scrape stuff)
       (returns (Forall (scraped_article (Scrapers.config stuff)
          ["NZ News"; "World"; "Sport"; "Business"; "Entertainment"]%string)))
       any_event
  /\ spec (Scrapers.scrape rnz)
       (returns (Forall (scraped_article (Scrapers.config rnz)
          ["National"; "World"; "Politics"; "Business"; "Sport"]%string)))
       any_event
  /\ spec (Scrapers.scrape onenews)
       (returns (Forall (scraped_article (Scrapers.config onenews)
          ["New Zealand"; "World"; "Politics"; "Sport"]%string)))
       any_event.
Proof.
  cbv zeta. split; [| split].
  - apply (feed_scrape_Forall _ _ (Scrapers.stuff_entry W _)).
    intros entry acc. apply stuff_entry_scraped.
  - apply (feed_scrape_Forall _ _ (Scrapers.rnz_entry W _)).
    intros entry acc. apply rnz_entry_scraped.
  - apply (feed_scrape_Forall _ _ (Scrapers.onenews_entry W _)).
    intros entry acc. apply onenews_entry_scraped.
Qed.

End FeedArticles.

(** ** What the Stuff scraper keeps of a feed *)

Section StuffEntries.

Variable W : World.
Variable self : Scrapers.Config.

Lemma stuff_entry_built entry articles :
  spec (Scrapers.stuff_entry W self entry articles)
       (returns (fun r =>
          if usable entry
          then exists a, r = articles ++ [a] /\ built_from self entry a
          else r = articles))
       clock_event.
Proof.
  unfold Scrapers.stuff_entry. cbv zeta.
  fold (entry_title entry). fold (entry_url entry). unfold usable.
  destruct (Py.nonempty (entry_title entry)) eqn:Ht;
    [| apply spec_ret; exists articles; split; reflexivity].
  destruct (Py.nonempty (entry_url entry)) eqn:Hu;
    [| apply spec_ret; exists articles; split; reflexivity].
  cbn [negb orb andb].
  unfold try_except. intros tr.
  destruct (Article_init_returns W clock_event
              (entry_title entry)
              (Py.strip (Scrapers.get_str (fe_summary entry) (entry_title entry)))
              (entry_url entry) (Scrapers.source self)
              (Scrapers.first_match
                 [("/nz-news/", "NZ News"); ("/world/", "World");
                  ("/sport/", "Sport"); ("/business/", "Business");
                  ("/entertainment/", "Entertainment")]%string
                 (entry_url entry) (Scrapers.category self))
              (Scrapers.as_published (Scrapers.published_iso entry))
              eq_refl tr)
    as (r & evs & Hrun & (a & -> & H1 & H2 & H3 & H4 & H5 & H6 & H7 & H8 & H9) & Hev).
  unfold bind. rewrite Hrun. cbn [ret].
  exists (Ok (articles ++ [a])), evs. split; [reflexivity |]. split; [| exact Hev].
  exists (articles ++ [a]). split; [reflexivity |].
  exists a. split; [reflexivity |].
  unfold built_from.
  split; [exact H1 |]. split; [exact H3 |]. split; [exact H2 |].
  split; [exact H4 |].
  intros iso Hiso. apply H9. rewrite Hiso. reflexivity.
Qed.

Lemma stuff_loop_built entries :
  forall articles,
    spec (Scrapers.for_each (Scrapers.stuff_entry W self) entries articles)
         (returns (fun r =>
            exists new, r = articles ++ new
                        /\ Forall2 (built_from self) (filter usable entries) new))
         clock_event.
Proof.
  induction entries as [| entry entries IH]; intros articles; simpl.
  - apply spec_ret. exists articles. split; [reflexivity |].
    exists []. rewrite app_nil_r. split; [reflexivity | constructor].
  - eapply spec_bind; [apply stuff_entry_built | |].
    + intros r (r' & Hr & Hcase). inversion Hr; subst r'.
      eapply spec_weaken; [apply (IH r) | | auto].
      intros res (out & -> & new & -> & Hnew). exists (r ++ new).
      split; [reflexivity |].
      destruct (usable entry).
      * destruct Hcase as (a & -> & Ha). exists (a :: new).
        rewrite <- app_assoc. split; [reflexivity |]. constructor; assumption.
      * subst r. exists new. auto.
    + intros e (a & Ha & _). discriminate.
Qed.

(** X11: when the feed is read, the Stuff scraper returns exactly one
    article for each of the first 20 entries that has a title and a link
    (blank ones do not count), in the order of the feed; the article has the
    entry's stripped title, link and summary (the title when there is no
    summary), the scraper's source, and the entry's date when it forms a
    valid date.  After the feed query only the clock is asked. *)
Theorem stuff_scrape_keeps_usable_entries (tr : Trace) (entries : list FeedEntry) :
  feedparser_parse W (List.length tr) (Scrapers.base_url self) = Ok entries ->
  exists articles evs,
    Scrapers.stuff_scrape W self tr
    = (Ok articles, tr ++ EvFeed (Scrapers.base_url self) :: evs)
    /\ Forall2 (built_from self) (filter usable (firstn 20 entries)) articles
    /\ Forall clock_event evs.
Proof.
  intros Hfeed.
  unfold Scrapers.stuff_scrape, try_except, bind, Scrapers.feed_entries, ask.
  rewrite Hfeed. destruct entries as [| e0 entries].
  - exists [], []. cbn [ret]. repeat split; constructor.
  - destruct (stuff_loop_built (firstn 20 (e0 :: entries)) []
                (tr ++ [EvFeed (Scrapers.base_url self)]))
      as (r & evs & Hrun & (a & -> & new & -> & Hnew) & Hev).
    rewrite Hrun. exists new, evs. rewrite <- app_assoc. cbn [app].
    repeat split; auto.
Qed.

End StuffEntries.

Lemma stuff_scrape_keeps_usable_entries_witness :
  exists articles evs,
    Scrapers.stuff_scrape FeedFixtures.feed_world
      (Scrapers.config (Scrapers.StuffScraper FeedFixtures.feed_world)) []
    = (Ok articles, [] ++ EvFeed "https://www.stuff.co.nz/rss" :: evs)
    /\ Forall2 (built_from
                  (Scrapers.config (Scrapers.StuffScraper FeedFixtures.feed_world)))
               [FeedFixtures.entry_rates; FeedFixtures.entry_final] articles
    /\ Forall clock_event evs.
Proof.
  apply (stuff_scrape_keeps_usable_entries FeedFixtures.feed_world
           (Scrapers.config (Scrapers.StuffScraper FeedFixtures.feed_world)) []
           [FeedFixtures.entry_rates; FeedFixtures.entry_untitled;
            FeedFixtures.entry_final]).
  reflexivity.
Defined.

(** ** A source that brings nothing *)

(** X12: when a source answers with an exception or with no entries (no
    [<article>] element for the page scraper), the scraper returns the empty
    list after that one query: nothing is raised and no article is built. *)
Theorem silent_source_gives_no_articles (W : World) (self : Scrapers.Config)
  (tr : Trace) :
  (brings_nothing (feedparser_parse W (List.length tr) (Scrapers.base_url self)) ->
   Scrapers.stuff_scrape W self tr
   = (Ok [], tr ++ [EvFeed (Scrapers.base_url self)])
   /\ Scrapers.rnz_scrape W self tr
      = (Ok [], tr ++ [EvFeed (Scrapers.base_url self)])
   /\ Scrapers.onenews_scrape W self tr
      = (Ok [], tr ++ [EvFeed (Scrapers.base_url self)]))
  /\ (brings_nothing
        (fetch_article_elements W (List.length tr) (Scrapers.base_url self)) ->
      Scrapers.nzherald_scrape W self tr
      = (Ok [], tr ++ [EvHttpGet (Scrapers.base_url self)])).
Proof.
  split.
  - intros H.
    unfold Scrapers.stuff_scrape, Scrapers.rnz_scrape, Scrapers.onenews_scrape,
      try_except, bind, Scrapers.feed_entries, ask.
    destruct (feedparser_parse W (List.length tr) (Scrapers.base_url self))
      as [[| e0 entries] | e]; [| contradiction |]; auto.
  - intros H. unfold Scrapers.nzherald_scrape, try_except, bind, ask.
    destruct (fetch_article_elements W (List.length tr) (Scrapers.base_url self))
      as [[| e0 elems] | e]; [| contradiction |]; auto.
Qed.

(** ** The page scraper *)

Section PageArticles.

Variable W : World.
Variable self : Scrapers.Config.

Lemma extract_element_created elem :
  spec (Scrapers._extract_article_from_element W self elem)
       (returns (fun o => match o with
                          | Some a => created_article self a
                          | None => True
                          end)) any_event.
Proof.
  unfold Scrapers._extract_article_from_element.
  eapply spec_protect
    with (Q1 := fun r => match r with
                         | Ok (Some a) => created_article self a
                         | _ => True
                         end); [| intros [a |] Ha; exact Ha | exact I].
  destruct (extract_article_from_element W elem) as [f |]; [| apply spec_ret; exact I].
  eapply spec_bind;
    [unfold Scrapers._create_article; apply Article_init_returns; exact I
    | | intros; exact I].
  intros a (a' & Ha & H1 & H2 & H3 & H4 & H5 & H6 & _). inversion Ha; subst a'.
  apply spec_ret. unfold created_article. rewrite H1, H2, H4.
  repeat split; auto using strip_idempotent.
Qed.

Lemma nzherald_loop_distinct elems :
  forall articles seen_urls,
    NoDup (map url articles) ->
    (forall a, In a articles -> In (url a) seen_urls) ->
    Forall (created_article self) articles ->
    spec (Scrapers.nzherald_loop W self elems articles seen_urls)
         (returns (fun r => NoDup (map url r) /\ Forall (created_article self) r))
         any_event.
Proof.
  induction elems as [| elem elems IH]; intros articles seen Hnd Hseen Hall; simpl.
  - apply spec_ret. exists articles. auto.
  - destruct (Scrapers.max_articles self <=? Z.of_nat (List.length articles)).
    + apply spec_ret. exists articles. auto.
    + eapply spec_bind
        with (Q1 := returns (fun st =>
                NoDup (map url (fst st))
                /\ (forall a, In a (fst st) -> In (url a) (snd st))
                /\ Forall (created_article self) (fst st))).
      * eapply spec_protect
          with (Q1 := fun r => match r with
                               | Ok st =>
                                   NoDup (map url (fst st))
                                   /\ (forall a, In a (fst st) -> In (url a) (snd st))
                                   /\ Forall (created_article self) (fst st)
                               | Raise _ => True
                               end); [| auto | cbn [fst snd]; auto].
        eapply spec_bind; [apply extract_element_created | | intros; exact I].
        intros [a |] (o & Ho & Ha); inversion Ho; subst o;
          [| apply spec_ret; cbn [fst snd]; auto].
        destruct (Py.str_in (url a) seen) eqn:Hin; apply spec_ret; cbn [fst snd];
          [auto |].
        split; [| split].
        -- rewrite map_app. apply NoDup_snoc; [exact Hnd |].
           intros Hu. apply in_map_iff in Hu. destruct Hu as (b & Hb & Hbin).
           apply Hseen in Hbin. rewrite Hb in Hbin.
           apply str_in_In in Hbin. congruence.
        -- intros b Hb. apply in_app_or in Hb. destruct Hb as [Hb | [<- | []]].
           ++ right. apply Hseen. exact Hb.
           ++ left. reflexivity.
        -- apply Forall_app. split; [exact Hall | constructor; [exact Ha | constructor]].
      * intros st (st' & Hst & H1 & H2 & H3). inversion Hst; subst st'.
        apply IH; assumption.
      * intros e (a & Ha & _). discriminate.
Qed.

(** X13: the page scraper never raises, and no two articles it returns
    have the same URL; each article carries the scraper's source, a title
    and a description without surrounding whitespace, and no content. *)
Theorem nzherald_scrape_distinct_urls :
  spec (Scrapers.nzherald_scrape W self)
       (returns (fun r => NoDup (map url r) /\ Forall (created_article self) r))
       any_event.
Proof.
  unfold Scrapers.nzherald_scrape.
  eapply spec_protect
    with (Q1 := fun r => match r with
                         | Ok r => NoDup (map url r) /\ Forall (created_article self) r
                         | Raise _ => True
                         end); [| auto | split; constructor].
  eapply spec_bind with (Q1 := fun _ => True);
    [apply emits_ask; exact I | | intros; exact I].
  intros elems _. destruct elems as [| e0 elems];
    [apply spec_ret; split; constructor |].
  eapply spec_weaken;
    [apply nzherald_loop_distinct; [constructor | intros a [] | constructor] | | auto].
  intros r (r' & -> & Hr). exact Hr.
Qed.

End PageArticles.

(** ** The category the page scraper derives from a URL *)

Lemma insert_by_length_perm x l :
  Permutation (NZHerald.insert_by_length x l) (x :: l).
Proof.
  induction l as [| y l IH]; simpl; [reflexivity |].
  destruct (_ <? _)%nat; [| reflexivity].
  rewrite IH. apply perm_swap.
Qed.

Lemma sorted_by_length_perm l : Permutation (NZHerald.sorted_by_length l) l.
Proof.
  unfold NZHerald.sorted_by_length.
  induction l as [| x l IH]; simpl; [reflexivity |].
  rewrite insert_by_length_perm. constructor. exact IH.
Qed.

Lemma insert_by_length_sorted x l :
  longest_first l -> longest_first (NZHerald.insert_by_length x l).
Proof.
  induction l as [| y l IH]; intros Hl; simpl.
  - split; [constructor | exact I].
  - destruct Hl as [Hy Hl].
    destruct (Nat.ltb_spec (String.length (fst x)) (String.length (fst y))) as [Hlt | Hge].
    + cbn [longest_first]. split; [| apply IH; exact Hl].
      eapply Permutation_Forall; [symmetry; apply insert_by_length_perm |].
      constructor; [lia | exact Hy].
    + cbn [longest_first]. split; [| split; assumption].
      constructor; [exact Hge |].
      eapply Forall_impl; [| exact Hy]. cbn beta. intros z Hz. lia.
Qed.

Lemma sorted_by_length_sorted l : longest_first (NZHerald.sorted_by_length l).
Proof.
  unfold NZHerald.sorted_by_length.
  induction l as [| x l IH]; simpl; [exact I |].
  apply insert_by_length_sorted. exact IH.
Qed.

Lemma first_match_longest (rules : list (string * string)) (url default : string) :
  longest_first rules ->
  (Scrapers.first_match rules url default = default
   /\ Forall (fun r => Py.contains (fst r) url = false) rules)
  \/ exists p,
       In (p, Scrapers.first_match rules url default) rules
       /\ Py.contains p url = true
       /\ Forall (fun r => Py.contains (fst r) url = true ->
                           (String.length (fst r) <= String.length p)%nat) rules.
Proof.
  induction rules as [| [p c] rules IH]; intros Hs; simpl.
  - left. split; [reflexivity | constructor].
  - destruct Hs as [Hp Hs]. destruct (Py.contains p url) eqn:Hc.
    + right. exists p. split; [left; reflexivity |]. split; [exact Hc |].
      constructor; [intros _; cbn [fst]; lia |].
      eapply Forall_impl; [| exact Hp]. cbn beta. intros r Hr _. exact Hr.
    + destruct (IH Hs) as [[Hd Hnone] | (q & Hin & Hq & Hall)].
      * left. split; [exact Hd |]. constructor; [exact Hc | exact Hnone].
      * right. exists q. split; [right; exact Hin |]. split; [exact Hq |].
        constructor; [cbn [fst]; rewrite Hc; discriminate | exact Hall].
Qed.

Lemma lower_idempotent (s : string) : Py.lower (Py.lower s) = Py.lower s.
Proof.
  induction s as [| c s IH]; simpl; [reflexivity |].
  rewrite lower_char_idempotent, IH. reflexivity.
Qed.

(** X14: the category of a page article is decided on the lower-cased URL,
    so the letter case of the URL does not matter.  When no pattern of the
    table occurs in it the scraper's default category is returned; otherwise
    the category returned is the one of a pattern that occurs in it and that
    is at least as long as every other pattern that occurs in it (a
    sub-section wins over its section). *)
Theorem determine_category_longest_pattern (self : Scrapers.Config) (url : string) :
  NZHerald._determine_category self (Py.lower url)
  = NZHerald._determine_category self url
  /\ ((NZHerald._determine_category self url = Scrapers.category self
       /\ Forall (fun r => Py.contains (fst r) (Py.lower url) = false)
                 NZHerald.category_map)
      \/ exists p,
           In (p, NZHerald._determine_category self url) NZHerald.category_map
           /\ Py.contains p (Py.lower url) = true
           /\ Forall (fun r => Py.contains (fst r) (Py.lower url) = true ->
                               (String.length (fst r) <= String.length p)%nat)
                     NZHerald.category_map).
Proof.
  unfold NZHerald._determine_category. cbv zeta.
  split; [rewrite lower_idempotent; reflexivity |].
  pose proof (sorted_by_length_perm NZHerald.category_map) as Hperm.
  destruct (first_match_longest (NZHerald.sorted_by_length NZHerald.category_map)
              (Py.lower url) (Scrapers.category self)
              (sorted_by_length_sorted _)) as [[Hd Hnone] | (p & Hin & Hp & Hall)].
  - left. split; [exact Hd |].
    eapply Permutation_Forall; [exact Hperm | exact Hnone].
  - right. exists p. split; [eapply Permutation_in; [exact Hperm | exact Hin] |].
    split; [exact Hp |].
    eapply Permutation_Forall; [exact Hperm | exact Hall].
Qed.

(** ** The link the page scraper takes for an article *)

Lemma article_link_length (href : string) :
  article_link href = true -> (80 <= String.length href)%nat.
Proof.
  unfold article_link. intros H. apply andb_prop in H. destruct H as [H _].
  apply Nat.leb_le. exact H.
Qed.

Lemma longest_href_step (href : string) (rest : list string)
  (longest : option string) (max_len : nat) :
  NZHerald.longest_href_loop (href :: rest) longest max_len
  = if article_link href && (max_len <? String.length href)%nat
    then NZHerald.longest_href_loop rest (Some href) (String.length href)
    else NZHerald.longest_href_loop rest longest max_len.
Proof.
  cbn [NZHerald.longest_href_loop]. unfold article_link.
  destruct (Nat.ltb_spec (String.length href) 80) as [Hlt | Hge].
  - rewrite orb_true_r.
    replace (80 <=? String.length href)%nat with false
      by (symmetry; apply Nat.leb_gt; exact Hlt).
    reflexivity.
  - replace (80 <=? String.length href)%nat with true
      by (symmetry; apply Nat.leb_le; exact Hge).
    assert (Hne : Py.nonempty href = true).
    { destruct href; [simpl in Hge; lia | reflexivity]. }
    rewrite Hne. cbn [negb orb andb].
    destruct (NZHerald.is_navigation href); reflexivity.
Qed.

Lemma longest_href_loop_spec (hrefs : list string) :
  forall (longest : option string) (max_len : nat),
    (fst (NZHerald.longest_href_loop hrefs longest max_len) = longest
     /\ Forall (fun h => article_link h = true ->
                         (String.length h <= max_len)%nat) hrefs)
    \/ exists pre h post,
         hrefs = pre ++ h :: post
         /\ fst (NZHerald.longest_href_loop hrefs longest max_len) = Some h
         /\ article_link h = true
         /\ (max_len < String.length h)%nat
         /\ Forall (fun h' => article_link h' = true ->
                              (String.length h' < String.length h)%nat) pre
         /\ Forall (fun h' => article_link h' = true ->
                              (String.length h' <= String.length h)%nat) post.
Proof.
  induction hrefs as [| href rest IH]; intros longest max_len.
  - left. split; [reflexivity | constructor].
  - rewrite longest_href_step.
    destruct (article_link href) eqn:Hq; cbn [andb].
    + destruct (Nat.ltb_spec max_len (String.length href)) as [Hlt | Hge].
      * right.
        destruct (IH (Some href) (String.length href))
          as [[Hsame Hall] | (pre & h & post & -> & Hres & Hh & Hlen & Hpre & Hpost)].
        -- exists [], href, rest.
           split; [reflexivity |]. split; [exact Hsame |]. split; [exact Hq |].
           split; [exact Hlt |]. split; [constructor | exact Hall].
        -- exists (href :: pre), h, post.
           split; [reflexivity |]. split; [exact Hres |]. split; [exact Hh |].
           split; [lia |]. split; [| exact Hpost].
           constructor; [intros _; exact Hlen | exact Hpre].
      * destruct (IH longest max_len)
          as [[Hsame Hall] | (pre & h & post & -> & Hres & Hh & Hlen & Hpre & Hpost)].
        -- left. split; [exact Hsame |]. constructor; [intros _; exact Hge | exact Hall].
        -- right. exists (href :: pre), h, post.
           split; [reflexivity |]. split; [exact Hres |]. split; [exact Hh |].
           split; [exact Hlen |]. split; [| exact Hpost].
           constructor; [intros _; lia | exact Hpre].
    + destruct (IH longest max_len)
        as [[Hsame Hall] | (pre & h & post & -> & Hres & Hh & Hlen & Hpre & Hpost)].
      * left. split; [exact Hsame |].
        constructor; [intros H; rewrite Hq in H; discriminate | exact Hall].
      * right. exists (href :: pre), h, post.
        split; [reflexivity |]. split; [exact Hres |]. split; [exact Hh |].
        split; [exact Hlen |]. split; [| exact Hpost].
        constructor; [intros H; rewrite Hq in H; discriminate | exact Hpre].
Qed.

(** X15: of the links of an [<article>] element the page scraper takes
    the first of the longest among those whose address has at least 80
    characters and names no navigation page: every such link before it is
    shorter and none after it is longer.  It finds no link (and the element
    gives no article) exactly when no link is of that kind. *)
Theorem longest_href_is_first_longest (hrefs : list string) :
  (NZHerald.longest_href hrefs = None
   /\ Forall (fun h => article_link h = false) hrefs)
  \/ exists pre h post,
       hrefs = pre ++ h :: post
       /\ NZHerald.longest_href hrefs = Some h
       /\ article_link h = true
       /\ Forall (fun h' => article_link h' = true ->
                            (String.length h' < String.length h)%nat) pre
       /\ Forall (fun h' => article_link h' = true ->
                            (String.length h' <= String.length h)%nat) post.
Proof.
  unfold NZHerald.longest_href.
  destruct (longest_href_loop_spec hrefs None 0)
    as [[Hsame Hall] | (pre & h & post & -> & Hres & Hh & Hlen & Hpre & Hpost)].
  - left. rewrite Hsame. split; [reflexivity |].
    eapply Forall_impl; [| exact Hall]. cbn beta. intros h Hh.
    destruct (article_link h) eqn:Hq; [| reflexivity].
    pose proof (article_link_length h Hq). specialize (Hh eq_refl). lia.
  - right. exists pre, h, post. rewrite Hres.
    assert (Hne : Py.nonempty h = true).
    { pose proof (article_link_length h Hh). destruct h; [simpl in *; lia | reflexivity]. }
    rewrite Hne.
    split; [reflexivity |]. split; [reflexivity |]. split; [exact Hh |].
    split; [exact Hpre | exact Hpost].
Qed.

(** ** The validity check of the scrapers *)

Lemma nonempty_strip (s : string) : Py.nonempty (Py.strip s) = true <-> ~ blank s.
Proof.
  rewrite <- strip_empty_iff. destruct (Py.strip s); simpl; split; congruence.
Qed.

(** X16: [_is_valid_article] accepts an article exactly when neither its
    title nor its URL is blank (empty or whitespace only); the check the feed
    scrapers make on an entry before they build an article is the same one,
    applied to the entry's title and link with an absent key read as the
    empty string. *)
Theorem is_valid_article_rejects_blank (title url : string) (entry : FeedEntry) :
  (BaseScraper._is_valid_article title url = true
   <-> ~ blank title /\ ~ blank url)
  /\ usable entry
     = BaseScraper._is_valid_article (Scrapers.get_str (fe_title entry) "")
                                     (Scrapers.get_str (fe_link entry) "").
Proof.
  split.
  - unfold BaseScraper._is_valid_article.
    rewrite <- !nonempty_strip.
    destruct (Py.nonempty (Py.strip title)); split; intros H;
      try tauto; try discriminate.
  - unfold usable, entry_title, entry_url, BaseScraper._is_valid_article.
    destruct (Py.nonempty _); reflexivity.
Qed.

(** ** Whitespace normalisation *)

Lemma append_assoc (a b c : string) : ((a ++ b) ++ c = a ++ (b ++ c))%string.
Proof. induction a as [| x a IH]; simpl; [reflexivity | rewrite IH; reflexivity]. Qed.

Lemma append_empty_r (a : string) : (a ++ "" = a)%string.
Proof. induction a as [| x a IH]; simpl; [reflexivity | rewrite IH; reflexivity]. Qed.

Lemma all_chars_app (P : ascii -> Prop) (a b : string) :
  all_chars P (a ++ b) <-> all_chars P a /\ all_chars P b.
Proof. induction a as [| c a IH]; simpl; [tauto | rewrite IH; tauto]. Qed.

Lemma split_from_run (w : string) :
  all_chars (fun c => Py.isspace c = false) w ->
  forall cur s,
    ContentExtractor.split_from cur (w ++ s)
    = ContentExtractor.split_from (cur ++ w) s.
Proof.
  induction w as [| c w IH]; intros Hw cur s; simpl.
  - rewrite append_empty_r. reflexivity.
  - destruct Hw as [Hc Hw]. rewrite Hc, (IH Hw).
    rewrite append_assoc. reflexivity.
Qed.

Lemma split_from_solid (s : string) :
  forall cur,
    all_chars (fun c => Py.isspace c = false) cur ->
    Forall solid (ContentExtractor.split_from cur s).
Proof.
  assert (Hfield : forall cur, all_chars (fun c => Py.isspace c = false) cur ->
                               Forall solid (ContentExtractor.field cur)).
  { intros cur Hcur. unfold ContentExtractor.field.
    destruct cur as [| c cur]; [constructor |].
    constructor; [split; [discriminate | exact Hcur] | constructor]. }
  induction s as [| c s IH]; intros cur Hcur; simpl.
  - apply Hfield. exact Hcur.
  - destruct (Py.isspace c) eqn:Hc.
    + apply Forall_app. split; [apply Hfield; exact Hcur | apply IH; exact I].
    + apply IH. apply all_chars_app. split; [exact Hcur |]. simpl. auto.
Qed.

Lemma split_join (words : list string) :
  Forall solid words ->
  ContentExtractor.split (ContentExtractor.join " " words) = words.
Proof.
  unfold ContentExtractor.split.
  induction words as [| w words IH]; intros H; [reflexivity |].
  inversion H as [| ? ? [Hne Hw] Hrest]; subst.
  assert (Hf : ContentExtractor.field w = [w]).
  { unfold ContentExtractor.field. destruct w; [contradiction | reflexivity]. }
  destruct words as [| w2 words].
  - cbn [ContentExtractor.join].
    rewrite <- (append_empty_r w) at 1.
    rewrite (split_from_run w Hw). cbn [String.append ContentExtractor.split_from].
    exact Hf.
  - change (ContentExtractor.join " " (w :: w2 :: words))
      with (w ++ String " " (ContentExtractor.join " " (w2 :: words)))%string.
    rewrite (split_from_run w Hw).
    change (ContentExtractor.split_from ("" ++ w)
              (String " " (ContentExtractor.join " " (w2 :: words))))
      with (ContentExtractor.field w
            ++ ContentExtractor.split_from "" (ContentExtractor.join " " (w2 :: words))).
    rewrite Hf, (IH Hrest). reflexivity.
Qed.

Lemma join_single_spaced (words : list string) :
  Forall solid words -> single_spaced (ContentExtractor.join " " words).
Proof.
  unfold single_spaced.
  induction words as [| w words IH]; intros H; [exact I |].
  inversion H as [| ? ? [Hne Hw] Hrest]; subst.
  assert (Hww : all_chars (fun c => Py.isspace c = true -> c = " "%char) w).
  { clear -Hw. induction w as [| c w IHw]; [exact I |].
    destruct Hw as [Hc Hw]. split; [congruence | apply IHw; exact Hw]. }
  destruct words as [| w2 words]; [exact Hww |].
  change (ContentExtractor.join " " (w :: w2 :: words))
    with (w ++ String " " (ContentExtractor.join " " (w2 :: words)))%string.
  apply all_chars_app. split; [exact Hww |].
  split; [reflexivity | apply IH; exact Hrest].
Qed.

Lemma split_from_blank (s : string) :
  forall cur, ContentExtractor.split_from cur s = [] <-> cur = EmptyString /\ blank s.
Proof.
  induction s as [| c s IH]; intros cur; simpl.
  - unfold ContentExtractor.field. destruct cur; simpl; split;
      try (intros [H _]); try discriminate; auto. intros _. split; [reflexivity | exact I].
  - destruct (Py.isspace c) eqn:Hc.
    + unfold ContentExtractor.field. destruct cur as [| d cur]; simpl.
      * rewrite IH. unfold blank. simpl. tauto.
      * split; [discriminate | intros [H _]; discriminate].
    + rewrite IH. split.
      * intros [H _]. destruct cur; discriminate.
      * intros [_ [H _]]. congruence.
Qed.

(** X17: [_clean_text] keeps the words of a text (its maximal runs of
    characters that are not whitespace) in their order and changes nothing
    else but the whitespace between them: cleaning a cleaned text changes
    nothing, the only whitespace left is the space character, and the result
    is empty exactly when the text is blank. *)
Theorem clean_text_normalises (s : string) :
  ContentExtractor.split (ContentExtractor._clean_text s) = ContentExtractor.split s
  /\ ContentExtractor._clean_text (ContentExtractor._clean_text s)
     = ContentExtractor._clean_text s
  /\ single_spaced (ContentExtractor._clean_text s)
  /\ (ContentExtractor._clean_text s = EmptyString <-> blank s).
Proof.
  assert (Hsolid : Forall solid (ContentExtractor.split s))
    by (apply split_from_solid; exact I).
  assert (Hsplit : ContentExtractor.split (ContentExtractor._clean_text s)
                   = ContentExtractor.split s)
    by (apply split_join; exact Hsolid).
  split; [exact Hsplit |]. split; [| split].
  - unfold ContentExtractor._clean_text at 1 3. rewrite Hsplit. reflexivity.
  - apply join_single_spaced. exact Hsolid.
  - unfold ContentExtractor._clean_text. split.
    + intros H. destruct (ContentExtractor.split s) as [| w words] eqn:Hs.
      * apply (split_from_blank s EmptyString) in Hs. tauto.
      * inversion Hsolid as [| ? ? [Hne _] _]; subst.
        destruct words; cbn [ContentExtractor.join] in H;
          destruct w; try contradiction; discriminate.
    + intros H. replace (ContentExtractor.split s) with (@nil string); [reflexivity |].
      symmetry. apply (split_from_blank s EmptyString). auto.
Qed.

(** ** What a turn sends to the backend *)

Lemma bind_run {A B} (m : M A) (f : A -> M B) (tr : Trace) :
  bind m f tr = match m tr with
                | (Ok a, tr') => f a tr'
                | (Raise e, tr') => (Raise e, tr')
                end.
Proof. reflexivity. Qed.

(** A computation that asks nothing leaves the trace as it is. *)
Lemma silent_run {A} (m : M A) (Q : Res A -> Prop) (tr : Trace) :
  spec m Q no_event -> exists r, m tr = (r, tr) /\ Q r.
Proof.
  intros H. destruct (H tr) as (r & evs & Hrun & Hq & Hev).
  destruct evs as [| e evs]; [| inversion Hev as [| ? ? []]].
  rewrite app_nil_r in Hrun. eauto.
Qed.

Lemma emits_try {A} (m : M A) (catches : exn -> bool) (handler : M A)
  (E : Event -> Prop) :
  spec m (fun _ => True) E -> spec handler (fun _ => True) E ->
  spec (try_except m catches handler) (fun _ => True) E.
Proof.
  intros Hm Hh. eapply spec_try with (Q1 := fun _ => True); auto.
Qed.

Ltac silent :=
  repeat first
    [ apply emits_ret
    | apply emits_lift
    | apply emits_bind; [| intros]
    | apply emits_try
    | match goal with
      | |- spec (if ?c then _ else _) _ _ => destruct c
      end ].

Section Posting.

Variable W : World.

Lemma to_dict_story (self : Article) :
  spec (ArticleCode.to_dict W self)
       (fun r => forall w, r = Ok w -> wire_story self w) date_event.
Proof.
  intros tr. rewrite to_dict_shape. revert tr.
  change (spec (bind (read_stored W self)
                  (fun dt => bind (match dt with
                                   | None => ArticleCode.now_utc W
                                   | Some d => ret d
                                   end)
                                  (fun d => lift (serialized W self d))))
               (fun r => forall w, r = Ok w -> wire_story self w) date_event).
  eapply spec_bind with (Q1 := fun _ => True).
  - unfold read_stored. destruct (published_date self) as [d | s |].
    + apply emits_ret.
    + apply emits_of_spec with (Q := fun _ => True).
      eapply spec_try with (Q1 := fun _ => True); auto.
      * apply emits_bind; [apply emits_ask; exact I | intros; apply emits_ret].
      * intros; apply emits_ret.
    + apply emits_ret.
  - intros dt _. eapply spec_bind with (Q1 := fun _ => True).
    + destruct dt; [apply emits_ret |].
      unfold ArticleCode.now_utc. apply emits_ask. exact I.
    + intros d _. apply spec_lift. unfold serialized.
      destruct (auckland_time W d); intros w Hw; inversion Hw; subst.
      unfold wire_story, wire_of. cbn. repeat split.
    + intros e _ w Hw. discriminate.
  - intros e _ w Hw. discriminate.
Qed.

Lemma mapM_to_dict_story (l : list Article) :
  spec (mapM (ArticleCode.to_dict W) l)
       (fun r => forall data, r = Ok data -> Forall2 wire_story l data) date_event.
Proof.
  induction l as [| a l IH]; simpl.
  - apply spec_ret. intros data H. inversion H. constructor.
  - eapply spec_bind; [apply to_dict_story | |].
    + intros w Hw. eapply spec_bind; [apply IH | |].
      * intros ws Hws. apply spec_ret. intros data H. inversion H; subst.
        constructor; auto.
      * intros e _ data H. discriminate.
    + intros e _ data H. discriminate.
Qed.

Lemma batch_run (self : ArticleService.Service) (articles : list Article)
  (tr : Trace) :
  exists r pre posted,
    ArticleService.create_articles_batch W self articles tr
    = (r, tr ++ pre ++ posted)
    /\ r <> Raise RequestException
    /\ Forall date_event pre
    /\ batch_post self articles posted.
Proof.
  unfold ArticleService.create_articles_batch. unfold try_except at 1.
  rewrite bind_run.
  destruct (mapM_to_dict_story articles tr) as (r1 & evs1 & Hrun1 & Hdata & Hev1).
  rewrite Hrun1. destruct r1 as [data | e].
  - rewrite bind_run. unfold ArticleService.post at 1. unfold ask at 1.
    fold (batch_url self).
    assert (Hpost : batch_post self articles [EvPost (batch_url self) data]).
    { right. exists data. split; [reflexivity | apply Hdata; reflexivity]. }
    destruct (requests_post W (List.length (tr ++ evs1)) (batch_url self) data)
      as [resp | e].
    + match goal with
      | |- context [ (if ?c then ?m1 else ?m2) ?t ] =>
          assert (Hs : spec (if c then m1 else m2) (fun _ => True) no_event)
            by silent;
          destruct (silent_run (if c then m1 else m2) (fun _ => True) t Hs)
            as (r & Hr & _)
      end.
      rewrite Hr. destruct r as [a | e].
      * exists (Ok a), evs1, [EvPost (batch_url self) data].
        rewrite <- !app_assoc. repeat split; auto. discriminate.
      * destruct e; cbn [is_request_exception ret];
          try (eexists; exists evs1, [EvPost (batch_url self) data];
               rewrite <- !app_assoc; repeat split; auto; discriminate).
    + destruct e; cbn [is_request_exception ret];
        try (eexists; exists evs1, [EvPost (batch_url self) data];
             rewrite <- !app_assoc; repeat split; auto; discriminate).
  - destruct e; cbn [is_request_exception ret];
      try (eexists; exists evs1, []; rewrite app_nil_r;
           repeat split; auto; try discriminate; left; reflexivity).
Qed.

(** X18: [create_articles_batch] never raises a transport exception.  It
    reads the dates of the articles, then posts at most once: to the batch
    URL, a list with one entry for each article, in order, each with the
    article's title, description, URL, source and category.  Nothing is asked
    after the post. *)
Theorem batch_posts_every_article_once (self : ArticleService.Service)
  (articles : list Article) (tr : Trace) :
  exists r pre posted,
    ArticleService.create_articles_batch W self articles tr
    = (r, tr ++ pre ++ posted)
    /\ r <> Raise RequestException
    /\ Forall date_event pre
    /\ batch_post self articles posted.
Proof. apply batch_run. Qed.

End Posting.

(** ** The turn of a scraper *)

Section Turn.

Variable W : World.
Variable self : Orchestrator.ScraperOrchestrator.

Lemma same_story_refl (a : Article) : same_story a a.
Proof. unfold same_story. repeat split. Qed.

Lemma same_story_trans (a b c : Article) :
  same_story a b -> same_story b c -> same_story a c.
Proof.
  unfold same_story.
  intros (H1 & H2 & H3 & H4 & H5 & H6) (G1 & G2 & G3 & G4 & G5 & G6).
  repeat split; congruence.
Qed.

Lemma enrich_sentiment_story art :
  spec (Orchestrator.enrich_sentiment W art) (returns (same_story art))
       (quiet_event [art]).
Proof.
  unfold Orchestrator.enrich_sentiment.
  eapply spec_bind.
  - eapply spec_weaken; [apply analyze_returns | intros r H; exact H |].
    intros [] He; try contradiction; exact I.
  - intros st _. apply spec_ret. eexists. split; [reflexivity |].
    unfold same_story. cbn. repeat split.
  - intros e (a & Ha & _). discriminate.
Qed.

Lemma extract_one_story art :
  spec (Orchestrator.extract_one W art) (returns (same_story art))
       (quiet_event [art]).
Proof.
  unfold Orchestrator.extract_one.
  eapply spec_protect
    with (Q1 := fun r => match r with
                         | Ok a => same_story art a
                         | Raise _ => True
                         end); [| auto | apply same_story_refl].
  destruct (Py.nonempty (content art)); [apply spec_ret; apply same_story_refl |].
  eapply spec_bind with (Q1 := fun _ => True).
  - apply emits_ask. exists art. split; [left |]; reflexivity.
  - intros [s |] _; [| apply spec_ret; apply same_story_refl].
    destruct (Py.nonempty s); apply spec_ret;
      [unfold same_story; cbn; repeat split | apply same_story_refl].
  - intros; exact I.
Qed.

Lemma quiet_event_In (a : Article) (l : list Article) (e : Event) :
  In a l -> quiet_event [a] e -> quiet_event l e.
Proof.
  intros Hin. destruct e; cbn; auto.
  intros (b & [<- | []] & ->). exists a. auto.
Qed.

Lemma quiet_event_story (l l' : list Article) (e : Event) :
  Forall2 same_story l l' -> quiet_event l' e -> quiet_event l e.
Proof.
  intros H. destruct e; cbn; auto.
  intros (b & Hb & ->).
  destruct (Forall2_In_r _ _ _ _ H Hb) as (a & Ha & Hs).
  exists a. split; [exact Ha |]. destruct Hs as (_ & _ & Hu & _). exact Hu.
Qed.

Lemma mapM_story (f : Article -> M Article) (l : list Article) :
  (forall a, spec (f a) (returns (same_story a)) (quiet_event [a])) ->
  spec (mapM f l) (returns (Forall2 same_story l)) (quiet_event l).
Proof.
  intros Hf. apply spec_mapM. intros a Ha.
  eapply spec_weaken; [apply Hf | auto |].
  intros e. apply quiet_event_In. exact Ha.
Qed.

Lemma extract_phase_story (l : list Article) :
  spec (Orchestrator.extract_phase W l) (returns (Forall2 same_story l))
       (quiet_event l).
Proof.
  unfold Orchestrator.extract_phase.
  destruct (Orchestrator.extraction_enabled _).
  - apply mapM_story. apply extract_one_story.
  - apply spec_ret. exists l. split; [reflexivity |].
    induction l as [| a l IH]; constructor; [apply same_story_refl | exact IH].
Qed.

Lemma log_errors_silent (result : ArticleService.BatchResult) :
  spec (Orchestrator.log_errors result) (fun _ => True) no_event.
Proof. unfold Orchestrator.log_errors. silent. Qed.

(** The end of a turn, from the answer of the backend on: the counters are
    brought up to date and nothing is asked. *)
Lemma turn_tail_silent (totals : Orchestrator.Totals)
  (result : ArticleService.BatchResult) :
  spec (added <- lift (PyVal.add (Orchestrator.total_added totals)
                                 (ArticleService.added result)) ;;
        let totals :=
          Orchestrator.mkTotals (Orchestrator.total_scraped totals) added
                                (Orchestrator.total_skipped totals) in
        Orchestrator.protect totals
          (skipped <- lift (PyVal.add (Orchestrator.total_skipped totals)
                                      (ArticleService.skipped result)) ;;
           let totals :=
             Orchestrator.mkTotals (Orchestrator.total_scraped totals)
                                   (Orchestrator.total_added totals) skipped in
           Orchestrator.protect totals
             (Orchestrator.log_errors result ;;; ret totals)))
       (fun r => forall t, r = Ok t ->
                           Orchestrator.total_scraped t
                           = Orchestrator.total_scraped totals)
       no_event.
Proof.
  eapply spec_bind with (Q1 := fun _ => True); [apply emits_lift | |].
  - intros added _. cbv zeta.
    eapply spec_weaken
      with (E := no_event)
           (Q := returns (fun t => Orchestrator.total_scraped t
                                   = Orchestrator.total_scraped totals));
      [| intros r (a & -> & Ha) t Ht; inversion Ht; subst; exact Ha | auto].
    eapply spec_protect
      with (Q1 := fun r => match r with
                           | Ok t => Orchestrator.total_scraped t
                                     = Orchestrator.total_scraped totals
                           | Raise _ => True
                           end); [| auto | reflexivity].
    eapply spec_bind with (Q1 := fun _ => True);
      [apply emits_lift | | intros; exact I].
    intros skipped _.
    eapply spec_weaken
      with (E := no_event)
           (Q := returns (fun t => Orchestrator.total_scraped t
                                   = Orchestrator.total_scraped totals));
      [| intros r (a & -> & Ha); exact Ha | auto].
    eapply spec_protect
      with (Q1 := fun r => match r with
                           | Ok t => Orchestrator.total_scraped t
                                     = Orchestrator.total_scraped totals
                           | Raise _ => True
                           end); [| auto | reflexivity].
    eapply spec_bind with (Q1 := fun _ => True);
      [apply log_errors_silent | | intros; exact I].
    intros _ _. apply spec_ret. reflexivity.
  - intros e _ t Ht. discriminate.
Qed.

Lemma scrape_one_run (scraper : Scrapers.Scraper) (totals : Orchestrator.Totals)
  (tr tr1 : Trace) (art : Article) (rest : list Article) :
  Scrapers.scrape scraper tr = (Ok (art :: rest), tr1) ->
  exists totals' quiet posted,
    Orchestrator.scrape_one W self scraper totals tr
    = (Ok totals', tr1 ++ quiet ++ posted)
    /\ Orchestrator.total_scraped totals'
       = Orchestrator.total_scraped totals + Z.of_nat (List.length (art :: rest))
    /\ Forall (quiet_event (art :: rest)) quiet
    /\ batch_post (Orchestrator.article_service self) (art :: rest) posted.
Proof.
  intros Hscrape. set (articles := art :: rest) in *.
  unfold Orchestrator.scrape_one.
  unfold Orchestrator.protect at 1. unfold try_except at 1.
  rewrite bind_run, Hscrape. unfold articles at 1. cbv iota. fold articles.
  unfold Orchestrator.protect at 1. unfold try_except at 1.
  rewrite bind_run.
  destruct (mapM_story (Orchestrator.enrich_sentiment W) articles
              enrich_sentiment_story tr1)
    as (r1 & evs1 & Hrun1 & (l1 & -> & Hl1) & Hev1).
  rewrite Hrun1. rewrite bind_run.
  destruct (extract_phase_story l1 (tr1 ++ evs1))
    as (r2 & evs2 & Hrun2 & (l2 & -> & Hl2) & Hev2).
  rewrite Hrun2. rewrite bind_run.
  destruct (batch_run W (Orchestrator.article_service self) l2 ((tr1 ++ evs1) ++ evs2))
    as (r3 & pre & posted & Hrun3 & _ & Hpre & Hposted).
  rewrite Hrun3.
  assert (Hstory : Forall2 same_story articles l2).
  { eapply Forall2_compose; [| exact Hl1 | exact Hl2].
    intros a b c _. apply same_story_trans. }
  assert (Hquiet : Forall (quiet_event articles) ((evs1 ++ evs2) ++ pre)).
  { apply Forall_app. split; [apply Forall_app; split |].
    - exact Hev1.
    - eapply Forall_impl; [| exact Hev2].
      intros e. apply (quiet_event_story articles l1 e Hl1).
    - eapply Forall_impl; [| exact Hpre]. intros [] He; try contradiction; exact I. }
  assert (Hbatch : batch_post (Orchestrator.article_service self) articles posted).
  { destruct Hposted as [-> | (data & -> & Hdata)]; [left; reflexivity |].
    right. exists data. split; [reflexivity |].
    eapply Forall2_compose; [| exact Hstory | exact Hdata].
    intros a b w _ (H1 & H2 & H3 & H4 & H5 & _) (G1 & G2 & G3 & G4 & G5).
    unfold wire_story. repeat split; congruence. }
  assert (Htrace : ((tr1 ++ evs1) ++ evs2) ++ pre ++ posted
                   = tr1 ++ ((evs1 ++ evs2) ++ pre) ++ posted)
    by (rewrite <- !app_assoc; reflexivity).
  rewrite Htrace.
  destruct r3 as [result | e].
  - match goal with
    | |- context [ bind ?m ?f (tr1 ++ ?evs) ] =>
        destruct (silent_run (bind m f) _ (tr1 ++ evs)
                    (turn_tail_silent
                       (Orchestrator.mkTotals
                          (Orchestrator.total_scraped totals
                           + Z.of_nat (List.length articles))
                          (Orchestrator.total_added totals)
                          (Orchestrator.total_skipped totals))
                       result))
          as (r & Hr & Hscraped)
    end.
    rewrite Hr. destruct r as [t | e]; cbn [any_exception ret].
    + exists t, ((evs1 ++ evs2) ++ pre), posted.
      split; [reflexivity |]. split; [apply Hscraped; reflexivity |]. auto.
    + eexists. exists ((evs1 ++ evs2) ++ pre), posted.
      split; [reflexivity |]. split; [reflexivity |]. auto.
  - cbn [any_exception ret].
    eexists. exists ((evs1 ++ evs2) ++ pre), posted.
    split; [reflexivity |]. split; [reflexivity |]. auto.
Qed.

Lemma scrape_one_nothing (scraper : Scrapers.Scraper) (totals : Orchestrator.Totals)
  (tr : Trace) :
  match fst (Scrapers.scrape scraper tr) with
  | Ok (_ :: _) => True
  | _ => Orchestrator.scrape_one W self scraper totals tr
         = (Ok totals, snd (Scrapers.scrape scraper tr))
  end.
Proof.
  unfold Orchestrator.scrape_one, Orchestrator.protect, try_except.
  rewrite bind_run.
  destruct (Scrapers.scrape scraper tr) as [[[| a l] | e] tr1]; cbn [fst snd];
    [reflexivity | exact I | reflexivity].
Qed.

(** X19: in the turn of a scraper that hands over articles, everything
    asked between the scrape and the post is inference, dates, or the
    content of one of the scraped articles; the backend is sent at most one
    request, as the last thing of the turn, to the batch URL, and its list
    has one entry for each scraped article, in order, with the title,
    description, URL, source and category the scraper gave it. *)
Theorem turn_posts_the_scraped_articles (scraper : Scrapers.Scraper)
  (totals : Orchestrator.Totals) (tr tr1 : Trace) (art : Article)
  (rest : list Article) :
  Scrapers.scrape scraper tr = (Ok (art :: rest), tr1) ->
  exists totals' quiet posted,
    Orchestrator.scrape_one W self scraper totals tr
    = (Ok totals', tr1 ++ quiet ++ posted)
    /\ Forall (quiet_event (art :: rest)) quiet
    /\ batch_post (Orchestrator.article_service self) (art :: rest) posted.
Proof.
  intros H.
  destruct (scrape_one_run scraper totals tr tr1 art rest H)
    as (t & quiet & posted & Hrun & _ & Hq & Hp).
  exists t, quiet, posted. auto.
Qed.

Lemma scrape_one_counts (scraper : Scrapers.Scraper)
  (totals : Orchestrator.Totals) (tr : Trace) :
  exists totals' tr',
    Orchestrator.scrape_one W self scraper totals tr = (Ok totals', tr')
    /\ Orchestrator.total_scraped totals'
       = Orchestrator.total_scraped totals + scraped_count scraper tr
    /\ (scraped_count scraper tr = 0 ->
        totals' = totals /\ tr' = snd (Scrapers.scrape scraper tr)).
Proof.
  unfold scraped_count.
  pose proof (scrape_one_nothing scraper totals tr) as Hnone.
  destruct (Scrapers.scrape scraper tr) as [[[| art rest] | e] tr1] eqn:Hs;
    cbn [fst snd] in *.
  - exists totals, tr1. split; [exact Hnone |]. split; [cbn; lia | auto].
  - destruct (scrape_one_run scraper totals tr tr1 art rest Hs)
      as (t & quiet & posted & Hrun & Hcount & _).
    eexists. eexists. split; [exact Hrun |]. split; [exact Hcount |].
    cbn [List.length]. lia.
  - exists totals, tr1. split; [exact Hnone |]. split; [lia | auto].
Qed.

(** X20: a turn adds to the scraped counter exactly the number of articles
    the scraper handed over (nothing when it raised), whatever enrichment and
    the backend do afterwards; and when the scraper raised or handed over no
    article the turn changes no counter and asks nothing more. *)
Theorem turn_counts_the_scraped_articles (scraper : Scrapers.Scraper)
  (totals : Orchestrator.Totals) (tr : Trace) :
  exists totals' tr',
    Orchestrator.scrape_one W self scraper totals tr = (Ok totals', tr')
    /\ Orchestrator.total_scraped totals'
       = Orchestrator.total_scraped totals + scraped_count scraper tr
    /\ (scraped_count scraper tr = 0 ->
        totals' = totals /\ tr' = snd (Scrapers.scrape scraper tr)).
Proof. apply scrape_one_counts. Qed.

Lemma scrape_loop_bounded (cap : Z) (l : list Scrapers.Scraper) :
  (forall s, In s l -> forall tr, 0 <= scraped_count s tr <= cap) ->
  forall totals tr,
    exists totals' tr',
      Scrapers.for_each (Orchestrator.scrape_one W self) l totals tr
      = (Ok totals', tr')
      /\ Orchestrator.total_scraped totals
         <= Orchestrator.total_scraped totals'
         <= Orchestrator.total_scraped totals + cap * Z.of_nat (List.length l).
Proof.
  induction l as [| s l IH]; intros Hcap totals tr.
  - exists totals, tr. split; [reflexivity |]. cbn [List.length]. lia.
  - cbn [Scrapers.for_each]. rewrite bind_run.
    destruct (scrape_one_counts s totals tr) as (t1 & tr1 & -> & Hcount & _).
    destruct (IH (fun s' Hs' => Hcap s' (or_intror Hs')) t1 tr1)
      as (t2 & tr2 & Hrun & Hbound).
    exists t2, tr2. split; [exact Hrun |].
    pose proof (Hcap s (or_introl eq_refl) tr) as Hs.
    rewrite Hcount in Hbound. cbn [List.length]. lia.
Qed.

End Turn.

Lemma turn_posts_the_scraped_articles_witness :
  exists totals' quiet posted,
    Orchestrator.scrape_one Fixtures.quiet_world Fixtures.demo_orchestrator
      Fixtures.good_three Orchestrator.zero_totals []
    = (Ok totals', [] ++ quiet ++ posted)
    /\ Forall (quiet_event [Fixtures.demo_article "https://example.org/3"]) quiet
    /\ batch_post (Orchestrator.article_service Fixtures.demo_orchestrator)
                  [Fixtures.demo_article "https://example.org/3"] posted.
Proof.
  apply (turn_posts_the_scraped_articles Fixtures.quiet_world
           Fixtures.demo_orchestrator Fixtures.good_three
           Orchestrator.zero_totals [] []
           (Fixtures.demo_article "https://example.org/3") []).
  reflexivity.
Defined.

(** ** A run of the registered scrapers *)

Lemma scraped_count_capped (scraper : Scrapers.Scraper) (cap : nat) :
  spec (Scrapers.scrape scraper)
       (returns (fun r => (List.length r <= cap)%nat)) any_event ->
  forall tr, 0 <= scraped_count scraper tr <= Z.of_nat cap.
Proof.
  intros H tr. unfold scraped_count.
  destruct (H tr) as (r & evs & Hrun & (a & -> & Ha) & _).
  rewrite Hrun. cbn [fst]. lia.
Qed.

(** X21: a run of the orchestrator as [__init__] builds it, with the four
    registered scrapers, always returns its counters, and counts at most 80
    scraped articles, whatever the sources, the inference provider and the
    backend answer. *)
Theorem registered_run_scrapes_at_most_80 (W : World) (tr : Trace) :
  exists totals tr',
    Orchestrator.scrape_all W (Orchestrator.ScraperOrchestrator_init W) tr
    = (Ok totals, tr')
    /\ 0 <= Orchestrator.total_scraped totals <= 80.
Proof.
  unfold Orchestrator.scrape_all.
  destruct (scrape_loop_bounded W (Orchestrator.ScraperOrchestrator_init W) 20
              (Orchestrator.scrapers (Orchestrator.ScraperOrchestrator_init W)))
    with (totals := Orchestrator.zero_totals) (tr := tr)
    as (totals & tr' & Hrun & Hbound).
  - intros s Hs.
    cbn [Orchestrator.scrapers Orchestrator.ScraperOrchestrator_init
         Scrapers.get_all_scrapers] in Hs.
    unfold Scrapers.SCRAPER_REGISTRY in Hs.
    change 20 with (Z.of_nat 20).
    destruct Hs as [<- | [<- | [<- | [<- | []]]]]; apply scraped_count_capped.
    + apply (feed_scrape_length W _ (Scrapers.stuff_entry W _)).
      apply stuff_entry_length.
    + apply (feed_scrape_length W _ (Scrapers.rnz_entry W _)).
      apply rnz_entry_length.
    + apply (feed_scrape_length W _ (Scrapers.onenews_entry W _)).
      apply onenews_entry_length.
    + eapply spec_weaken; [apply nzherald_scrape_length | | auto].
      * cbn. lia.
      * intros r (a & -> & Ha). exists a. split; [reflexivity |].
        cbn in Ha. lia.
  - exists totals, tr'. split; [exact Hrun |].
    cbn in Hbound. lia.
Qed.

(** ** Values the term extraction cannot use *)

Lemma forallb_hashable_false (items : list json) :
  forallb PyVal.hashable items = false <->
  exists x, In x items /\ PyVal.hashable x = false.
Proof.
  induction items as [| y items IH]; simpl.
  - split; [discriminate | intros (x & [] & _)].
  - destruct (PyVal.hashable y) eqn:Hy; simpl.
    + rewrite IH. split.
      * intros (x & Hx & Hh). exists x. auto.
      * intros (x & [<- | Hx] & Hh); [congruence | exists x; auto].
    + split; [intros _; exists y; auto | reflexivity].
Qed.

Lemma list_fromkeys_unusable (v : json) :
  PyVal.list_fromkeys v = Raise TypeError <-> unusable v.
Proof.
  destruct v as [| b | n | f | s | items | fields]; simpl;
    try (split; [intros _; exact I | reflexivity]);
    try (split; [discriminate | intros []]).
  rewrite <- forallb_hashable_false.
  destruct (forallb PyVal.hashable items); split; congruence.
Qed.

(** X22: what the analyzer takes from the decoded block.  A block that is
    not an object gives two empty lists.  When the value of
    [positive_words] cannot be used (null, a number, a boolean, or a list
    holding a list or an object) both lists are empty, whatever
    [negative_words] holds; when only the value of [negative_words] cannot be
    used the positive list is kept and the negative list is empty.  A value
    that is a string is taken character by character. *)
Theorem unusable_term_values :
  (forall data, PyVal.is_dict data = false ->
     SentimentAnalyzer.terms_of_data data = ([], []))
  /\ (forall fields pv,
        PyVal.lookup fields "positive_words" = Some pv ->
        unusable pv ->
        SentimentAnalyzer.terms_of_data (JObj fields) = ([], []))
  /\ (forall fields pv nv positive_words,
        PyVal.lookup fields "positive_words" = Some pv ->
        PyVal.list_fromkeys pv = Ok positive_words ->
        PyVal.lookup fields "negative_words" = Some nv ->
        unusable nv ->
        SentimentAnalyzer.terms_of_data (JObj fields) = (positive_words, []))
  /\ (forall fields s,
        PyVal.lookup fields "positive_words" = Some (JStr s) ->
        fst (SentimentAnalyzer.terms_of_data (JObj fields))
        = PyVal.dedup [] (PyVal.chars s)).
Proof.
  split; [| split; [| split]].
  - intros data H. destruct data; try discriminate; reflexivity.
  - intros fields pv Hp Hu. apply list_fromkeys_unusable in Hu.
    unfold SentimentAnalyzer.terms_of_data, PyVal.get, PyVal.dict_get.
    rewrite Hp, Hu. reflexivity.
  - intros fields pv nv ps Hp Hps Hn Hu. apply list_fromkeys_unusable in Hu.
    unfold SentimentAnalyzer.terms_of_data, PyVal.get, PyVal.dict_get.
    rewrite Hp, Hps, Hn, Hu. reflexivity.
  - intros fields s Hp.
    unfold SentimentAnalyzer.terms_of_data, PyVal.get, PyVal.dict_get.
    rewrite Hp. cbn [PyVal.list_fromkeys].
    destruct (PyVal.lookup fields "negative_words") as [nv |];
      [destruct (PyVal.list_fromkeys nv) |]; reflexivity.
Qed.

(** ** The text of a page *)

Lemma take_length_le (n : nat) (s : string) :
  (String.length (Py.take n s) <= n)%nat.
Proof.
  unfold Py.take. revert s. induction n as [| n IH]; intros s.
  - destruct s; simpl; lia.
  - destruct s as [| c s]; simpl; [lia |]. specialize (IH s). lia.
Qed.

Lemma best_text_longest (candidates : list (Res string)) :
  forall best,
    (String.length best <= String.length (ContentExtractor.best_text candidates best))%nat
    /\ Forall (fun c => match c with
                        | Ok t => (String.length t
                                   <= String.length
                                        (ContentExtractor.best_text candidates best))%nat
                        | Raise _ => True
                        end) candidates
    /\ (ContentExtractor.best_text candidates best = best
        \/ In (Ok (ContentExtractor.best_text candidates best)) candidates).
Proof.
  induction candidates as [| [t | e] rest IH]; intros best; cbn [ContentExtractor.best_text].
  - split; [lia |]. split; [constructor | left; reflexivity].
  - destruct (Nat.ltb_spec (String.length best) (String.length t)) as [Hlt | Hge].
    + destruct (IH t) as (H1 & H2 & H3). split; [lia |].
      split; [constructor; [exact H1 | exact H2] |].
      right. destruct H3 as [-> | H3]; [left; reflexivity | right; exact H3].
    + destruct (IH best) as (H1 & H2 & H3). split; [exact H1 |].
      split; [constructor; [lia | exact H2] |].
      destruct H3 as [H3 | H3]; [left; exact H3 | right; right; exact H3].
  - destruct (IH best) as (H1 & H2 & H3). split; [exact H1 |].
    split; [constructor; [exact I | exact H2] |].
    destruct H3 as [H3 | H3]; [left; exact H3 | right; right; exact H3].
Qed.

Lemma best_text_first (candidates : list (Res string)) :
  forall best,
    (ContentExtractor.best_text candidates best = best
     /\ Forall (fun c => match c with
                         | Ok t => (String.length t <= String.length best)%nat
                         | Raise _ => True
                         end) candidates)
    \/ exists pre post,
         candidates = pre ++ Ok (ContentExtractor.best_text candidates best) :: post
         /\ (String.length best
             < String.length (ContentExtractor.best_text candidates best))%nat
         /\ Forall (fun c => match c with
                             | Ok t => (String.length t
                                        < String.length
                                            (ContentExtractor.best_text candidates best))%nat
                             | Raise _ => True
                             end) pre
         /\ Forall (fun c => match c with
                             | Ok t => (String.length t
                                        <= String.length
                                             (ContentExtractor.best_text candidates best))%nat
                             | Raise _ => True
                             end) post.
Proof.
  induction candidates as [| [t | e] rest IH]; intros best;
    cbn [ContentExtractor.best_text].
  - left. split; [reflexivity | constructor].
  - destruct (Nat.ltb_spec (String.length best) (String.length t)) as [Hlt | Hge].
    + right. destruct (IH t) as [[Hsame Hall] | (pre & post & Hc & Hl & Hpre & Hpost)].
      * rewrite Hsame. exists [], rest.
        split; [reflexivity |]. split; [exact Hlt |]. split; [constructor | exact Hall].
      * exists (Ok t :: pre), post.
        split; [cbn [app]; f_equal; exact Hc |]. split; [lia |].
        split; [constructor; [exact Hl | exact Hpre] | exact Hpost].
    + destruct (IH best) as [[Hsame Hall] | (pre & post & Hc & Hl & Hpre & Hpost)].
      * left. split; [exact Hsame |]. constructor; [exact Hge | exact Hall].
      * right. exists (Ok t :: pre), post.
        split; [cbn [app]; f_equal; exact Hc |]. split; [exact Hl |].
        split; [constructor; [lia | exact Hpre] | exact Hpost].
  - destruct (IH best) as [[Hsame Hall] | (pre & post & Hc & Hl & Hpre & Hpost)].
    + left. split; [exact Hsame |]. constructor; [exact I | exact Hall].
    + right. exists (Raise e :: pre), post.
      split; [cbn [app]; f_equal; exact Hc |]. split; [exact Hl |].
      split; [constructor; [exact I | exact Hpre] | exact Hpost].
Qed.

Section PageText.

Variable fetch : nat -> string -> Res string.
Variable parse : string -> Res ContentExtractor.Soup.

Lemma page_text_bounded (soup : ContentExtractor.Soup) (max_chars : nat) (s : string) :
  ContentExtractor.page_text soup max_chars = Some s ->
  (String.length s <= max_chars)%nat.
Proof.
  unfold ContentExtractor.page_text.
  destruct (ContentExtractor.main_candidate soup) as [text |].
  - intros H. inversion H. apply take_length_le.
  - cbv zeta. destruct (Py.nonempty (ContentExtractor.best_text _ _)).
    + intros H. inversion H. apply take_length_le.
    + destruct (Py.nonempty _); [| discriminate].
      intros H. inversion H. apply take_length_le.
Qed.

(** X23: [extract_content] makes one request, for the URL it is given.
    It never raises a transport exception: when the request fails with one,
    or when reading the page raises anything, the result is [None]; any
    other exception of the request leaves the call.  When the page is read,
    the result is the text taken from it.  A text it returns never has more
    than [max_chars] characters; on a page with an [<article>] or [<main>]
    element it is the cleaned text of that element, cut at [max_chars], even
    when that text is empty. *)
Theorem extract_content_bounded (url : string) (max_chars : nat) (tr : Trace) :
  exists r,
    ContentExtractor.extract_content fetch parse url max_chars tr
    = (r, tr ++ [EvHttpGet url])
    /\ r <> Raise RequestException
    /\ (forall s, r = Ok (Some s) -> (String.length s <= max_chars)%nat)
    /\ (forall e, r = Raise e -> fetch (List.length tr) url = Raise e)
    /\ (forall html e,
          fetch (List.length tr) url = Ok html -> parse html = Raise e ->
          r = Ok None)
    /\ (forall html soup text,
          fetch (List.length tr) url = Ok html -> parse html = Ok soup ->
          ContentExtractor.main_candidate soup = Some text ->
          r = Ok (Some (Py.take max_chars (ContentExtractor._clean_text text))))
    /\ (forall e,
          fetch (List.length tr) url = Raise e ->
          r = if is_request_exception e then Ok None else Raise e)
    /\ (forall html soup,
          fetch (List.length tr) url = Ok html -> parse html = Ok soup ->
          r = Ok (ContentExtractor.page_text soup max_chars)).
Proof.
  unfold ContentExtractor.extract_content.
  rewrite bind_run. unfold try_except at 1. rewrite bind_run. unfold ask at 1.
  destruct (fetch (List.length tr) url) as [html | e] eqn:Hf.
  - cbn [ret]. unfold try_except, lift. rewrite bind_run.
    destruct (parse html) as [soup | e] eqn:Hp; cbn [any_exception ret].
    + exists (Ok (ContentExtractor.page_text soup max_chars)).
      split; [reflexivity |]. split; [discriminate |].
      split; [| split; [| split; [| split; [| split]]]].
      * intros s Hs. inversion Hs as [Hs']. eapply page_text_bounded. exact Hs'.
      * intros e He. discriminate.
      * intros h e Hh Hpe. inversion Hh; subst. rewrite Hp in Hpe. discriminate.
      * intros h sp text Hh Hsp Hm. inversion Hh; subst. rewrite Hp in Hsp.
        inversion Hsp; subst. unfold ContentExtractor.page_text. rewrite Hm.
        reflexivity.
      * intros e He. discriminate.
      * intros h sp Hh Hsp. inversion Hh; subst. rewrite Hp in Hsp.
        inversion Hsp; subst. reflexivity.
    + exists (Ok None).
      split; [reflexivity |]. split; [discriminate |].
      split; [| split; [| split; [| split; [| split]]]].
      * intros s Hs. discriminate.
      * intros e' He. discriminate.
      * reflexivity.
      * intros h sp text Hh Hsp. inversion Hh; subst. rewrite Hp in Hsp. discriminate.
      * intros e' He. discriminate.
      * intros h sp Hh Hsp. inversion Hh; subst. rewrite Hp in Hsp. discriminate.
  - exists (if is_request_exception e then Ok None else Raise e).
    split; [destruct e; reflexivity |].
    split; [destruct e; discriminate |].
    split; [| split; [| split; [| split; [| split]]]].
    + intros s Hs. destruct e; discriminate.
    + intros e' He. destruct e; inversion He; reflexivity.
    + intros h e' Hh. discriminate.
    + intros h sp text Hh. discriminate.
    + intros e' He. inversion He; subst. reflexivity.
    + intros h sp Hh. discriminate.
Qed.

(** X24: on a page without [<article>] and [<main>], the text is taken
    from the first of the longest texts among the candidate elements that
    can be read, when one of them is not empty: every readable candidate
    before it is shorter, and none after it is longer. *)
Theorem page_text_falls_back_to_longest (soup : ContentExtractor.Soup)
  (max_chars : nat) :
  let best := ContentExtractor.best_text (ContentExtractor.candidates soup) "" in
  ContentExtractor.main_candidate soup = None ->
  best <> EmptyString ->
  ContentExtractor.page_text soup max_chars
  = Some (Py.take max_chars (ContentExtractor._clean_text best))
  /\ In (Ok best) (ContentExtractor.candidates soup)
  /\ Forall (fun c => match c with
                      | Ok t => (String.length t <= String.length best)%nat
                      | Raise _ => True
                      end) (ContentExtractor.candidates soup)
  /\ exists pre post,
       ContentExtractor.candidates soup = pre ++ Ok best :: post
       /\ Forall (fun c => match c with
                           | Ok t => (String.length t < String.length best)%nat
                           | Raise _ => True
                           end) pre
       /\ Forall (fun c => match c with
                           | Ok t => (String.length t <= String.length best)%nat
                           | Raise _ => True
                           end) post.
Proof.
  intros best Hmain Hbest.
  destruct (best_text_longest (ContentExtractor.candidates soup) "")
    as (_ & Hall & Hin).
  fold best in Hall, Hin.
  split; [| split; [| split; [exact Hall |]]].
  - unfold ContentExtractor.page_text. rewrite Hmain. cbv zeta. fold best.
    destruct best; [contradiction | reflexivity].
  - destruct Hin as [Hin | Hin]; [congruence | exact Hin].
  - destruct (best_text_first (ContentExtractor.candidates soup) "")
      as [[Hsame _] | (pre & post & Hc & _ & Hpre & Hpost)].
    + fold best in Hsame. congruence.
    + fold best in Hc, Hpre, Hpost. exists pre, post. auto.
Qed.

End PageText.

Lemma page_text_falls_back_to_longest_witness :
  ContentExtractor.page_text
    (ContentExtractor.mkSoup None
       [Ok "Menu"%string; Raise (OtherException 0);
        Ok "Rates  rise again"%string; Ok "Stocks fell today"%string]
       "Home"%string ""%string) 10
  = Some "Rates rise"%string.
Proof.
  refine (proj1 (page_text_falls_back_to_longest
                   (ContentExtractor.mkSoup None
                      [Ok "Menu"%string; Raise (OtherException 0);
                       Ok "Rates  rise again"%string; Ok "Stocks fell today"%string]
                      "Home"%string ""%string) 10 _ _)).
  - reflexivity.
  - discriminate.
Defined.
(** ** The rules of the feed scrapers *)

Lemma first_match_first_rule (rules : list (string * string))
  (url default : string) :
  (Scrapers.first_match rules url default = default
   /\ no_pattern_of rules url)
  \/ exists pre p post,
       rules = pre ++ (p, Scrapers.first_match rules url default) :: post
       /\ Py.contains p url = true
       /\ no_pattern_of pre url.
Proof.
  unfold no_pattern_of.
  induction rules as [| [p c] rules IH]; simpl.
  - left. split; [reflexivity | constructor].
  - destruct (Py.contains p url) eqn:Hc.
    + right. exists [], p, rules. split; [reflexivity |]. split; [exact Hc | constructor].
    + destruct IH as [[Hd Hnone] | (pre & q & post & Hr & Hq & Hpre)].
      * left. split; [exact Hd |]. constructor; [exact Hc | exact Hnone].
      * right. exists ((p, c) :: pre), q, post.
        split; [simpl; f_equal; exact Hr |]. split; [exact Hq |].
        constructor; [exact Hc | exact Hpre].
Qed.

Lemma first_match_decided (rules : list (string * string)) (default : string)
  (a : Article) :
  category a = Scrapers.first_match rules (url a) default ->
  category_decided rules default a.
Proof.
  intros Hc. unfold category_decided. rewrite Hc.
  apply first_match_first_rule.
Qed.

Lemma resolve_link_first (links : list (option string)) (url : string) :
  (Scrapers.resolve_link links url = url
   /\ Forall (fun l => names_1news l = false) links)
  \/ exists pre post,
       links = pre ++ Some (Scrapers.resolve_link links url) :: post
       /\ Py.contains "1news.co.nz" (Scrapers.resolve_link links url) = true
       /\ Forall (fun l => names_1news l = false) pre.
Proof.
  induction links as [| [u |] links IH]; cbn [Scrapers.resolve_link].
  - left. split; [reflexivity | constructor].
  - destruct (Py.contains "1news.co.nz" u) eqn:Hc.
    + right. exists [], links. split; [reflexivity |]. split; [exact Hc | constructor].
    + destruct IH as [[Hd Hnone] | (pre & post & Hr & Hq & Hpre)].
      * left. split; [exact Hd |]. constructor; [exact Hc | exact Hnone].
      * right. exists (Some u :: pre), post.
        split; [simpl; f_equal; exact Hr |]. split; [exact Hq |].
        constructor; [exact Hc | exact Hpre].
  - destruct IH as [[Hd Hnone] | (pre & post & Hr & Hq & Hpre)].
    + left. split; [exact Hd |]. constructor; [reflexivity | exact Hnone].
    + right. exists (None :: pre), post.
      split; [simpl; f_equal; exact Hr |]. split; [exact Hq |].
      constructor; [reflexivity | exact Hpre].
Qed.

Section FeedRules.

Variable W : World.

(** The last step of the body of a feed loop, for the category. *)
Lemma append_decided (rules : list (string * string)) (default : string)
  (articles : list Article) (t d u s : string) (pd : option PublishedDate) :
  Forall (category_decided rules default) articles ->
  spec (article <- ArticleCode.Article_init W t d u s
                     (Scrapers.first_match rules u default) pd ;;
        ret (articles ++ [article]))
       (fun r => match r with
                 | Ok r => Forall (category_decided rules default) r
                 | Raise _ => True
                 end) any_event.
Proof.
  intros Hacc.
  eapply spec_bind; [apply Article_init_returns; exact I | | intros; exact I].
  intros a (a' & Ha & _ & _ & Hu & _ & Hc & _).
  inversion Ha; subst a'. apply spec_ret.
  apply Forall_app. split; [exact Hacc |]. constructor; [| constructor].
  apply first_match_decided. rewrite Hu. exact Hc.
Qed.

Lemma stuff_entry_decided self entry articles :
  Forall (category_decided stuff_rules (Scrapers.category self)) articles ->
  spec (Scrapers.stuff_entry W self entry articles)
       (returns (Forall (category_decided stuff_rules (Scrapers.category self))))
       any_event.
Proof.
  intros Hacc. unfold Scrapers.stuff_entry. cbv zeta.
  apply protect_Forall; [| exact Hacc].
  destruct (negb _ || negb _); [apply spec_ret; exact Hacc |].
  apply (append_decided stuff_rules). exact Hacc.
Qed.

Lemma rnz_entry_decided self entry articles :
  Forall (category_decided rnz_rules (Scrapers.category self)) articles ->
  spec (Scrapers.rnz_entry W self entry articles)
       (returns (Forall (category_decided rnz_rules (Scrapers.category self))))
       any_event.
Proof.
  intros Hacc. unfold Scrapers.rnz_entry. cbv zeta.
  apply protect_Forall; [| exact Hacc].
  destruct (negb _ || negb _); [apply spec_ret; exact Hacc |].
  eapply spec_bind with (Q1 := fun _ => True);
    [apply plain_description_emits | | intros; exact I].
  intros d _. apply (append_decided rnz_rules). exact Hacc.
Qed.

Lemma onenews_entry_decided self entry articles :
  Forall (category_decided onenews_rules (Scrapers.category self)) articles ->
  spec (Scrapers.onenews_entry W self entry articles)
       (returns (Forall (category_decided onenews_rules (Scrapers.category self))))
       any_event.
Proof.
  intros Hacc. unfold Scrapers.onenews_entry. cbv zeta.
  apply protect_Forall; [| exact Hacc].
  destruct (negb _ || negb _); [apply spec_ret; exact Hacc |].
  eapply spec_bind with (Q1 := fun _ => True);
    [apply plain_description_emits | | intros; exact I].
  intros d _. apply (append_decided onenews_rules). exact Hacc.
Qed.

(** X25: in the list a feed scraper returns, the category of every article
    is decided by the article's URL and the scraper's rules, taken in the
    order of the [if]/[elif] chain of its [scrape]: it is the category of
    the first rule whose pattern occurs in the URL, and the scraper's
    default category ("General", "News", "Latest") when no pattern occurs
    in it.  For the 1News scraper the URL is the resolved one. *)
Theorem feed_scrapers_decide_category_by_first_rule :
  let stuff := Scrapers.StuffScraper W in
  let rnz := Scrapers.RNZScraper W in
  let onenews := Scrapers.OneNewsScraper W in
  spec (Scrapers.scrape stuff)
       (returns (Forall (category_decided stuff_rules "General")))
       any_event
  /\ spec (Scrapers.scrape rnz)
       (returns (Forall (category_decided rnz_rules "News")))
       any_event
  /\ spec (Scrapers.scrape onenews)
       (returns (Forall (category_decided onenews_rules "Latest")))
       any_event.
Proof.
  cbv zeta. split; [| split].
  - apply (feed_scrape_Forall W _ _ (Scrapers.stuff_entry W _)).
    intros entry acc.
    apply (stuff_entry_decided (Scrapers.config (Scrapers.StuffScraper W))).
  - apply (feed_scrape_Forall W _ _ (Scrapers.rnz_entry W _)).
    intros entry acc.
    apply (rnz_entry_decided (Scrapers.config (Scrapers.RNZScraper W))).
  - apply (feed_scrape_Forall W _ _ (Scrapers.onenews_entry W _)).
    intros entry acc.
    apply (onenews_entry_decided (Scrapers.config (Scrapers.OneNewsScraper W))).
Qed.

(** ** What the 1News scraper keeps of a feed *)

Variable self : Scrapers.Config.

Lemma entry_resolved (entry : FeedEntry) :
  resolved_url entry
    (match fe_links entry with
     | Some links =>
         if Py.contains "news.google.com" (entry_url entry)
         then Scrapers.resolve_link links (entry_url entry)
         else entry_url entry
     | None => entry_url entry
     end).
Proof.
  unfold resolved_url. destruct (fe_links entry) as [links |]; [| reflexivity].
  destruct (Py.contains "news.google.com" (entry_url entry)); [| reflexivity].
  destruct (resolve_link_first links (entry_url entry))
    as [[Hsame Hnone] | (pre & post & Hl & Hc & Hpre)].
  - left. split; [exact Hsame | exact Hnone].
  - right. exists pre, post. split; [exact Hl |]. split; [exact Hc | exact Hpre].
Qed.

Lemma onenews_entry_built entry articles :
  spec (Scrapers.onenews_entry W self entry articles)
       (returns (fun r =>
          if onenews_kept W entry
          then exists a, r = articles ++ [a] /\ onenews_built self entry a
          else r = articles))
       clock_event.
Proof.
  unfold Scrapers.onenews_entry. cbv zeta.
  fold (entry_title entry). fold (entry_url entry).
  unfold onenews_kept, usable, description_read. cbv zeta.
  destruct (Py.nonempty (entry_title entry)) eqn:Ht;
    [| apply spec_ret; exists articles; split; reflexivity].
  destruct (Py.nonempty (entry_url entry)) eqn:Hu;
    [| apply spec_ret; exists articles; split; reflexivity].
  cbn [negb orb andb].
  set (d := Py.strip (Scrapers.get_str (fe_summary entry) (entry_title entry))).
  set (u := match fe_links entry with
            | Some links =>
                if Py.contains "news.google.com" (entry_url entry)
                then Scrapers.resolve_link links (entry_url entry)
                else entry_url entry
            | None => entry_url entry
            end).
  assert (Hgo : forall d' tr,
            exists r evs,
              try_except
                (article <- ArticleCode.Article_init W (entry_title entry) d' u
                              (Scrapers.source self)
                              (Scrapers.first_match
                                 [("/new-zealand/", "New Zealand"); ("/world/", "World");
                                  ("/politics/", "Politics"); ("/sport/", "Sport")]%string
                                 u (Scrapers.category self))
                              (Scrapers.as_published (Scrapers.published_iso entry)) ;;
                 ret (articles ++ [article]))
                any_exception (ret articles) tr = (r, tr ++ evs)
              /\ returns (fun r => exists a, r = articles ++ [a]
                                             /\ onenews_built self entry a) r
              /\ Forall clock_event evs).
  { intros d' tr. unfold try_except.
    destruct (Article_init_returns W clock_event
                (entry_title entry) d' u (Scrapers.source self)
                (Scrapers.first_match
                   [("/new-zealand/", "New Zealand"); ("/world/", "World");
                    ("/politics/", "Politics"); ("/sport/", "Sport")]%string
                   u (Scrapers.category self))
                (Scrapers.as_published (Scrapers.published_iso entry))
                eq_refl tr)
      as (r & evs & Hrun & (a & -> & H1 & H2 & H3 & H4 & H5 & _) & Hev).
    unfold bind. rewrite Hrun. cbn [ret].
    exists (Ok (articles ++ [a])), evs. split; [reflexivity |]. split; [| exact Hev].
    exists (articles ++ [a]). split; [reflexivity |].
    exists a. split; [reflexivity |].
    unfold onenews_built.
    split; [exact H1 |]. split; [exact H4 |].
    split; [rewrite H3; apply entry_resolved |].
    apply first_match_decided. rewrite H3. exact H5. }
  intros tr. unfold Scrapers.plain_description.
  destruct (Py.contains "<" d) eqn:Hmark.
  - destruct (soup_get_text W d) as [d' | e] eqn:Hsoup; cbn [is_ok].
    + destruct (Hgo d' tr) as (r & evs & Hrun & Hr & Hev).
      exists r, evs. split; [| split; [exact Hr | exact Hev]].
      rewrite <- Hrun. reflexivity.
    + exists (Ok articles), []. rewrite app_nil_r.
      split; [| split; [exists articles; split; reflexivity | constructor]].
      reflexivity.
  - destruct (Hgo d tr) as (r & evs & Hrun & Hr & Hev).
    exists r, evs. split; [| split; [exact Hr | exact Hev]].
    rewrite <- Hrun. reflexivity.
Qed.

Lemma onenews_loop_built entries :
  forall articles,
    spec (Scrapers.for_each (Scrapers.onenews_entry W self) entries articles)
         (returns (fun r =>
            exists new, r = articles ++ new
                        /\ Forall2 (onenews_built self)
                                   (filter (onenews_kept W) entries) new))
         clock_event.
Proof.
  induction entries as [| entry entries IH]; intros articles; simpl.
  - apply spec_ret. exists articles. split; [reflexivity |].
    exists []. rewrite app_nil_r. split; [reflexivity | constructor].
  - eapply spec_bind; [apply onenews_entry_built | |].
    + intros r (r' & Hr & Hcase). inversion Hr; subst r'.
      eapply spec_weaken; [apply (IH r) | | auto].
      intros res (out & -> & new & -> & Hnew). exists (r ++ new).
      split; [reflexivity |].
      destruct (onenews_kept W entry).
      * destruct Hcase as (a & -> & Ha). exists (a :: new).
        rewrite <- app_assoc. split; [reflexivity |]. constructor; assumption.
      * subst r. exists new. auto.
    + intros e (a & Ha & _). discriminate.
Qed.

(** X26: when the feed is read, the 1News scraper returns exactly one
    article for each of the first 20 entries that has a title and a link
    and a description that can be read, in the order of the feed.  The
    article has the entry's stripped title and the scraper's source.  Its
    URL is the entry's link, unless that link is a Google News redirect and
    the entry has links of which one names [1news.co.nz]: the URL is then
    the address of the first such link.  Its category is decided on that
    URL by the first rule that applies.  After the feed query only the
    clock is asked. *)
Theorem onenews_scrape_resolves_redirects (tr : Trace) (entries : list FeedEntry) :
  feedparser_parse W (List.length tr) (Scrapers.base_url self) = Ok entries ->
  exists articles evs,
    Scrapers.onenews_scrape W self tr
    = (Ok articles, tr ++ EvFeed (Scrapers.base_url self) :: evs)
    /\ Forall2 (onenews_built self)
               (filter (onenews_kept W) (firstn 20 entries)) articles
    /\ Forall clock_event evs.
Proof.
  intros Hfeed.
  unfold Scrapers.onenews_scrape, try_except, bind, Scrapers.feed_entries, ask.
  rewrite Hfeed. destruct entries as [| e0 entries].
  - exists [], []. cbn [ret]. repeat split; constructor.
  - destruct (onenews_loop_built (firstn 20 (e0 :: entries)) []
                (tr ++ [EvFeed (Scrapers.base_url self)]))
      as (r & evs & Hrun & (a & -> & new & -> & Hnew) & Hev).
    rewrite Hrun. exists new, evs. rewrite <- app_assoc. cbn [app].
    repeat split; auto.
Qed.

End FeedRules.

Lemma onenews_scrape_resolves_redirects_witness :
  exists articles evs,
    Scrapers.onenews_scrape EdgeFixtures.google_world
      (Scrapers.config (Scrapers.OneNewsScraper EdgeFixtures.google_world)) []
    = (Ok articles,
       [] ++ EvFeed
               "https://news.google.com/rss/search?q=site:1news.co.nz&hl=en-NZ&gl=NZ&ceid=NZ:en"
             :: evs)
    /\ Forall2 (onenews_built
                  (Scrapers.config (Scrapers.OneNewsScraper EdgeFixtures.google_world)))
               [EdgeFixtures.entry_redirect; EdgeFixtures.entry_unresolved] articles
    /\ Forall clock_event evs.
Proof.
  apply (onenews_scrape_resolves_redirects EdgeFixtures.google_world
           (Scrapers.config (Scrapers.OneNewsScraper EdgeFixtures.google_world)) []
           [EdgeFixtures.entry_redirect; EdgeFixtures.entry_unresolved]).
  reflexivity.
Defined.
(** ** The conversion of the published date *)











Section PublishedDate.

Variable W : World.



End PublishedDate.

